(* ===== verification/_CoqProject ===== *)
-Q . S2P
Prelude.v
Machine.v
JsString.v
Numbers.v
Catalog.v
Cards.v
FlipBook.v
Reading.v
Comments.v
Overlay.v
Notifications.v
Search.v
Navigation.v
ReadingLists.v
Sidebar.v
Upload.v
Pages.v
BookPage.v
