(* ===== verification/Prelude.v ===== *)
(** * BookTube client: a verification development

    The repository is the client side of a book sharing and reading
    application written in TypeScript for React.  All state is component
    state ([useState]), every handler is a synchronous state transition, and
    there are two asynchronous elements: the auto-read interval owned by
    the reader and the timeout of the simulated upload.  The development
    models each component as a record for its state, one definition per
    handler with the name the source gives it, the effects a handler
    requests (toasts, speech, navigation) as a list of [Effect] values, and
    the rendered output as a view record whose fields are the conditions
    and values the JSX computes.  User actions, the clock and the callbacks
    of children are events: each component has [enabled] (the element is
    on the screen and not disabled), [handle], and [fire], which is
    [handle] followed by the effect phase where the component has one.
    [run] (a list of events) and [reachable] (the closure of [fire] from
    the initial state) are notions of the development, not code: they are
    what the theorems about sequences and invariants are stated with.
    A view keeps what the JSX computes from state and properties (texts,
    flags, lists, which elements exist) and leaves out markup and class
    names.

    Three things the sources rely on are not code of the repository and
    enter the model as stated assumptions: whether a router of
    react-router is above the navigation bar (the parameter [inRouter];
    [SearchResults.useNavigate] throws without one), React's rule that an
    exception during a render unmounts the tree when no error boundary
    catches it ([Navigation.crashed]), and React's rule that effects run
    after a render that returned ([Navigation.commit],
    [BookReader.commit]).

    ** Files and the code they model

    - [Prelude] (this file): the JavaScript idioms every component uses.
      Truthiness and the [a || d] default ([Truthy], [js_or], [opt_or]), the
      records-with-an-id pattern of the handlers
      ([prev.map(x => x.id === id ? f(x) : x)] is [update_by_id],
      [prev.filter(x => x.id !== id)] is [remove_by_id], [xs.find(x => x.id
      === id)] is [find_by_id]), [slice], [charAt], the type [Effect], the
      hint database [bv] and the tactics [bv_simpl], [case_id] and
      [by_compute].
    - [Machine]: what the event machines share: the run of a list of
      events ([runWith]), reachability ([reachableFrom]), invariants by
      induction over the steps and the repetition of a cycle of events.
      The pages and the reader define [run] and [reachable] through it.
    - [JsString]: [toLowerCase], [includes] and [trim] on strings of code
      units below 256 (Basic Latin and the Latin-1 Supplement), where
      they are the methods of ECMAScript, with the declarative
      specification of each.
    - [Numbers]: the arithmetic the labels use, at the precision of the
      code.  [JsNumber.divide] is the division of two integers as a
      double (53-bit mantissa, round to nearest, ties to even),
      [toFixed1], [ceil], [floor] and [multiply] by the double nearest to
      [0.05] work on that representation; [formatViews] is the function
      repeated in [BookCard.tsx], [BookRecommendations.tsx],
      [BookReader.tsx] and the profile page.
    - [Catalog]: the [Book] record (the fields of [interface Book] and
      the two page counters the pages read, optional because the interface
      does not declare them), the catalogue as a section variable (the
      fixture module is not part of the sources), the recommendation
      filter and [formatDuration] of [BookRecommendations.tsx].
    - [Cards]: [BookCard.tsx] (labels, tag badges, clicks), [BookGrid.tsx]
      and the rows of [BookRecommendations.tsx].
    - [FlipBook]: [FlipBook.tsx], its two flags, the resize listener and
      its view.
    - [Reading]: the reading-progress controller, that is the state of
      [BookReader.tsx] together with the [bookState] of the page that owns
      it.  The interval of the auto-read effect is explicit state: a
      [Timer] holding the page counters its callback closed over, its
      delay and the time left.  [commit] is the effect phase (cleanup and
      a fresh interval when a dependency changed or the page rendered),
      [intervalCallback] the callback.  [fire] is the executable step
      function; [step] states its transitions as rules for the proofs by
      rule induction, and [step_fire] and [fire_step] relate the two.  The
      progress value is a quotient, [NaN] or an infinity
      ([FlipBook.Progress]).
    - [Comments]: the comment handlers of the book page
      ([handleCommentSubmit], [handleCommentLike], [handleCommentDislike],
      [handleReply]) in [CommentThread], with the three-valued reaction of
      the specification as abstract model, and the form and rendering of
      [CommentSection.tsx] in [CommentSection].
    - [Overlay]: the interface of a panel that begins its render with
      [if (!isOpen) return null] ([Class Overlay]): nothing is rendered
      and no event of the panel can happen while the flag is off.  The
      notification centre and the reading-list dialog are its instances;
      the navigation bar uses the notification centre through the
      interface ([closed_panel_keeps_notifications]).  The search results
      are mounted conditionally and can throw, and are no instance.
    - [Notifications]: [NotificationCenter.tsx], with the finite map the
      list stands for as its abstract specification.
    - [Search]: [SearchResults.tsx]: the filter, the effect that stores its
      result, the statistics, and [useNavigate] of react-router, which
      throws when no router is above the component.
    - [Navigation]: [Navigation.tsx]: the query, the two flags and both
      children, with the mounting and unmounting of the search overlay;
      an overlay whose render threw has no state and ends the bar.
    - [ReadingLists]: [ReadingListModal.tsx] in both of its modes.
    - [Sidebar]: [Sidebar.tsx], and in [Shell] what the four pages share:
      the sidebar flag, the current page and the bar.
    - [Upload]: [app/upload/page.tsx]: the form, the tags, the validation
      and the timeout of the simulated upload as a list of times left.
    - [Pages]: [app/page.tsx] and [app/profile/page.tsx].
    - [BookPage]: [app/book/[bookId]/page.tsx], the composition of the
      frame, the reader, the comment section and the recommendations;
      [fire] chooses between the not-found screen ([fireNotFound]) and
      the page of the book ([fireFound]).  A
      change of page state renders the page, which hands the reader a new
      [onPageChange] and makes it run its interval effect again
      ([BookPage.rerender]); a change of state of a child does not.

    ** What the theorems show

    - Reading: in every reachable state the interval exists exactly when
      the reader is mounted, reading and not muted, and its closure is the
      current render's; buttons and the interval callback keep the page in
      the book while the flip callback does not clamp; auto-advance turns
      one page per period, stops one period after the last page is
      reached, and is then quiescent; stop, mute and unmount remove the
      interval; a render of the page restarts the period.
    - Comments: submit prepends, reply appends to the parent and changes
      no other field of it, after either toggle the flags are exclusive
      and the counters agree with them, toggling twice restores a comment
      whose opposite reaction is not set, and both toggles refine the
      three-valued reaction; a blank draft is never posted.
    - Numbers: for every counter below [2^52] that is not a tie the label
      of [formatViews] is the decimal rounding of the counter; the last
      fifty counters below one million are labelled [1000.0K];
      [Math.ceil(a / b)] and [Math.floor(a / b)] are the integer ceiling
      and floor; [Math.floor(views * 0.05)] is [views / 20].
    - Notifications, search and navigation: the unread count never grows,
      and the list of notifications refines a finite map from identifiers
      to read flags on which the handlers are [alter], [fmap] and
      [delete];
      the search result is exactly the matching books, in catalogue order;
      the overlay is open for queries that are not blank only and, while
      it is rendered, holds the result for the current query; the closed
      notification panel keeps its list; outside a router the first
      keystroke that opens the search overlay takes the bar down.
    - Reading lists: the sum of the book counts follows a ledger of the
      events exactly (one book per created list in save mode, one per
      list with the identifier of a clicked card, minus the books of
      deleted lists); the two modes do not mix; identifiers are clock
      readings and can collide.
    - Upload: in every reachable state the tags are distinct and trimmed,
      at most one timeout is pending and the flag agrees with it; the
      upload completes after exactly three seconds; nothing cancels the
      timeout, which fires after the page has been left.
    - Pages: the invariants of the parts hold together in every state the
      book page reaches; reactions to comments that come more often than
      the period keep auto-read from turning the page; selecting a
      recommendation sets the page to one and the page count to the
      stored one, and leaves the book on the screen; typing in a child
      does not touch the reader.

    ** Numbers, bounds and fuel

    JavaScript numbers are modelled as [Z] where the code adds or
    subtracts one, which is exact below [2^53].  Where the code divides
    or multiplies by a fraction, the double is computed: the theorems of
    [Numbers] hold for operands from zero below [2^52], which covers
    every view count and every time difference in milliseconds for
    142000 years.  Subnormal results, overflow and [NaN] (an unparsable
    date) are outside the model of the labels; the progress value of the
    reader, the one quotient whose divisor can be zero, has [NaN] and the
    infinities.  The interval delay [30000 / readingSpeed] is the integer
    quotient, which is what the timer receives for an integer speed, and
    the speed is 1 in every reachable state.  Time is explicit: an interval or timeout holds the
    milliseconds left, [Elapse ms] is enabled while no pending callback is
    overtaken, and the callback is an event that is enabled when its time
    is zero.  Strings are sequences of code units below 256; text with
    a code unit from 256 on is outside the model.  All recursion is structural on the list of
    events or on the data; [Reading.autoplay] takes the number of periods
    and the theorems name the exact number that suffices.

    ** Not modelled

    Styling, class names and stacking order; icons; the [react-pageflip]
    widget itself (only the callback it invokes and the properties passed
    to it); the tab, toast, tooltip, theme and query providers of
    [layout.tsx] and [ClientProviders.tsx]; file contents (a file is its
    name); the locale formatting of dates, which is a section variable
    where a label needs it. *)

From stdpp Require Export base tactics option list strings pretty numbers relations.
From Stdlib Require Export ZArith Lia Ascii.

#[local] Open Scope Z_scope.

(** ** Truthiness and defaults *)

(** [if (x)], [!x], [x || d] and [x && y] coerce [x] to a boolean. *)
Class Truthy (A : Type) := truthy : A → bool.
#[global] Hint Mode Truthy ! : typeclass_instances.

#[export] Instance bool_truthy : Truthy bool := λ b, b.
#[export] Instance Z_truthy : Truthy Z := λ n, negb (n =? 0).
#[export] Instance string_truthy : Truthy string :=
  λ s, match s with EmptyString => false | String _ _ => true end.
#[export] Instance option_truthy `{Truthy A} : Truthy (option A) :=
  λ o, match o with Some x => truthy x | None => false end.

(** [a || d] *)
Definition js_or `{Truthy A} (a d : A) : A := if truthy a then a else d.

(** [o?.f || d], where [o] is the optional field already projected. *)
Definition opt_or `{Truthy A} (o : option A) (d : A) : A :=
  match o with Some x => js_or x d | None => d end.

(** [s.charAt(i)]: the character as a string, the empty string out of range. *)
Definition charAt (i : nat) (s : string) : string :=
  match String.get i s with
  | Some c => String c EmptyString
  | None => EmptyString
  end.

(** ** Side effects requested by handlers *)

Inductive Effect : Type :=
  | Toast (title description : string) (destructive : bool)
  | Speak (text : string) (rate : Z)
  | SpeechCancel
  | RouterPush (path : string)
  | Navigate (path : string)
  | SetLocation (href : string).

#[export] Instance Effect_eq_dec : EqDecision Effect.
Proof. solve_decision. Defined.

(** The double quote, for texts that contain one. *)
Definition dquote : string := String "034" EmptyString.

(** ** Records with an [id] field *)

Class HasId (A : Type) := get_id : A → string.
#[global] Hint Mode HasId ! : typeclass_instances.

Section by_id.
Context `{HasId A}.
Implicit Types (l : list A) (i j : string) (f g : A → A).

(** [x.id === i ? f(x) : x] *)
Definition on_id f i (x : A) : A := if decide (get_id x = i) then f x else x.

(** [l.map(x => x.id === i ? f(x) : x)] *)
Definition update_by_id f i l : list A := on_id f i <$> l.

(** [l.filter(x => x.id !== i)] *)
Definition remove_by_id i l : list A := filter (λ x, get_id x ≠ i) l.

(** [l.find(x => x.id === i)] *)
Definition find_by_id i l : option A := snd <$> list_find (λ x, get_id x = i) l.

Definition ids l : list string := get_id <$> l.

(** A function that leaves the identifier alone, as every object spread
    [{...x, field: v}] of the sources does. *)
Definition keeps_id f : Prop := ∀ x, get_id (f x) = get_id x.

Lemma on_id_eq f i x : get_id x = i → on_id f i x = f x.
Proof. unfold on_id. by case_decide. Qed.

Lemma on_id_ne f i x : get_id x ≠ i → on_id f i x = x.
Proof. unfold on_id. by case_decide. Qed.

Lemma on_id_keeps f i : keeps_id f → keeps_id (on_id f i).
Proof. intros Hf x. unfold on_id. case_decide; [apply Hf | done]. Qed.

Lemma update_by_id_nil f i : update_by_id f i [] = [].
Proof. done. Qed.

Lemma update_by_id_cons f i x l :
  update_by_id f i (x :: l) = on_id f i x :: update_by_id f i l.
Proof. done. Qed.

Lemma update_by_id_app f i l1 l2 :
  update_by_id f i (l1 ++ l2) = update_by_id f i l1 ++ update_by_id f i l2.
Proof. apply fmap_app. Qed.

Lemma length_update_by_id f i l : length (update_by_id f i l) = length l.
Proof. apply length_fmap. Qed.

Lemma update_by_id_lookup f i l k :
  update_by_id f i l !! k = on_id f i <$> l !! k.
Proof. apply list_lookup_fmap. Qed.

Lemma ids_update_by_id f i l :
  keeps_id f → ids (update_by_id f i l) = ids l.
Proof.
  intros Hf. unfold ids, update_by_id. rewrite <- list_fmap_compose.
  apply list_fmap_ext. intros _ x _. simpl. by apply on_id_keeps.
Qed.

Lemma update_by_id_absent f i l : i ∉ ids l → update_by_id f i l = l.
Proof.
  unfold ids, update_by_id. intros Hi.
  rewrite <- (list_fmap_id l) at 2. apply list_fmap_ext.
  intros k x Hk. apply on_id_ne. intros <-. apply Hi.
  apply list_elem_of_fmap. exists x. split; [done|].
  by eapply list_elem_of_lookup_2.
Qed.

Lemma update_by_id_compose f g i l :
  keeps_id g →
  update_by_id f i (update_by_id g i l) = update_by_id (f ∘ g) i l.
Proof.
  intros Hg. unfold update_by_id. rewrite <- list_fmap_compose.
  apply list_fmap_ext. intros _ x _. simpl. unfold on_id.
  repeat case_decide; try done. exfalso. by rewrite Hg in *.
Qed.

Lemma update_by_id_comm f g i j l :
  i ≠ j → keeps_id f → keeps_id g →
  update_by_id f i (update_by_id g j l) = update_by_id g j (update_by_id f i l).
Proof.
  intros Hij Hf Hg. unfold update_by_id. rewrite <- !list_fmap_compose.
  apply list_fmap_ext. intros _ x _. simpl. unfold on_id.
  repeat case_decide; try done; rewrite ?Hf, ?Hg in *; congruence.
Qed.

(** With unique identifiers the update touches one position, the one
    that holds the identifier. *)
Lemma update_by_id_insert f i l k x :
  NoDup (ids l) → l !! k = Some x → get_id x = i →
  update_by_id f i l = <[k := f x]> l.
Proof.
  intros Hnd Hk Hi. apply list_eq. intros n.
  rewrite update_by_id_lookup.
  destruct (decide (n = k)) as [->|Hne].
  - rewrite Hk, list_lookup_insert_eq by by eapply lookup_lt_Some.
    simpl. by rewrite on_id_eq.
  - rewrite list_lookup_insert_ne by done.
    destruct (l !! n) as [y|] eqn:Hn; [|done]. simpl. f_equal.
    apply on_id_ne. intros Hy. apply Hne.
    eapply (NoDup_lookup (ids l)); [done| |];
      unfold ids; rewrite list_lookup_fmap;
      [rewrite Hn; reflexivity | rewrite Hk; simpl; congruence].
Qed.

Lemma elem_of_remove_by_id i l x :
  x ∈ remove_by_id i l ↔ x ∈ l ∧ get_id x ≠ i.
Proof. unfold remove_by_id. rewrite list_elem_of_filter. tauto. Qed.

Lemma remove_by_id_absent i l : i ∉ ids (remove_by_id i l).
Proof.
  unfold ids. rewrite list_elem_of_fmap. intros (x & -> & Hx).
  by apply elem_of_remove_by_id in Hx as [_ ?].
Qed.

Lemma remove_by_id_id i l : i ∉ ids l → remove_by_id i l = l.
Proof.
  unfold ids, remove_by_id. induction l as [|x l IH]; [done|].
  rewrite fmap_cons, not_elem_of_cons. intros [Hx Hl].
  rewrite filter_cons_True by done. f_equal. by apply IH.
Qed.

Lemma length_remove_by_id i l : (length (remove_by_id i l) ≤ length l)%nat.
Proof. apply length_filter. Qed.

Lemma remove_by_id_sublist i l : remove_by_id i l `sublist_of` l.
Proof. apply sublist_filter. Qed.

Lemma remove_by_id_idemp i l :
  remove_by_id i (remove_by_id i l) = remove_by_id i l.
Proof. apply remove_by_id_id, remove_by_id_absent. Qed.

Lemma remove_by_id_app i l1 l2 :
  remove_by_id i (l1 ++ l2) = remove_by_id i l1 ++ remove_by_id i l2.
Proof. apply filter_app. Qed.

Lemma find_by_id_Some i l x :
  find_by_id i l = Some x → x ∈ l ∧ get_id x = i.
Proof.
  unfold find_by_id. intros Hx. apply fmap_Some in Hx as ([k y] & Hf & ->).
  apply list_find_Some in Hf as (Hk & Hy & _). split; [|done].
  by eapply list_elem_of_lookup_2.
Qed.

Lemma find_by_id_None i l : find_by_id i l = None ↔ i ∉ ids l.
Proof.
  unfold find_by_id, ids. rewrite fmap_None, list_find_None, Forall_forall.
  rewrite list_elem_of_fmap. split.
  - intros Hall (x & -> & Hx). by apply (Hall x).
  - intros Hno x Hx Hi. apply Hno. by exists x.
Qed.

Lemma find_by_id_cons i x l :
  find_by_id i (x :: l) =
    if decide (get_id x = i) then Some x else find_by_id i l.
Proof.
  unfold find_by_id. simpl. case_decide; [done|].
  by rewrite <- option_fmap_compose.
Qed.

(** With distinct identifiers the search by identifier finds the element
    itself. *)
Lemma find_by_id_elem l x :
  NoDup (ids l) → x ∈ l → find_by_id (get_id x) l = Some x.
Proof.
  induction l as [|y l IH]; [by intros _ ?%elem_of_nil|].
  unfold ids. rewrite fmap_cons, NoDup_cons, find_by_id_cons, elem_of_cons.
  intros [Hy Hl] [->|Hx]; [by rewrite decide_True|].
  rewrite decide_False; [by apply IH|].
  intros Hi. apply Hy. rewrite Hi. by apply list_elem_of_fmap_2.
Qed.
End by_id.

(** ** Slices *)

(** [l.slice(a, b)] for indices [0 <= a] and [0 <= b]. *)
Definition slice {A} (a b : nat) (l : list A) : list A := take (b - a) (drop a l).

Lemma filter_none {A} (P : A → Prop) `{∀ x, Decision (P x)} (l : list A) :
  Forall (λ x, ¬ P x) l → filter P l = [].
Proof. induction 1; [done|]. by rewrite filter_cons_False. Qed.

Lemma length_slice {A} a b (l : list A) :
  length (slice a b l) = ((b - a) `min` (length l - a))%nat.
Proof. unfold slice. by rewrite length_take, length_drop. Qed.

Lemma slice_sublist {A} a b (l : list A) : slice a b l `sublist_of` l.
Proof.
  unfold slice. etrans; [apply sublist_take | apply sublist_drop].
Qed.

(** ** Automation *)

Create HintDb bv discriminated.
Create Rewrite HintDb bv.

#[export] Hint Resolve on_id_keeps : bv.
#[export] Hint Rewrite @length_update_by_id @update_by_id_cons @update_by_id_nil
  @update_by_id_app @remove_by_id_app @length_slice : bv.

(** Unfold nothing, rewrite with the shared equations, finish arithmetic. *)
Ltac bv_simpl := autorewrite with bv in *; simpl in *; try done; try lia.

(** Decide a closed proposition by evaluation. *)
Ltac by_compute :=
  match goal with
  | |- ?P => refine (bool_decide_unpack P _); vm_compute; exact I
  end.

(** Case analysis on every identifier test of the goal. *)
Ltac case_id :=
  unfold on_id in *; repeat case_decide; simplify_eq/=; try done; try lia.
