(* ===== verification/Machine.v ===== *)
(** * Event machines

    Every page and every stateful component is driven the same way: an
    event either cannot happen in the current state or yields the next
    state and the effects its handler requested.  This file holds what
    follows from that shape alone: the run of a list of events with the
    effects in order, the states reachable from an initial state, the
    induction principle for invariants, and the two lemmas about
    repeating a list of events that the theorems on starvation use. *)

From S2P Require Import Prelude.

Section machine.
Context {St Ev : Type}.
(** One step: [None] when the event is not enabled. *)
Variable fire : Ev → St → option (St * list Effect).

(** A sequence of events, with the effects in order. *)
Fixpoint runWith (es : list Ev) (s : St) : option (St * list Effect) :=
  match es with
  | [] => Some (s, [])
  | e :: es' =>
      '(s1, fx1) ← fire e s;
      '(s2, fx2) ← runWith es' s1;
      Some (s2, fx1 ++ fx2)
  end.

(** The states some sequence of events leads to. *)
Inductive reachableFrom (s0 : St) : St → Prop :=
  | reachable_here : reachableFrom s0 s0
  | reachable_next e s s' fx :
      reachableFrom s0 s → fire e s = Some (s', fx) → reachableFrom s0 s'.

Lemma runWith_app es1 es2 s :
  runWith (es1 ++ es2) s =
    '(s1, fx1) ← runWith es1 s; '(s2, fx2) ← runWith es2 s1; Some (s2, fx1 ++ fx2).
Proof.
  revert s. induction es1 as [|e es1 IH]; intros s; simpl.
  - by destruct (runWith es2 s) as [[??]|].
  - destruct (fire e s) as [[s1 fx1]|]; [|done]. simpl. rewrite IH.
    destruct (runWith es1 s1) as [[s2 fx2]|]; [|done]. simpl.
    destruct (runWith es2 s2) as [[s3 fx3]|]; [|done]. simpl.
    by rewrite (assoc_L (++)).
Qed.

Lemma runWith_reachable s0 es s s' fx :
  reachableFrom s0 s → runWith es s = Some (s', fx) → reachableFrom s0 s'.
Proof.
  revert s fx. induction es as [|e es IH]; intros s fx Hs; simpl.
  - by intros [= <- _].
  - destruct (fire e s) as [[s1 fx1]|] eqn:He; [|done]. simpl.
    destruct (runWith es s1) as [[s2 fx2]|] eqn:Hr; [|done]. simpl.
    intros [= <- _]. eapply IH; [|done]. by eapply reachable_next.
Qed.

(** A property of the initial state that every step keeps holds in every
    reachable state. *)
Lemma reachable_invariant (P : St → Prop) s0 :
  P s0 → (∀ e s s' fx, fire e s = Some (s', fx) → P s → P s') →
  ∀ s, reachableFrom s0 s → P s.
Proof. intros H0 Hstep s. induction 1; eauto. Qed.

(** Events that bring a state back to itself without effects can be
    repeated any number of times. *)
Lemma runWith_cycles es n s :
  runWith es s = Some (s, []) →
  runWith (concat (replicate n es)) s = Some (s, []).
Proof.
  intros Hc. induction n as [|n IH]; [done|].
  simpl. by rewrite runWith_app, Hc; simpl; rewrite IH.
Qed.

(** The same for a set of states: if from every state of the set the
    events lead back into the set without effects, so does any number of
    repetitions. *)
Lemma runWith_cycles_within (I : St → Prop) es n s :
  (∀ s, I s → ∃ s', runWith es s = Some (s', []) ∧ I s') →
  I s → ∃ s', runWith (concat (replicate n es)) s = Some (s', []) ∧ I s'.
Proof.
  intros Hc. revert s. induction n as [|n IH]; intros s Hs; [by exists s|].
  destruct (Hc s Hs) as (s1 & Hr1 & Hs1). destruct (IH s1 Hs1) as (s2 & Hr2 & Hs2).
  exists s2. split; [|done]. simpl. by rewrite runWith_app, Hr1; simpl; rewrite Hr2.
Qed.

End machine.

Arguments reachable_here {_ _ _ _}.
Arguments reachable_next {_ _ _ _} _ _ _ _ _ _.
