(* ===== verification/JsString.v ===== *)
(** * String methods the components call

    [toLowerCase], [includes] and [trim] of [String.prototype].

    A string is a sequence of code units, and a code unit is an [ascii]
    read as the number it encodes: the strings of the model are the
    JavaScript strings whose code units are below 256 (U+0000 to U+00FF,
    Basic Latin and the Latin-1 Supplement).  On these the methods are
    those of ECMAScript: [toLowerCase] folds A-Z and the capital letters
    U+00C0 to U+00DE (the multiplication sign U+00D7 is no letter) by
    adding 32, and the lower-case letters have no other source in the
    range; [trim] removes the white space and the line terminators of the
    range, which are [\t], [\n], [\v], [\f], [\r], the blank and the
    no-break space U+00A0.  Text with a code unit from 256 on (Greek,
    Cyrillic, the white space of U+2000) is not a string of the model, and
    nothing is claimed of it.  Each method is executable and comes with the
    declarative statement of what it computes. *)

From S2P Require Import Prelude.

Module JsString.

(** ** Definitions *)

(** The code units [toLowerCase] changes: A-Z, and U+00C0 to U+00DE
    without U+00D7. *)
Definition upper (n : N) : bool :=
  ((65 <=? n) && (n <=? 90) || (192 <=? n) && (n <=? 222) && negb (n =? 215))%N.

Definition lower (c : ascii) : ascii :=
  let n := N_of_ascii c in
  if upper n then ascii_of_N (n + 32) else c.

(** [s.toLowerCase()] *)
Fixpoint toLowerCase (s : string) : string :=
  match s with
  | EmptyString => EmptyString
  | String c s' => String (lower c) (toLowerCase s')
  end.

(** [s.startsWith(q)] *)
Fixpoint startsWith (q s : string) : bool :=
  match q, s with
  | EmptyString, _ => true
  | String a q', String b s' => bool_decide (a = b) && startsWith q' s'
  | String _ _, EmptyString => false
  end.

(** [s.includes(q)] *)
Fixpoint includes (s q : string) : bool :=
  startsWith q s ||
  match s with
  | EmptyString => false
  | String _ s' => includes s' q
  end.

(** White space and line terminators: U+0009 to U+000D, U+0020, U+00A0. *)
Definition is_space (c : ascii) : bool :=
  let n := N_of_ascii c in
  ((9 <=? n) && (n <=? 13) || (n =? 32) || (n =? 160))%N.

(** [s.trimStart()] *)
Fixpoint trimStart (s : string) : string :=
  match s with
  | EmptyString => EmptyString
  | String c s' => if is_space c then trimStart s' else s
  end.

(** [s.trimEnd()] *)
Fixpoint trimEnd (s : string) : string :=
  match s with
  | EmptyString => EmptyString
  | String c s' =>
      match trimEnd s' with
      | EmptyString => if is_space c then EmptyString else String c EmptyString
      | t => String c t
      end
  end.

(** [s.trim()] *)
Definition trim (s : string) : string := trimEnd (trimStart s).

(** Every character is white space. *)
Fixpoint blank (s : string) : bool :=
  match s with
  | EmptyString => true
  | String c s' => is_space c && blank s'
  end.

(** [if (s.trim())]: the test that guards every submit handler. *)
Definition nonBlank (s : string) : bool := truthy (trim s).

(** ** Append *)

Lemma app_nil_l s : "" +:+ s = s.
Proof. done. Qed.

Lemma app_cons c s1 s2 : String c s1 +:+ s2 = String c (s1 +:+ s2).
Proof. done. Qed.

(** Push append through constructors. *)
Ltac str_simpl := simpl; rewrite ?app_cons, ?app_nil_l in *.

Lemma app_nil_r s : s +:+ "" = s.
Proof. induction s; str_simpl; by f_equal. Qed.

Lemma app_assoc s1 s2 s3 : (s1 +:+ s2) +:+ s3 = s1 +:+ s2 +:+ s3.
Proof. induction s1; str_simpl; by f_equal. Qed.

Lemma length_app s1 s2 :
  String.length (s1 +:+ s2) = (String.length s1 + String.length s2)%nat.
Proof. induction s1; str_simpl; simpl; by f_equal. Qed.

(** ** [startsWith] and [includes] *)

Lemma startsWith_spec q s : startsWith q s = true ↔ ∃ post, s = q +:+ post.
Proof.
  revert s. induction q as [|a q IH]; intros s; simpl.
  { split; [by exists s|done]. }
  destruct s as [|b s]; simpl.
  { split; [done|by intros [? ?]]. }
  rewrite andb_true_iff, bool_decide_eq_true, IH. split.
  - intros [-> [post ->]]. by exists post.
  - intros [post [= -> ->]]. split; [done|by exists post].
Qed.

Lemma includes_spec s q :
  includes s q = true ↔ ∃ pre post, s = pre +:+ q +:+ post.
Proof.
  induction s as [|c s IH]; simpl.
  - rewrite orb_false_r, startsWith_spec. split.
    + intros [post ->]. by exists "", post.
    + intros ([|? pre] & post & Hs); [by exists post|done].
  - rewrite orb_true_iff, IH, startsWith_spec. split.
    + intros [[post ->]|(pre & post & ->)]; [by exists "", post|].
      by exists (String c pre), post.
    + intros ([|c' pre] & post & Hs); [left; by exists post|].
      right. injection Hs as -> ->. by exists pre, post.
Qed.

Lemma includes_empty s : includes s "" = true.
Proof. by destruct s. Qed.

Lemma includes_refl s : includes s s = true.
Proof.
  apply includes_spec. exists "", "". by rewrite app_nil_l, app_nil_r.
Qed.

Lemma includes_app pre s post q :
  includes s q = true → includes (pre +:+ s +:+ post) q = true.
Proof.
  rewrite !includes_spec. intros (a & b & ->).
  exists (pre +:+ a), (b +:+ post). by rewrite !app_assoc.
Qed.

Lemma includes_trans s q r :
  includes s q = true → includes q r = true → includes s r = true.
Proof.
  rewrite !includes_spec. intros (a & b & ->) (c & d & ->).
  exists (a +:+ c), (d +:+ b). by rewrite !app_assoc.
Qed.

Lemma includes_length s q :
  includes s q = true → (String.length q ≤ String.length s)%nat.
Proof.
  rewrite includes_spec. intros (a & b & ->). rewrite !length_app. lia.
Qed.

(** ** [toLowerCase] *)

Lemma lower_idemp c : lower (lower c) = lower c.
Proof. by destruct c as [[] [] [] [] [] [] [] []]. Qed.

(** Folding changes a code unit exactly when it is a capital letter, and
    yields none. *)
Lemma lower_spec c :
  upper (N_of_ascii (lower c)) = false
  ∧ (lower c = c ↔ upper (N_of_ascii c) = false).
Proof. by destruct c as [[] [] [] [] [] [] [] []]. Qed.

(** White space has no case. *)
Lemma is_space_lower c : is_space (lower c) = is_space c.
Proof. by destruct c as [[] [] [] [] [] [] [] []]. Qed.

Lemma toLowerCase_idemp s : toLowerCase (toLowerCase s) = toLowerCase s.
Proof. induction s; simpl; [done|]. by rewrite lower_idemp, IHs. Qed.

Lemma toLowerCase_app s1 s2 :
  toLowerCase (s1 +:+ s2) = toLowerCase s1 +:+ toLowerCase s2.
Proof. induction s1; str_simpl; simpl; by f_equal. Qed.

Lemma length_toLowerCase s : String.length (toLowerCase s) = String.length s.
Proof. induction s; simpl; by f_equal. Qed.

(** A match survives case folding of both sides: whatever the case of the
    text and of the query, an occurrence is found after folding. *)
Lemma includes_toLowerCase s q :
  includes s q = true → includes (toLowerCase s) (toLowerCase q) = true.
Proof.
  rewrite !includes_spec. intros (a & b & ->).
  exists (toLowerCase a), (toLowerCase b). by rewrite !toLowerCase_app.
Qed.

(** ** [trim] *)

Lemma trimStart_blank s : blank s = true → trimStart s = "".
Proof.
  induction s as [|c s IH]; simpl; [done|].
  intros [Hc Hs]%andb_true_iff. rewrite Hc. auto.
Qed.

Lemma trimEnd_blank s : blank s = true → trimEnd s = "".
Proof.
  induction s as [|c s IH]; simpl; [done|].
  intros [Hc Hs]%andb_true_iff. by rewrite IH, Hc.
Qed.

Lemma trimEnd_empty_blank s : trimEnd s = "" → blank s = true.
Proof.
  induction s as [|c s IH]; simpl; [done|].
  destruct (trimEnd s); [|done].
  destruct (is_space c); [|done]. intros _. by rewrite IH.
Qed.

Lemma blank_trimStart s : blank (trimStart s) = blank s.
Proof.
  induction s as [|c s IH]; simpl; [done|].
  destruct (is_space c) eqn:Hc; simpl; [done|]. by rewrite Hc.
Qed.

Lemma trim_empty_iff s : trim s = "" ↔ blank s = true.
Proof.
  unfold trim. split.
  - intros H%trimEnd_empty_blank. by rewrite blank_trimStart in H.
  - intros H. by rewrite trimStart_blank.
Qed.

Lemma nonBlank_spec s : nonBlank s = true ↔ blank s = false.
Proof.
  unfold nonBlank, truthy, string_truthy.
  rewrite <- not_true_iff_false, <- trim_empty_iff.
  destruct (trim s); naive_solver.
Qed.

Lemma trimStart_idemp s : trimStart (trimStart s) = trimStart s.
Proof.
  induction s as [|c s IH]; simpl; [done|].
  destruct (is_space c) eqn:Hc; simpl; [done|]. by rewrite Hc.
Qed.

Lemma trimEnd_idemp s : trimEnd (trimEnd s) = trimEnd s.
Proof.
  induction s as [|c s IH]; simpl; [done|].
  destruct (trimEnd s) as [|d t] eqn:Ht.
  - destruct (is_space c) eqn:Hc; simpl; [done|]. by rewrite Hc.
  - simpl in *. by rewrite IH.
Qed.

(** The first character of a trimmed string is no white space. *)
Lemma trimStart_head s c t : trimStart s = String c t → is_space c = false.
Proof.
  induction s as [|d s IH]; simpl; [done|].
  destruct (is_space d) eqn:Hd; [done|]. by intros [= <- _].
Qed.

Lemma trimStart_trimEnd s : trimStart (trimEnd s) = trimEnd (trimStart s).
Proof.
  induction s as [|c s IH]; simpl; [done|].
  destruct (is_space c) eqn:Hc.
  - destruct (trimEnd s) as [|d t] eqn:Ht.
    + simpl. symmetry. apply trimEnd_blank. rewrite blank_trimStart.
      by apply trimEnd_empty_blank.
    + rewrite <- IH. simpl. by rewrite Hc.
  - simpl. destruct (trimEnd s); simpl; by rewrite Hc.
Qed.

Lemma trim_idemp s : trim (trim s) = trim s.
Proof.
  unfold trim.
  by rewrite trimStart_trimEnd, trimStart_idemp, trimEnd_idemp.
Qed.

(** What [trimStart] removes is a blank prefix, what [trimEnd] removes a
    blank suffix. *)
Lemma trimStart_split s : ∃ pre, s = pre +:+ trimStart s ∧ blank pre = true.
Proof.
  induction s as [|c s (pre & IH & Hb)]; simpl; [by exists ""|].
  destruct (is_space c) eqn:Hc; [|by exists ""].
  exists (String c pre). simpl. by rewrite Hc, Hb, app_cons, <- IH.
Qed.

Lemma trimEnd_split s : ∃ post, s = trimEnd s +:+ post ∧ blank post = true.
Proof.
  induction s as [|c s (post & IH & Hb)]; simpl; [by exists ""|].
  destruct (trimEnd s) as [|d t] eqn:Ht.
  - rewrite app_nil_l in IH. subst post.
    destruct (is_space c) eqn:Hc.
    + exists (String c s). simpl. by rewrite Hc, Hb.
    + exists s. by rewrite app_cons.
  - exists post. by rewrite app_cons, <- IH.
Qed.

Lemma trim_split s :
  ∃ pre post, s = pre +:+ trim s +:+ post
    ∧ blank pre = true ∧ blank post = true.
Proof.
  destruct (trimStart_split s) as (pre & Hs & Hpre).
  destruct (trimEnd_split (trimStart s)) as (post & Ht & Hpost).
  exists pre, post. unfold trim. by rewrite <- Ht.
Qed.

(** Trimming removes nothing from a string that has no white space at
    either end. *)
Lemma includes_trim s : includes s (trim s) = true.
Proof.
  apply includes_spec. destruct (trim_split s) as (pre & post & Hs & _).
  by exists pre, post.
Qed.

End JsString.
