(* ===== verification/Numbers.v ===== *)
(** * Numbers: division and [toFixed]

    The view counters are formatted with [(views / 1000).toFixed(1)].
    Both steps are defined on binary floating point: the division rounds
    the quotient to the nearest number with a mantissa of 53 bits, ties to
    the even mantissa, and [toFixed(1)] picks the integer number of tenths
    nearest to the exact value of that number, the larger one on a tie.
    [JsNumber] models both on integers, exactly: a positive finite double
    is a mantissa and a binary exponent, and all comparisons are made on
    cross products.  The theorems relate the result to the decimal rounding
    of the exact quotient: they agree except where the exact quotient lies
    half-way between two tenths, and there the double decides.

    [ceil], [floor] and the product with the double nearest to [0.05] are
    defined on the same representation, for [Math.ceil(diffTime / ...)],
    [Math.floor(diffDays / 7)] and [Math.floor(views * 0.05)]; they are
    proved equal to the integer ceiling, floor and quotient.

    Overflow, subnormal numbers and signs are outside the model: it covers
    quotients of integers from zero below [2^52], which is where the
    counters and the time differences live. *)

From S2P Require Import Prelude JsString.

#[local] Open Scope Z_scope.

Module JsNumber.

(** ** Definitions *)

(** The positive double [mant * 2 ^ expo]. *)
Record Double : Type := {
  mant : Z;
  expo : Z
}.

#[export] Instance Double_eq_dec : EqDecision Double.
Proof. solve_decision. Defined.

(** Numerator and denominator of [a / (b * 2 ^ e)]. *)
Definition scale (a b e : Z) : Z * Z :=
  if 0 <=? e then (a, b * 2 ^ e) else (a * 2 ^ (- e), b).

(** The exponent that brings the quotient into [2^52, 2^53). *)
Definition exponent (a b : Z) : Z :=
  let k := Z.log2 a - Z.log2 b - 52 in
  let '(n, d) := scale a b k in
  if n `div` d <? 2 ^ 52 then k - 1 else k.

(** [n / d] rounded to the nearest integer, ties to even. *)
Definition roundEven (n d : Z) : Z :=
  let q := n `div` d in
  let r := n `mod` d in
  if (d <? 2 * r) || ((d =? 2 * r) && Z.odd q) then q + 1 else q.

(** [a / b] on numbers, for positive integers [a] and [b]. *)
Definition divide (a b : Z) : Double :=
  let e := exponent a b in
  let '(n, d) := scale a b e in
  {| mant := roundEven n d; expo := e |}.

(** The number of tenths nearest to [x], the larger on a tie. *)
Definition tenths (x : Double) : Z :=
  if 0 <=? expo x then 10 * mant x * 2 ^ expo x
  else (20 * mant x + 2 ^ (- expo x)) `div` (2 * 2 ^ (- expo x)).

(** [x.toFixed(1)] *)
Definition toFixed1 (x : Double) : string :=
  pretty (tenths x `div` 10) +:+ "." +:+ pretty (tenths x `mod` 10).

(** [Math.ceil(x)] and [Math.floor(x)] *)
Definition ceil (x : Double) : Z :=
  if 0 <=? expo x then mant x * 2 ^ expo x
  else - ((- mant x) `div` 2 ^ (- expo x)).

Definition floor (x : Double) : Z :=
  if 0 <=? expo x then mant x * 2 ^ expo x
  else mant x `div` 2 ^ (- expo x).

(** [Math.ceil(a / b)] and [Math.floor(a / b)] *)
Definition ceilQuot (a b : Z) : Z := ceil (divide a b).

Definition floorQuot (a b : Z) : Z := floor (divide a b).

(** The double nearest to one twentieth, [0.05]. *)
Definition twentieth : Double := {| mant := 3602879701896397; expo := -56 |}.

(** [a * x] for an integer [a] and a double [x] with a negative exponent:
    the exact product, rounded. *)
Definition multiply (a : Z) (x : Double) : Double :=
  divide (a * mant x) (2 ^ (- expo x)).

(** The ceiling of the exact quotient: the reference for
    [Math.ceil(a / b)]. *)
Definition ceilDiv (a b : Z) : Z := - ((- a) `div` b).

(** The tenths of the exact quotient [a / c], half up: the reference the
    floating-point result is compared with. *)
Definition decimalTenths (a c : Z) : Z := (2 * a + c) `div` (2 * c).

(** [formatViews]: the counter as it is, in thousands from one thousand
    on, in millions from one million on. *)
Definition formatViews (views : Z) : string :=
  if 1000000 <=? views then toFixed1 (divide views 1000000) +:+ "M"
  else if 1000 <=? views then toFixed1 (divide views 1000) +:+ "K"
  else pretty views.

(** ** The division is correctly rounded *)

Lemma roundEven_nearest n d :
  0 < d → 2 * Z.abs (roundEven n d * d - n) ≤ d.
Proof.
  intros Hd. unfold roundEven.
  pose proof (Z.div_mod n d ltac:(lia)) as Hn.
  pose proof (Z.mod_pos_bound n d Hd) as Hr.
  destruct (_ || _) eqn:Ht; [|apply orb_false_iff in Ht as [H1 H2]; nia].
  apply orb_true_iff in Ht as [H1|[H1 _]%andb_true_iff]; nia.
Qed.

Lemma log2_bounds a : 0 < a → 2 ^ Z.log2 a ≤ a < 2 * 2 ^ Z.log2 a.
Proof.
  intros Ha. pose proof (Z.log2_spec a Ha) as Hs.
  pose proof (Z.log2_nonneg a).
  by rewrite Z.pow_succ_r in Hs.
Qed.

(** For a quotient below [2^52] the exponent is negative and the scaled
    quotient has reached [2^52]. *)
Lemma exponent_small a b :
  0 < a < 2 ^ 52 * b → 0 < b →
  let e := exponent a b in
  e < 0 ∧ 2 ^ 52 * b ≤ a * 2 ^ (- e).
Proof.
  intros Ha Hb. simpl. unfold exponent.
  pose proof (log2_bounds a ltac:(lia)) as HA.
  pose proof (log2_bounds b Hb) as HB.
  pose proof (Z.log2_nonneg b) as Hlb. pose proof (Z.log2_nonneg a) as Hla0.
  assert (Z.log2 a < 53 + Z.log2 b) as Hla.
  { apply (Z.pow_lt_mono_r_iff 2); [lia..|]. rewrite Z.pow_add_r by lia. nia. }
  set (k := Z.log2 a - Z.log2 b - 52).
  assert (k ≤ 0) as Hk by lia.
  assert (2 ^ 52 * b < a * 2 ^ (- (k - 1))) as Hlow.
  { replace (- (k - 1)) with (Z.log2 b + 53 - Z.log2 a) by lia.
    assert (2 ^ Z.log2 a * 2 ^ (Z.log2 b + 53 - Z.log2 a) = 2 ^ 52 * (2 * 2 ^ Z.log2 b))
      as Hp.
    { rewrite <- (Z.pow_succ_r 2 (Z.log2 b)), <- !Z.pow_add_r by lia. f_equal. lia. }
    assert (0 < 2 ^ (Z.log2 b + 53 - Z.log2 a)) by (apply Z.pow_pos_nonneg; lia).
    nia. }
  destruct (scale a b k) as [n d] eqn:Hsc. unfold scale in Hsc.
  destruct (Z.ltb_spec (n `div` d) (2 ^ 52)) as [Hq|Hq]; [split; lia|].
  destruct (Z.leb_spec 0 k); injection Hsc as <- <-.
  - replace k with 0 in * by lia. rewrite Z.mul_1_r in Hq.
    pose proof (Z.mul_div_le a b Hb). nia.
  - split; [lia|]. pose proof (Z.mul_div_le (a * 2 ^ (- k)) b Hb). nia.
Qed.

(** The division errs by half a unit of the last place at most. *)
Lemma divide_nearest a b :
  0 < a < 2 ^ 52 * b → 0 < b →
  let x := divide a b in
  expo x < 0
  ∧ 2 ^ 52 * b ≤ a * 2 ^ (- expo x)
  ∧ 2 * Z.abs (mant x * b - a * 2 ^ (- expo x)) ≤ b.
Proof.
  intros Ha Hb. destruct (exponent_small a b Ha Hb) as [He Hs].
  simpl. unfold divide, scale. rewrite (proj2 (Z.leb_gt 0 _)) by done. simpl.
  split_and!; [done..|]. by apply roundEven_nearest.
Qed.

(** ** [Math.ceil] and [Math.floor] of a quotient *)

Lemma ceilDiv_spec a b :
  0 < b → (ceilDiv a b - 1) * b < a ≤ ceilDiv a b * b.
Proof.
  intros Hb. unfold ceilDiv.
  pose proof (Z.div_mod (- a) b ltac:(lia)).
  pose proof (Z.mod_pos_bound (- a) b Hb). nia.
Qed.

Lemma ceilDiv_le a b n : 0 < b → a ≤ n * b → ceilDiv a b ≤ n.
Proof. intros Hb Ha. pose proof (ceilDiv_spec a b Hb). nia. Qed.

Lemma ceilDiv_gt a b n : 0 < b → n * b < a → n < ceilDiv a b.
Proof. intros Hb Ha. pose proof (ceilDiv_spec a b Hb). nia. Qed.

Lemma divide_zero b :
  0 < b → mant (divide 0 b) = 0 ∧ expo (divide 0 b) < 0.
Proof.
  intros Hb. pose proof (Z.log2_nonneg b).
  unfold divide, exponent, scale. change (Z.log2 0) with 0.
  rewrite (proj2 (Z.leb_gt 0 (0 - Z.log2 b - 52))) by lia.
  rewrite Z.mul_0_l, Z.div_0_l by lia. change (0 <? 2 ^ 52) with true. cbv iota.
  rewrite (proj2 (Z.leb_gt 0 (0 - Z.log2 b - 52 - 1))) by lia.
  rewrite Z.mul_0_l. unfold roundEven. rewrite Z.div_0_l, Z.mod_0_l by lia.
  rewrite (proj2 (Z.ltb_ge b (2 * 0))), (proj2 (Z.eqb_neq b (2 * 0))) by lia.
  simpl. lia.
Qed.

(** What both roundings need of the double nearest to [a / b]: it lies
    strictly between the neighbours [q] and [q + 1] of a quotient that is
    no integer, and is the quotient itself when that is one. *)
Lemma divide_between a b q s :
  0 < a < 2 ^ 52 → 0 < b → a = b * q + s → 0 ≤ s < b →
  let m := mant (divide a b) in
  let D := 2 ^ (- expo (divide a b)) in
  expo (divide a b) < 0 ∧ 0 < D
  ∧ (s = 0 → m = D * q) ∧ (0 < s → D * q < m < D * q + D).
Proof.
  intros Ha Hb Hq Hs.
  destruct (divide_nearest a b ltac:(nia) Hb) as (He & Hn & Hm).
  simpl. set (m := mant (divide a b)) in *.
  set (D := 2 ^ (- expo (divide a b))) in *.
  assert (0 < D) as HD by (apply Z.pow_pos_nonneg; lia).
  assert (b < D) as HbD by nia.
  assert (a * D = b * (D * q) + D * s) as HaD by (subst a; ring).
  split_and!; [done..| |]; intros Hs0.
  - subst s. assert (2 * Z.abs (b * (m - D * q)) ≤ b) as Hb' by lia.
    rewrite Z.abs_mul in Hb'. nia.
  - assert (D ≤ D * s ≤ D * (b - 1)) as [H1 H2] by nia.
    assert (b * (D * q) < b * m < b * (D * q + D)) as [H3 H4] by lia.
    apply Z.mul_lt_mono_pos_l in H3, H4; done.
Qed.

Lemma ceil_divide_pos a b :
  0 < a < 2 ^ 52 → 0 < b → ceil (divide a b) = ceilDiv a b.
Proof.
  intros Ha Hb. unfold ceil, ceilDiv.
  pose proof (Z.div_mod (- a) b ltac:(lia)) as Hd.
  pose proof (Z.mod_pos_bound (- a) b Hb) as Hr.
  set (Q := (- a) `div` b) in *. set (r := (- a) `mod` b) in *.
  destruct (decide (r = 0)) as [Hz|Hz].
  - destruct (divide_between a b (- Q) 0 Ha Hb ltac:(lia) ltac:(lia))
      as (He & HD & Hm & _).
    rewrite (proj2 (Z.leb_gt 0 _)), (Hm eq_refl) by done. f_equal.
    symmetry. apply (Z.div_unique_pos _ _ Q 0); lia.
  - destruct (divide_between a b (- Q - 1) (b - r) Ha Hb ltac:(lia) ltac:(lia))
      as (He & HD & _ & Hm).
    rewrite (proj2 (Z.leb_gt 0 _)) by done. f_equal. specialize (Hm ltac:(lia)).
    symmetry. apply (Z.div_unique_pos _ _ Q (- mant (divide a b) - 2 ^ (- expo (divide a b)) * Q)); lia.
Qed.

Lemma floor_divide_pos a b :
  0 < a < 2 ^ 52 → 0 < b → floor (divide a b) = a `div` b.
Proof.
  intros Ha Hb. unfold floor.
  pose proof (Z.div_mod a b ltac:(lia)) as Hd.
  pose proof (Z.mod_pos_bound a b Hb) as Hr.
  destruct (divide_between a b (a `div` b) (a `mod` b) Ha Hb Hd Hr)
    as (He & HD & Hz & Hp).
  rewrite (proj2 (Z.leb_gt 0 _)) by done.
  destruct (decide (a `mod` b = 0)) as [H0|H0].
  - rewrite (Hz H0), Z.mul_comm. apply Z.div_mul. lia.
  - specialize (Hp ltac:(lia)). symmetry.
    apply (Z.div_unique_pos _ _ _ (mant (divide a b) - 2 ^ (- expo (divide a b)) * (a `div` b))); lia.
Qed.

(** [Math.ceil(a / b)] is the ceiling of the exact quotient. *)
Lemma ceil_divide a b :
  0 ≤ a < 2 ^ 52 → 0 < b → ceilQuot a b = ceilDiv a b.
Proof.
  intros Ha Hb. unfold ceilQuot. destruct (decide (a = 0)) as [->|]; [|apply ceil_divide_pos; lia].
  destruct (divide_zero b Hb) as [Hm He]. unfold ceil, ceilDiv.
  rewrite (proj2 (Z.leb_gt 0 _)), Hm by done. simpl.
  by rewrite !Z.div_0_l by (try apply Z.pow_nonzero; lia).
Qed.

(** [Math.floor(a / b)] is the integer quotient. *)
Lemma floor_divide a b :
  0 ≤ a < 2 ^ 52 → 0 < b → floorQuot a b = a `div` b.
Proof.
  intros Ha Hb. unfold floorQuot. destruct (decide (a = 0)) as [->|]; [|apply floor_divide_pos; lia].
  destruct (divide_zero b Hb) as [Hm He]. unfold floor.
  rewrite (proj2 (Z.leb_gt 0 _)), Hm by done.
  by rewrite !Z.div_0_l by (try apply Z.pow_nonzero; lia).
Qed.

(** [Math.floor(v * 0.05)] is the twentieth part of [v], although [0.05]
    is no binary fraction: the double nearest to it exceeds one twentieth
    by [2^-54 / 5], too little to carry the product over an integer. *)
Lemma floor_twentieth v :
  0 ≤ v < 2 ^ 52 → floor (multiply v twentieth) = v `div` 20.
Proof.
  intros Hv. unfold multiply, twentieth. cbn [mant expo].
  change (2 ^ (- -56)) with 72057594037927936.
  change (2 ^ 52) with 4503599627370496 in *.
  destruct (decide (v = 0)) as [->|Hv0].
  { destruct (divide_zero 72057594037927936 ltac:(lia)) as [Hm He].
    unfold floor. rewrite Z.mul_0_l, (proj2 (Z.leb_gt 0 _)), Hm by done.
    by rewrite !Z.div_0_l by (try apply Z.pow_nonzero; lia). }
  destruct (divide_nearest (v * 3602879701896397) 72057594037927936)
    as (He & Hs & Hm); [change (2 ^ 52) with 4503599627370496; lia|lia|].
  change (2 ^ 52) with 4503599627370496 in *.
  unfold floor. rewrite (proj2 (Z.leb_gt 0 _)) by done.
  set (m := mant _) in *. set (D := 2 ^ (- expo _)) in *.
  assert (0 < D) as HD by (apply Z.pow_pos_nonneg; lia).
  pose proof (Z.div_mod v 20 ltac:(lia)) as Hq.
  pose proof (Z.mod_pos_bound v 20 ltac:(lia)) as Hr.
  set (q := v `div` 20) in *. set (r := v `mod` 20) in *.
  assert (v * D = 20 * (D * q) + r * D) as HvD by (rewrite Hq; ring).
  assert (0 ≤ r * D ≤ 19 * D) by nia.
  assert (v * D < 4503599627370496 * D) by nia.
  assert (16 < D) by nia.
  symmetry. apply (Z.div_unique_pos _ _ q (m - D * q)); lia.
Qed.

(** ** [toFixed(1)] of a quotient *)

Lemma decimalTenths_bounds a c :
  0 < c →
  2 * c * decimalTenths a c ≤ 2 * a + c < 2 * c * decimalTenths a c + 2 * c.
Proof.
  intros Hc. unfold decimalTenths.
  pose proof (Z.div_mod (2 * a + c) (2 * c) ltac:(lia)).
  pose proof (Z.mod_pos_bound (2 * a + c) (2 * c) ltac:(lia)). lia.
Qed.

(** Away from the ties, rounding the double to tenths gives the tenths of
    the exact quotient. *)
Lemma tenths_divide_decimal a c :
  0 < a < 2 ^ 52 → 0 < c → (2 * a + c) `mod` (2 * c) ≠ 0 →
  tenths (divide a (10 * c)) = decimalTenths a c.
Proof.
  intros Ha Hc Htie.
  destruct (divide_nearest a (10 * c) ltac:(nia) ltac:(lia)) as (He & Hs & Hm).
  unfold tenths. rewrite (proj2 (Z.leb_gt 0 _)) by done.
  set (m := mant (divide a (10 * c))) in *.
  set (D := 2 ^ (- expo (divide a (10 * c)))) in *.
  pose proof (decimalTenths_bounds a c Hc) as HN.
  set (N := decimalTenths a c) in *.
  assert (2 * a + c ≠ 2 * c * N) as Hne.
  { intros Heq. apply Htie. rewrite Heq, Z.mul_comm. apply Z.mod_mul. lia. }
  assert (10 * c < D) as HD by nia.
  assert (D * (2 * c * N + 1) ≤ D * (2 * a + c)) as Hlo
    by (apply Z.mul_le_mono_nonneg_l; lia).
  assert (D * (2 * a + c) ≤ D * (2 * c * N + 2 * c - 1)) as Hhi
    by (apply Z.mul_le_mono_nonneg_l; lia).
  assert (2 * D * N * c < (20 * m + D) * c < 2 * D * (N + 1) * c) as [H1 H2] by lia.
  apply Z.mul_lt_mono_pos_r in H1, H2; [|done..].
  symmetry. apply (Z.div_unique_pos _ _ N (20 * m + D - 2 * D * N)); lia.
Qed.

(** ** [formatViews] *)

Lemma toFixed1_divide a c :
  0 < a < 2 ^ 52 → 0 < c → (2 * a + c) `mod` (2 * c) ≠ 0 →
  toFixed1 (divide a (10 * c))
  = pretty (decimalTenths a c `div` 10) +:+ "." +:+ pretty (decimalTenths a c `mod` 10).
Proof. intros. unfold toFixed1. by rewrite tenths_divide_decimal. Qed.

(** For an even unit [2 * h] the reference is [(a + h) / (2 * h)] and the
    ties are the dividends with remainder [h]. *)
Lemma decimalTenths_even a h :
  0 < h →
  decimalTenths a (2 * h) = (a + h) `div` (2 * h)
  ∧ (a `mod` (2 * h) ≠ h → (2 * a + 2 * h) `mod` (2 * (2 * h)) ≠ 0).
Proof.
  intros Hh. unfold decimalTenths.
  replace (2 * a + 2 * h) with (2 * (a + h)) by lia.
  rewrite Z.div_mul_cancel_l, Z.mul_mod_distr_l by lia. split; [done|].
  intros Hne Hz. apply Hne.
  pose proof (Z.div_mod (a + h) (2 * h) ltac:(lia)) as Hd.
  symmetry. apply (Z.mod_unique_pos a (2 * h) ((a + h) `div` (2 * h) - 1) h); lia.
Qed.

Lemma formatViews_thousands v :
  1000 ≤ v < 1000000 → v `mod` 100 ≠ 50 →
  formatViews v
  = pretty (((v + 50) `div` 100) `div` 10) +:+ "." +:+
    pretty (((v + 50) `div` 100) `mod` 10) +:+ "K".
Proof.
  intros Hv Htie. unfold formatViews.
  rewrite (proj2 (Z.leb_gt 1000000 v)), (proj2 (Z.leb_le 1000 v)) by lia.
  destruct (decimalTenths_even v 50 ltac:(lia)) as [Hd Ht].
  change 1000 with (10 * (2 * 50)).
  rewrite toFixed1_divide, Hd, !JsString.app_assoc; [done|lia..|by apply Ht].
Qed.

Lemma formatViews_millions v :
  1000000 ≤ v < 2 ^ 52 → v `mod` 100000 ≠ 50000 →
  formatViews v
  = pretty (((v + 50000) `div` 100000) `div` 10) +:+ "." +:+
    pretty (((v + 50000) `div` 100000) `mod` 10) +:+ "M".
Proof.
  intros Hv Htie. unfold formatViews.
  rewrite (proj2 (Z.leb_le 1000000 v)) by lia.
  destruct (decimalTenths_even v 50000 ltac:(lia)) as [Hd Ht].
  change 1000000 with (10 * (2 * 50000)) at 1.
  rewrite toFixed1_divide, Hd, !JsString.app_assoc; [done|lia..|by apply Ht].
Qed.

Lemma formatViews_small v : v < 1000 → formatViews v = pretty v.
Proof.
  intros Hv. unfold formatViews.
  by rewrite (proj2 (Z.leb_gt 1000000 v)), (proj2 (Z.leb_gt 1000 v)) by lia.
Qed.

Lemma formatViews_top_of_thousands :
  Forall (λ v, formatViews v = "1000.0K") (seqZ 999950 50).
Proof. by_compute. Qed.

(** ** Theorems *)

(** C8: from one thousand on the label is the counter divided by
    one thousand (by one million from one million on) and rounded to one
    decimal, half up, for every counter below [2^52] that is not exactly
    half-way between two tenths: the binary division and [toFixed]
    introduce no error of their own. *)
Theorem views_label_is_decimal_rounding v :
  (1000 ≤ v < 1000000 → v `mod` 100 ≠ 50 →
   formatViews v
   = pretty ((v + 50) `div` 1000) +:+ "." +:+
     pretty (((v + 50) `div` 100) `mod` 10) +:+ "K")
  ∧ (1000000 ≤ v < 2 ^ 52 → v `mod` 100000 ≠ 50000 →
     formatViews v
     = pretty ((v + 50000) `div` 1000000) +:+ "." +:+
       pretty (((v + 50000) `div` 100000) `mod` 10) +:+ "M").
Proof.
  split; intros Hv Ht.
  - rewrite (formatViews_thousands v Hv Ht). by rewrite Z.div_div by lia.
  - rewrite (formatViews_millions v Hv Ht). by rewrite Z.div_div by lia.
Qed.

(** C22: the last fifty counters below one million are shown as
    [1000.0K]: the thousands are rounded after the range is chosen. *)
Theorem views_label_rolls_over v :
  999950 ≤ v < 1000000 → formatViews v = "1000.0K".
Proof.
  intros Hv. pose proof formatViews_top_of_thousands as Hall.
  rewrite Forall_forall in Hall. apply Hall, elem_of_seqZ. lia.
Qed.

(** A counter half-way between two tenths goes where the
    double nearest to the quotient lies: up for 1050 and 1250, down for
    1150 and 1450. *)
Theorem views_ties_follow_the_double :
  formatViews 1050 = "1.1K" ∧ formatViews 1150 = "1.1K"
  ∧ formatViews 1250 = "1.3K" ∧ formatViews 1450 = "1.4K"
  ∧ tenths (divide 1150 1000) ≠ decimalTenths 1150 100.
Proof. by vm_compute. Qed.

(** ** Witnesses *)

Lemma views_label_rolls_over_witness : formatViews 999999 = "1000.0K".
Proof. apply (views_label_rolls_over 999999). lia. Defined.

End JsNumber.
