(* ===== verification/Catalog.v ===== *)
(** * The catalogue and the recommendation panel

    [BookStore] holds the [Book] record the components exchange: the
    fields of [interface Book] of [src/components/BookGrid.tsx], and the
    two page counters [app/book/[bookId]/page.tsx] and
    [BookRecommendations.tsx] read from a book of the catalogue.  The
    interface does not declare the counters, so a book may lack them:
    they are optional, and [None] is JavaScript's [undefined].  The file
    also holds the operations of
    [src/components/BookRecommendations.tsx]: the list of recommendations
    and the duration label.  The catalogue itself comes from a fixture
    module that is not part of the sources, so it is a section variable
    and every theorem holds for every catalogue. *)

From S2P Require Import Prelude.

#[local] Open Scope Z_scope.

Module BookStore.

Record Book : Type := {
  id : string;
  title : string;
  author : string;
  coverImage : string;
  description : string;
  uploader : string;
  uploaderAvatar : string;
  views : Z;
  uploadDate : string;
  duration : string;
  tags : list string;
  isLiked : option bool;
  isBookmarked : option bool;
  totalPages : option Z;
  currentPage : option Z
}.

#[global] Instance Book_has_id : HasId Book := id.

(** [s.padStart(n, c)] for a one-character filler. *)
Fixpoint filler (n : nat) (c : ascii) : string :=
  match n with O => EmptyString | S n' => String c (filler n' c) end.

Definition padStart (n : nat) (c : ascii) (s : string) : string :=
  filler (n - String.length s) c +:+ s.

(** [formatDuration]: two and a half minutes per page, shown as
    [hours:minutes] from one hour on and as [minutes:00] below.  For a
    book without the counter the product is [NaN], which no comparison
    accepts, and the label is [NaN:00]. *)
Definition formatDuration (pages : option Z) : string :=
  match pages with
  | None => "NaN:00"
  | Some pages =>
      let minutes := (pages * 5) `div` 2 in
      let hours := minutes `div` 60 in
      let remainingMinutes := minutes `rem` 60 in
      if 0 <? hours
      then pretty hours +:+ ":" +:+ padStart 2 "0" (pretty remainingMinutes)
      else pretty minutes +:+ ":00"
  end.

Section catalogue.
Context (mockBooks : list Book).

(** [mockBooks.filter(book => book.id !== currentBookId)] *)
Definition recommendations (currentBookId : string) : list Book :=
  remove_by_id currentBookId mockBooks.

(** [mockBooks.find(b => b.id === bookId)] *)
Definition findBook (bookId : string) : option Book :=
  find_by_id bookId mockBooks.

Lemma recommendations_elem currentBookId b :
  b ∈ recommendations currentBookId ↔ b ∈ mockBooks ∧ id b ≠ currentBookId.
Proof. apply elem_of_remove_by_id. Qed.

Lemma recommendations_sublist currentBookId :
  recommendations currentBookId `sublist_of` mockBooks.
Proof. apply remove_by_id_sublist. Qed.

Lemma recommendations_exclude_current currentBookId :
  currentBookId ∉ ids (recommendations currentBookId).
Proof. apply remove_by_id_absent. Qed.

Lemma recommendations_unknown currentBookId :
  findBook currentBookId = None → recommendations currentBookId = mockBooks.
Proof. intros Hn. by apply remove_by_id_id, find_by_id_None. Qed.

End catalogue.

(** ** Two books for the examples *)

Definition demoDune : Book :=
  {| id := "1"; title := "Dune"; author := "Frank Herbert";
     coverImage := "/dune.jpg"; description := "A desert planet";
     uploader := "SciFi Classics"; uploaderAvatar := "/a.jpg";
     views := 1500; uploadDate := "2024-01-15"; duration := "12:30";
     tags := ["Sci-Fi"; "Classic"]; isLiked := None; isBookmarked := None;
     totalPages := Some 4; currentPage := Some 2 |}.

Definition demoEmma : Book :=
  {| id := "2"; title := "Emma"; author := "Jane Austen";
     coverImage := "/emma.jpg"; description := "A comedy of manners";
     uploader := "Classic Literature"; uploaderAvatar := "/b.jpg";
     views := 999999; uploadDate := "2024-01-10"; duration := "8:00";
     tags := ["Classic"; "Romance"]; isLiked := Some true; isBookmarked := None;
     totalPages := Some 300; currentPage := None |}.

Definition demoCatalogue : list Book := [demoDune; demoEmma].

End BookStore.
