(* ===== verification/Cards.v ===== *)
(** * Book cards, the grid and the recommendation panel

    [BookCard] models [src/components/BookCard.tsx]: the two labels it
    computes ([formatViews], [formatDate]), the tag badges with the
    counter of the tags left out, the two hover buttons, and the click.
    [BookGrid] models [src/components/BookGrid.tsx]: one card per book, the
    click reporting the identifier of the book.  [BookRecommendations]
    models the rendering of [src/components/BookRecommendations.tsx]: one
    row per book of the catalogue other than the current one, and the
    selection callback.

    The date of a card is compared with the clock, so the current time is
    an argument and [new Date(s).getTime()] a section variable. *)

From S2P Require Import Prelude JsString Numbers Catalog.

#[local] Open Scope Z_scope.

Import BookStore.

Module BookCard.

(** ** Labels *)

Definition formatViews (views : Z) : string := JsNumber.formatViews views.

(** [n > 1 ? 's' : ''] *)
Definition plural (n : Z) : string := if 1 <? n then "s" else "".

Section clock.
Context (getTime : string → Z).

Definition formatDate (now : Z) (date : string) : string :=
  let diffTime := Z.abs (now - getTime date) in
  let diffDays := JsNumber.ceilQuot diffTime (1000 * 60 * 60 * 24) in
  if diffDays =? 1 then "1 day ago"
  else if diffDays <? 7 then pretty diffDays +:+ " days ago"
  else if diffDays <? 30
  then pretty (JsNumber.floorQuot diffDays 7) +:+ " week"
       +:+ plural (JsNumber.floorQuot diffDays 7) +:+ " ago"
  else pretty (JsNumber.floorQuot diffDays 30) +:+ " month"
       +:+ plural (JsNumber.floorQuot diffDays 30) +:+ " ago".

(** ** View *)

Record View : Type := {
  cover : string;
  coverAlt : string;
  durationBadge : string;
  likeFilled : bool;
  bookmarkFilled : bool;
  avatar : string;
  avatarAlt : string;
  heading : string;
  byline : string;
  uploaderName : string;
  viewsLabel : string;
  dateLabel : string;
  blurb : string;
  tagBadges : list string;
  moreBadge : option string
}.

(** The card of a book; [isLiked] and [isBookmarked] default to false. *)
Definition view (now : Z) (b : Book) : View :=
  {| cover := coverImage b;
     coverAlt := title b;
     durationBadge := duration b;
     likeFilled := default false (isLiked b);
     bookmarkFilled := default false (isBookmarked b);
     avatar := uploaderAvatar b;
     avatarAlt := uploader b;
     heading := title b;
     byline := "by " +:+ author b;
     uploaderName := uploader b;
     viewsLabel := formatViews (views b) +:+ " views";
     dateLabel := formatDate now (uploadDate b);
     blurb := description b;
     tagBadges := slice 0 3 (tags b);
     moreBadge :=
       if (3 <? length (tags b))%nat
       then Some ("+" +:+ pretty (length (tags b) - 3)%nat +:+ " more")
       else None |}.

End clock.

(** ** Events *)

Inductive Event : Type := ClickCard | ClickLike | ClickBookmark.

(** What a click reports to the parent: the two buttons stop the event and
    do nothing else; the card calls [onClick] when it has one. *)
Definition handle {A} (onClick : option A) (e : Event) : option A :=
  match e with
  | ClickCard => onClick
  | ClickLike | ClickBookmark => None
  end.

(** ** Theorems of the card *)

(** A card shows the first three tags, in order, and counts the
    rest: the badges followed by the tags left out are the tags of the
    book, and the counter, shown exactly when tags are left out, is their
    number. *)
Theorem card_tags_split getTime now b :
  let v := view getTime now b in
  tagBadges v ++ drop 3 (tags b) = tags b
  ∧ (length (tagBadges v) ≤ 3)%nat
  ∧ moreBadge v =
      if decide (drop 3 (tags b) = []) then None
      else Some ("+" +:+ pretty (length (drop 3 (tags b))) +:+ " more").
Proof.
  simpl. unfold slice. rewrite drop_0. split_and!.
  - apply take_drop.
  - rewrite length_take. lia.
  - rewrite length_drop. destruct (Nat.ltb_spec 3 (length (tags b))) as [Hl|Hl].
    + rewrite decide_False; [done|]. intros Hd%(f_equal length).
      rewrite length_drop in Hd. simpl in Hd. lia.
    + rewrite decide_True; [done|]. by apply drop_ge.
Qed.

(** C33: the date label counts started days: [1 day ago] for one,
    [n days ago] below seven (zero included), full weeks below thirty
    days and full months of thirty days from there on, with the plural
    for more than one. *)
Theorem date_label_buckets getTime now date :
  let t := Z.abs (now - getTime date) in
  let d := JsNumber.ceilDiv t 86400000 in
  let label := formatDate getTime now date in
  t < 2 ^ 52 →
  (d = 1 → label = "1 day ago")
  ∧ (d < 7 → d ≠ 1 → label = pretty d +:+ " days ago" ∧ 0 ≤ d)
  ∧ (7 ≤ d < 30 →
     label = pretty (d `div` 7) +:+ " week" +:+ plural (d `div` 7) +:+ " ago"
     ∧ 1 ≤ d `div` 7 ≤ 4)
  ∧ (30 ≤ d →
     label = pretty (d `div` 30) +:+ " month" +:+ plural (d `div` 30) +:+ " ago"
     ∧ 1 ≤ d `div` 30).
Proof.
  simpl. unfold formatDate. change (1000 * 60 * 60 * 24) with 86400000.
  set (t := Z.abs (now - getTime date)). intros Ht.
  assert (0 ≤ t) by (unfold t; lia).
  rewrite JsNumber.ceil_divide by lia.
  pose proof (JsNumber.ceilDiv_spec t 86400000 ltac:(lia)) as Hd.
  set (d := JsNumber.ceilDiv t 86400000) in *.
  assert (0 ≤ d < 2 ^ 52) by (change (2 ^ 52) with 4503599627370496 in *; lia).
  rewrite !JsNumber.floor_divide by lia.
  pose proof (Z.div_mod d 7 ltac:(lia)). pose proof (Z.mod_pos_bound d 7 ltac:(lia)).
  pose proof (Z.div_mod d 30 ltac:(lia)). pose proof (Z.mod_pos_bound d 30 ltac:(lia)).
  split_and!; intros; repeat case_match;
    rewrite ?Z.eqb_eq, ?Z.eqb_neq, ?Z.ltb_lt, ?Z.ltb_ge in *;
    (split; [done|lia]) || done || lia.
Qed.

Lemma date_label_buckets_witness :
  let t := Z.abs (1900800000 - 0) in
  let d := JsNumber.ceilDiv t 86400000 in
  let label := formatDate (λ _, 0) 1900800000 "d" in
  (d = 1 → label = "1 day ago")
  ∧ (d < 7 → d ≠ 1 → label = pretty d +:+ " days ago" ∧ 0 ≤ d)
  ∧ (7 ≤ d < 30 →
     label = pretty (d `div` 7) +:+ " week" +:+ plural (d `div` 7) +:+ " ago"
     ∧ 1 ≤ d `div` 7 ≤ 4)
  ∧ (30 ≤ d →
     label = pretty (d `div` 30) +:+ " month" +:+ plural (d `div` 30) +:+ " ago"
     ∧ 1 ≤ d `div` 30).
Proof. apply (date_label_buckets (λ _, 0) 1900800000 "d"). reflexivity. Defined.

End BookCard.

Module BookGrid.

Section clock.
Context (getTime : string → Z).

(** [books.map(book => <BookCard key={book.id} {...book} />)] *)
Definition view (now : Z) (books : list Book) : list BookCard.View :=
  BookCard.view getTime now <$> books.

End clock.

(** An event on the card at position [k]: the identifier [onBookClick]
    receives, if it is called. *)
Definition handle (books : list Book) (k : nat) (e : BookCard.Event) : option string :=
  book ← books !! k; BookCard.handle (Some (id book)) e.

(** The grid shows one card per book, in order; a click on a
    card reports the identifier of the book at that position, and the two
    buttons on a card report nothing. *)
Theorem grid_click_reports_book getTime now books k b :
  books !! k = Some b →
  view getTime now books !! k = Some (BookCard.view getTime now b)
  ∧ length (view getTime now books) = length books
  ∧ handle books k BookCard.ClickCard = Some (id b)
  ∧ handle books k BookCard.ClickLike = None
  ∧ handle books k BookCard.ClickBookmark = None.
Proof.
  intros Hk. unfold view, handle.
  by rewrite list_lookup_fmap, length_fmap, Hk.
Qed.

Lemma grid_click_reports_book_witness :
  let books := [demoDune; demoEmma] in
  view (λ _, 0) 0 books !! 1%nat = Some (BookCard.view (λ _, 0) 0 demoEmma)
  ∧ length (view (λ _, 0) 0 books) = length books
  ∧ handle books 1 BookCard.ClickCard = Some "2"
  ∧ handle books 1 BookCard.ClickLike = None
  ∧ handle books 1 BookCard.ClickBookmark = None.
Proof.
  apply (grid_click_reports_book (λ _, 0) 0 [demoDune; demoEmma] 1 demoEmma).
  reflexivity.
Defined.

End BookGrid.

Module BookRecommendations.

Definition formatViews (views : Z) : string := JsNumber.formatViews views.

Record Row : Type := {
  cover : string;
  coverAlt : string;
  durationBadge : string;
  heading : string;
  avatar : string;
  avatarFallback : string;
  uploaderName : string;
  viewsLabel : string;
  dateLabel : string;
  firstTag : option string;
  likes : Z
}.

Definition row (book : Book) : Row :=
  {| cover := coverImage book;
     coverAlt := title book;
     durationBadge := formatDuration (totalPages book);
     heading := title book;
     avatar := uploaderAvatar book;
     avatarFallback := charAt 0 (uploader book);
     uploaderName := uploader book;
     viewsLabel := formatViews (views book);
     dateLabel := uploadDate book;
     firstTag := tags book !! 0%nat;
     likes := JsNumber.floor (JsNumber.multiply (views book) JsNumber.twentieth) |}.

Section catalogue.
Context (mockBooks : list Book).

Definition view (currentBookId : string) : list Row :=
  row <$> recommendations mockBooks currentBookId.

(** A click on row [k]: the identifier [onBookSelect] receives. *)
Definition handle (currentBookId : string) (k : nat) : option string :=
  id <$> recommendations mockBooks currentBookId !! k.

(** The panel lists the catalogue without the current book, in
    catalogue order, and a click selects a book of the catalogue that is
    not the current one. *)
Theorem recommendation_is_another_book currentBookId k i :
  handle currentBookId k = Some i →
  i ≠ currentBookId ∧ i ∈ ids mockBooks
  ∧ length (view currentBookId) = length (recommendations mockBooks currentBookId)
  ∧ (length (view currentBookId) ≤ length mockBooks)%nat.
Proof.
  unfold handle, view. rewrite length_fmap.
  destruct (recommendations mockBooks currentBookId !! k) as [b|] eqn:Hk; [|done].
  intros [= <-]. apply list_elem_of_lookup_2, recommendations_elem in Hk as [Hb Hi].
  split_and!; [done| |done|].
  - unfold ids. by apply list_elem_of_fmap_2.
  - apply sublist_length, recommendations_sublist.
Qed.

End catalogue.

(** ** Witnesses *)

Lemma recommendation_is_another_book_witness :
  "2" ≠ "1" ∧ "2" ∈ ids demoCatalogue
  ∧ length (view demoCatalogue "1") = length (recommendations demoCatalogue "1")
  ∧ (length (view demoCatalogue "1") ≤ length demoCatalogue)%nat.
Proof. apply (recommendation_is_another_book demoCatalogue "1" 0 "2"). reflexivity. Defined.

End BookRecommendations.
