(* ===== verification/FlipBook.v ===== *)
(** * The page-flip widget

    [FlipBook] models [src/components/FlipBook.tsx]: the properties it
    receives, its two pieces of local state ([showControls] and
    [isMobile]), the handlers that change them, and the view it renders:
    the dimensions handed to the flip widget, the pages (the placeholder
    pages when none are given), which of the two arrow buttons are
    disabled, the icons, the page label and the progress value.  The
    callbacks among the properties are not data: the events of the reader
    stand for them. *)

From Stdlib Require Import QArith.
From S2P Require Import Prelude.

#[local] Open Scope Z_scope.

Module FlipBook.

(** A number that came out of a division: the quotient when the divisor
    is not zero, and otherwise what the division of doubles yields,
    [Infinity] with the sign of the dividend or [NaN] for zero by zero.
    [Ratio q] holds the real value; the double is its rounding, which is
    monotone and leaves 0 and 100 in place. *)
Inductive Progress : Type :=
  | Ratio (q : Q)
  | Infinity (negative : bool)
  | NaN.

Record Props : Type := {
  bookId : string;
  title : string;
  author : string;
  currentPage : Z;
  totalPages : Z;
  pages : list string;
  progress : Progress;
  isReading : bool;
  isMuted : bool;
  isLiked : bool;
  isDisliked : bool;
  views : Z;
  uploadDate : string;
  uploader : option string;
  uploaderAvatar : option string;
  isSubscribed : option bool;
  description : option string
}.

Record State : Type := {
  showControls : bool;
  isMobile : bool;
  listening : bool
}.

(** [useState(false)] twice; no listener before the effect has run. *)
Definition init : State :=
  {| showControls := false; isMobile := false; listening := false |}.

(** [checkMobile]: [setIsMobile(window.innerWidth < 768)] *)
Definition checkMobile (innerWidth : Z) (s : State) : State :=
  {| showControls := showControls s;
     isMobile := innerWidth <? 768;
     listening := listening s |}.

(** The mount effect: [checkMobile()] and the subscription to [resize]. *)
Definition mount (innerWidth : Z) (s : State) : State :=
  {| showControls := showControls s;
     isMobile := innerWidth <? 768;
     listening := true |}.

(** The cleanup of the mount effect. *)
Definition unmount (s : State) : State :=
  {| showControls := showControls s;
     isMobile := isMobile s;
     listening := false |}.

(** The [resize] listener runs only while subscribed. *)
Definition onResize (innerWidth : Z) (s : State) : State :=
  if listening s then checkMobile innerWidth s else s.

Definition handleShowControls (s : State) : State :=
  {| showControls := true; isMobile := isMobile s; listening := listening s |}.

Definition handleHideControls (s : State) : State :=
  {| showControls := false; isMobile := isMobile s; listening := listening s |}.

Definition newline : string := String "010" EmptyString.

(** The text of placeholder page [i] (counted from zero). *)
Definition placeholder (title : string) (i : Z) : string :=
  "Page " +:+ pretty (i + 1) +:+ " of " +:+ dquote +:+ title +:+ dquote
  +:+ newline +:+ newline
  +:+ "This is a placeholder page. Replace with real book content.".

(** [pages.length > 0 ? pages : Array.from({ length: totalPages }, ...)] *)
Definition bookPages (p : Props) : list string :=
  if (0 <? length (pages p))%nat then pages p
  else placeholder (title p) <$> seqZ 0 (totalPages p).

Inductive PlayIcon : Type := Pause | Play.
Inductive VolumeIcon : Type := VolumeX | Volume2.

Record View : Type := {
  width : Z;
  height : Z;
  minWidth : Z;
  maxWidth : Z;
  minHeight : Z;
  maxHeight : Z;
  usePortrait : bool;
  sheets : list string;
  controlsOpaque : bool;
  prevDisabled : bool;
  nextDisabled : bool;
  playIcon : PlayIcon;
  volumeIcon : VolumeIcon;
  pageLabel : Z;
  pageTotal : Z;
  progressValue : Progress
}.

(** The two [disabled] attributes of the arrow buttons. *)
Definition prevIsDisabled (currentPage : Z) : bool := currentPage =? 0.
Definition nextIsDisabled (currentPage totalPages : Z) : bool :=
  totalPages - 1 <=? currentPage.

(** The rendered output. *)
Definition view (p : Props) (s : State) : View :=
  let m := isMobile s in
  {| width := if m then 350 else 700;
     height := if m then 500 else 700;
     minWidth := if m then 200 else 400;
     maxWidth := if m then 400 else 1200;
     minHeight := if m then 300 else 400;
     maxHeight := if m then 700 else 1533;
     usePortrait := m;
     sheets := bookPages p;
     controlsOpaque := showControls s;
     prevDisabled := prevIsDisabled (currentPage p);
     nextDisabled := nextIsDisabled (currentPage p) (totalPages p);
     playIcon := if isReading p then Pause else Play;
     volumeIcon := if isMuted p then VolumeX else Volume2;
     pageLabel := currentPage p + 1;
     pageTotal := totalPages p;
     progressValue := progress p |}.

(** ** Properties of the widget *)

Lemma length_bookPages_default p :
  pages p = [] → length (bookPages p) = Z.to_nat (totalPages p).
Proof.
  intros Hp. unfold bookPages. rewrite Hp. simpl.
  by rewrite length_fmap, length_seqZ.
Qed.

Lemma bookPages_given p : pages p ≠ [] → bookPages p = pages p.
Proof. unfold bookPages. destruct (pages p); [done|]. by simpl. Qed.

Lemma bookPages_default_lookup p (i : nat) :
  pages p = [] → (Z.of_nat i < totalPages p) →
  bookPages p !! i = Some (placeholder (title p) (Z.of_nat i)).
Proof.
  intros Hp Hi. unfold bookPages. rewrite Hp. simpl.
  rewrite list_lookup_fmap, lookup_seqZ_lt by lia. simpl. by rewrite Z.add_0_l.
Qed.

(** The listener is the only way [isMobile] changes after the mount, and
    it is inert once the component has been unmounted. *)
Lemma onResize_after_unmount w s : onResize w (unmount s) = unmount s.
Proof. done. Qed.

Lemma onResize_mounted w w' s :
  isMobile (onResize w (mount w' s)) = (w <? 768).
Proof. done. Qed.

(** Portrait mode and the narrow dimensions go together. *)
Lemma view_portrait_dims p s :
  usePortrait (view p s) = true ↔ width (view p s) = 350.
Proof. unfold view. simpl. destruct (isMobile s); split; done. Qed.

Lemma view_dims_ordered p s :
  minWidth (view p s) ≤ width (view p s) ≤ maxWidth (view p s) ∧
  minHeight (view p s) ≤ height (view p s) ≤ maxHeight (view p s).
Proof. unfold view. simpl. destruct (isMobile s); lia. Qed.

End FlipBook.
