(* ===== verification/Reading.v ===== *)
(** * The reading-progress controller

    [BookReader] models [src/components/BookReader.tsx] together with the
    [bookState] of the page that owns it
    ([src/app/book/[bookId]/page.tsx]): the reader reads the page counters
    as properties and changes them through [onPageChange], which is the
    page's [handleBookPageChange].

    The interval of the auto-read effect is explicit state: a [Timer]
    holds the values the callback closed over ([seenPage], [seenTotal]),
    the delay it was created with and the time left until it fires.  A
    handler returns an [Update]: the new state, the side effects it
    requested and whether the page re-rendered (which gives the reader a
    new [onPageChange] and so re-runs the effect).  [commit] is React's
    effect phase: it tears the interval down and sets it up again when a
    dependency changed, and leaves it alone otherwise.

    Events are what the user, the flip widget, the clock and the page can
    do; [fire] is the executable step function and [run] a sequence of
    events.  [step] states the same transitions as rules, one per handler
    and branch, for the proofs by rule induction; [step_fire] and
    [fire_step] show that the rules are those of [fire]. *)

From Stdlib Require Import QArith.
From S2P Require Import Prelude Machine FlipBook.

#[local] Open Scope Z_scope.

Module BookReader.

(** ** State *)

Record BookState : Type := { currentPage : Z; totalPages : Z }.

Record Local : Type := {
  isPlaying : bool;
  isLiked : bool;
  isDisliked : bool;
  isBookmarked : bool;
  isMuted : bool;
  isSubscribed : bool;
  showReadingListModal : bool;
  isReading : bool;
  readingSpeed : Z
}.

Record Timer : Type := { seenPage : Z; seenTotal : Z; delay : Z; due : Z }.

Record State : Type := {
  bookState : BookState;
  local : Local;
  interval : option Timer;
  mounted : bool
}.

#[export] Instance BookState_eq_dec : EqDecision BookState.
Proof. solve_decision. Defined.
#[export] Instance Local_eq_dec : EqDecision Local.
Proof. solve_decision. Defined.
#[export] Instance Timer_eq_dec : EqDecision Timer.
Proof. solve_decision. Defined.
#[export] Instance State_eq_dec : EqDecision State.
Proof. solve_decision. Defined.

(** The [useState] initial values of the reader. *)
Definition initLocal : Local :=
  {| isPlaying := false; isLiked := false; isDisliked := false;
     isBookmarked := false; isMuted := false; isSubscribed := false;
     showReadingListModal := false; isReading := false; readingSpeed := 1 |}.

(** The reader after its first render and effect phase. *)
Definition init (bs : BookState) : State :=
  {| bookState := bs; local := initLocal; interval := None; mounted := true |}.

(** ** State setters *)

Definition setIsReading (b : bool) (l : Local) : Local :=
  {| isPlaying := isPlaying l; isLiked := isLiked l; isDisliked := isDisliked l;
     isBookmarked := isBookmarked l; isMuted := isMuted l;
     isSubscribed := isSubscribed l;
     showReadingListModal := showReadingListModal l;
     isReading := b; readingSpeed := readingSpeed l |}.

Definition setIsMuted (b : bool) (l : Local) : Local :=
  {| isPlaying := isPlaying l; isLiked := isLiked l; isDisliked := isDisliked l;
     isBookmarked := isBookmarked l; isMuted := b;
     isSubscribed := isSubscribed l;
     showReadingListModal := showReadingListModal l;
     isReading := isReading l; readingSpeed := readingSpeed l |}.

Definition setIsLiked (b : bool) (l : Local) : Local :=
  {| isPlaying := isPlaying l; isLiked := b; isDisliked := isDisliked l;
     isBookmarked := isBookmarked l; isMuted := isMuted l;
     isSubscribed := isSubscribed l;
     showReadingListModal := showReadingListModal l;
     isReading := isReading l; readingSpeed := readingSpeed l |}.

Definition setIsDisliked (b : bool) (l : Local) : Local :=
  {| isPlaying := isPlaying l; isLiked := isLiked l; isDisliked := b;
     isBookmarked := isBookmarked l; isMuted := isMuted l;
     isSubscribed := isSubscribed l;
     showReadingListModal := showReadingListModal l;
     isReading := isReading l; readingSpeed := readingSpeed l |}.

Definition setIsSubscribed (b : bool) (l : Local) : Local :=
  {| isPlaying := isPlaying l; isLiked := isLiked l; isDisliked := isDisliked l;
     isBookmarked := isBookmarked l; isMuted := isMuted l;
     isSubscribed := b;
     showReadingListModal := showReadingListModal l;
     isReading := isReading l; readingSpeed := readingSpeed l |}.

Definition withLocal (f : Local → Local) (s : State) : State :=
  {| bookState := bookState s; local := f (local s);
     interval := interval s; mounted := mounted s |}.

Definition withBook (f : BookState → BookState) (s : State) : State :=
  {| bookState := f (bookState s); local := local s;
     interval := interval s; mounted := mounted s |}.

Definition withInterval (t : option Timer) (s : State) : State :=
  {| bookState := bookState s; local := local s;
     interval := t; mounted := mounted s |}.

(** Shorthands for the two counters and the two switches of the effect. *)
Definition page (s : State) : Z := currentPage (bookState s).
Definition total (s : State) : Z := totalPages (bookState s).
Definition reading (s : State) : bool := isReading (local s).
Definition muted (s : State) : bool := isMuted (local s).

(** ** Handlers *)

Record Update : Type := {
  st : State;
  fx : list Effect;
  parentRendered : bool
}.

Definition stay (s : State) : Update :=
  {| st := s; fx := []; parentRendered := false |}.

Definition localUpdate (f : Local → Local) (e : list Effect) (s : State) : Update :=
  {| st := withLocal f s; fx := e; parentRendered := false |}.

(** [setBookState(prev => ({ ...prev, currentPage: page }))] *)
Definition handleBookPageChange (page : Z) (prev : BookState) : BookState :=
  {| currentPage := page; totalPages := totalPages prev |}.

(** The [onPageChange] property: the page's handler, followed by a render
    of the page. *)
Definition onPageChange (page : Z) (s : State) : Update :=
  {| st := withBook (handleBookPageChange page) s; fx := [];
     parentRendered := true |}.

Definition handlePrevPage (s : State) : Update :=
  if 1 <? page s then onPageChange (page s - 1) s else stay s.

Definition handleNextPage (s : State) : Update :=
  if page s <? total s then onPageChange (page s + 1) s else stay s.

Definition onToggleMute (s : State) : Update :=
  localUpdate (setIsMuted (negb (muted s))) [] s.

Definition onLike (s : State) : Update :=
  localUpdate (setIsLiked (negb (isLiked (local s)))) [] s.

Definition onDislike (s : State) : Update :=
  localUpdate (setIsDisliked (negb (isDisliked (local s)))) [] s.

Definition onToggleSubscribe (s : State) : Update :=
  localUpdate (setIsSubscribed (negb (isSubscribed (local s)))) [] s.

(** The flip widget reports the index of the sheet it turned to. *)
Definition onFlip (data : Z) (s : State) : Update := onPageChange data s.

Section props.
Context (title author : string) (speech : bool).

Definition startedText (s : State) : string :=
  "Reading " +:+ title +:+ " by " +:+ author +:+ ". Page "
  +:+ pretty (page s) +:+ " of " +:+ pretty (total s) +:+ ".".

Definition startedToast (s : State) : Effect :=
  Toast "Auto-Read Started"
    ("Now reading " +:+ dquote +:+ title +:+ dquote
     +:+ " at " +:+ pretty (readingSpeed (local s)) +:+ "x speed.") false.

Definition stoppedToast : Effect :=
  Toast "Auto-Read Stopped" "Reading has been paused." false.

Definition handleAutoRead (s : State) : Update :=
  if negb (reading s) then
    localUpdate (setIsReading true)
      ((if speech then [Speak (startedText s) (readingSpeed (local s))] else [])
       ++ [startedToast s]) s
  else
    localUpdate (setIsReading false)
      ((if speech then [SpeechCancel] else []) ++ [stoppedToast]) s.

(** ** The auto-read effect *)

(** [30000 / readingSpeed] as the timer receives it.  [setInterval]
    converts its delay to an integer by truncation and replaces a negative
    delay by zero; for an integer speed the truncated quotient of the
    doubles is the integer quotient, and the infinite quotient by zero is
    converted to zero, which is the value of [quot] there.  The speed is a
    piece of state that no handler sets: it is 1 in every reachable state
    ([normalSpeed_reachable]) and the period is thirty seconds. *)
Definition period (speed : Z) : Z := 0 `max` (30000 `quot` speed).

(** The body of the effect: an interval exists exactly when reading is on
    and sound is not muted; its callback closes over the page counters of
    this render. *)
Definition readEffect (s : State) : option Timer :=
  if reading s && negb (muted s)
  then Some {| seenPage := page s; seenTotal := total s;
               delay := period (readingSpeed (local s));
               due := period (readingSpeed (local s)) |}
  else None.

(** The callback of the interval, with the values it closed over. *)
Definition intervalCallback (t : Timer) (s : State) : Update :=
  if seenPage t <? seenTotal t
  then onPageChange (seenPage t + 1) s
  else localUpdate (setIsReading false) [] s.

(** The dependency list of the effect, [onPageChange] apart: that one
    changes exactly when the page renders. *)
Definition deps (s : State) : bool * bool * Z * Z * Z :=
  (reading s, muted s, page s, total s, readingSpeed (local s)).

(** The effect phase after a handler: cleanup and a fresh interval when a
    dependency changed, nothing otherwise. *)
Definition commit (old : State) (u : Update) : State :=
  if parentRendered u || negb (bool_decide (deps old = deps (st u)))
  then withInterval (readEffect (st u)) (st u)
  else st u.

(** An interval that fired is armed again with its delay. *)
Definition rearm (s : State) : State :=
  match interval s with
  | Some t => withInterval (Some {| seenPage := seenPage t; seenTotal := seenTotal t;
                                     delay := delay t; due := delay t |}) s
  | None => s
  end.

Definition elapse (ms : Z) (s : State) : State :=
  match interval s with
  | Some t => withInterval (Some {| seenPage := seenPage t; seenTotal := seenTotal t;
                                     delay := delay t; due := due t - ms |}) s
  | None => s
  end.

(** The cleanup on unmount. *)
Definition unmount (s : State) : State :=
  {| bookState := bookState s; local := local s; interval := None;
     mounted := false |}.

(** ** Events and the step function *)

Inductive Event : Type :=
  | ClickPrev
  | ClickNext
  | ClickAutoRead
  | ClickMute
  | ClickSubscribe
  | Flip (data : Z)
  | SelectBook (bs : BookState)
  | ParentRender
  | Elapse (ms : Z)
  | Tick
  | Unmount.

#[export] Instance Event_eq_dec : EqDecision Event.
Proof. solve_decision. Defined.

(** Whether the event can happen in the state: a disabled button takes no
    click, the clock does not run past a pending tick, a tick needs an
    interval that is due, and nothing happens to an unmounted reader. *)
Definition enabled (e : Event) (s : State) : bool :=
  mounted s &&
  match e with
  | ClickPrev => negb (FlipBook.prevIsDisabled (page s))
  | ClickNext => negb (FlipBook.nextIsDisabled (page s) (total s))
  | Elapse ms =>
      (0 <? ms) && match interval s with Some t => ms <=? due t | None => true end
  | Tick => match interval s with Some t => due t =? 0 | None => false end
  | _ => true
  end.

(** What a click, a flip or the page does, before the effect phase.  The
    clock and the unmount do not go through a handler. *)
Definition handle (e : Event) (s : State) : Update :=
  match e with
  | ClickPrev => handlePrevPage s
  | ClickNext => handleNextPage s
  | ClickAutoRead => handleAutoRead s
  | ClickMute => onToggleMute s
  | ClickSubscribe => onToggleSubscribe s
  | Flip data => onFlip data s
  | SelectBook bs =>
      {| st := withBook (λ _, bs) s; fx := []; parentRendered := true |}
  | ParentRender => {| st := s; fx := []; parentRendered := true |}
  | Tick =>
      match interval s with
      | Some t => intervalCallback t (rearm s)
      | None => stay s
      end
  | Elapse _ | Unmount => stay s
  end.

(** The state after the event and its effect phase. *)
Definition transition (e : Event) (s : State) : State :=
  match e with
  | Elapse ms => elapse ms s
  | Unmount => unmount s
  | Tick => commit (rearm s) (handle Tick s)
  | _ => commit s (handle e s)
  end.

(** One step: [None] when the event is not enabled. *)
Definition fire (e : Event) (s : State) : option (State * list Effect) :=
  if enabled e s then Some (transition e s, fx (handle e s)) else None.

(** A sequence of events, with the effects in order. *)
Definition run (es : list Event) (s : State) : option (State * list Effect) :=
  runWith fire es s.

(** The same machine as a relation, one rule per event, each with the
    guards of the code as premises. *)
Inductive step : State → Event → State → Prop :=
  | step_prev s :
      mounted s = true → page s ≠ 0 →
      step s ClickPrev (commit s (handlePrevPage s))
  | step_next s :
      mounted s = true → page s < total s - 1 →
      step s ClickNext (commit s (handleNextPage s))
  | step_auto_read s :
      mounted s = true → step s ClickAutoRead (commit s (handleAutoRead s))
  | step_mute s :
      mounted s = true → step s ClickMute (commit s (onToggleMute s))
  | step_subscribe s :
      mounted s = true → step s ClickSubscribe (commit s (onToggleSubscribe s))
  | step_flip s data :
      mounted s = true → step s (Flip data) (commit s (onFlip data s))
  | step_select s bs :
      mounted s = true → step s (SelectBook bs) (withInterval (readEffect (withBook (λ _, bs) s)) (withBook (λ _, bs) s))
  | step_parent s :
      mounted s = true → step s ParentRender (withInterval (readEffect s) s)
  | step_elapse_idle s ms :
      mounted s = true → 0 < ms → interval s = None →
      step s (Elapse ms) s
  | step_elapse s ms t :
      mounted s = true → 0 < ms → interval s = Some t → ms ≤ due t →
      step s (Elapse ms) (elapse ms s)
  | step_tick s t :
      mounted s = true → interval s = Some t → due t = 0 →
      step s Tick (commit (rearm s) (intervalCallback t (rearm s)))
  | step_unmount s :
      mounted s = true → step s Unmount (unmount s).

Inductive reachable (s0 : State) : State → Prop :=
  | reachable_init : reachable s0 s0
  | reachable_step s e s' : reachable s0 s → step s e s' → reachable s0 s'.

(** ** Invariants *)

(** The closure of timer [t] is the current render's. *)
Definition fresh (s : State) (t : Timer) : Prop :=
  seenPage t = page s ∧ seenTotal t = total s ∧
  delay t = period (readingSpeed (local s)) ∧ 0 ≤ due t ≤ delay t.

(** An interval exists exactly when the reader is mounted, reading and
    not muted, and then its closure is fresh. *)
Definition coherent (s : State) : Prop :=
  match interval s with
  | Some t => mounted s = true ∧ reading s = true ∧ muted s = false ∧ fresh s t
  | None => mounted s = false ∨ reading s = false ∨ muted s = true
  end.

#[export] Instance fresh_dec s t : Decision (fresh s t).
Proof. unfold fresh. apply _. Defined.
#[export] Instance coherent_dec s : Decision (coherent s).
Proof. unfold coherent. destruct (interval s); apply _. Defined.

(** The page counter is a page of the book. *)
Definition inBook (s : State) : Prop := 1 ≤ page s ≤ total s.

#[export] Instance inBook_dec s : Decision (inBook s).
Proof. unfold inBook. apply _. Defined.

(** ** The progress value and the properties handed to the widget *)

(** [(currentPage / totalPages) * 100]; a book of zero pages makes the
    quotient [NaN] on page zero and infinite on every other page. *)
Definition progress (s : State) : FlipBook.Progress :=
  if total s =? 0
  then if page s =? 0 then FlipBook.NaN else FlipBook.Infinity (page s <? 0)
  else FlipBook.Ratio (inject_Z (page s) / inject_Z (total s) * 100)%Q.

(** ** The effect phase *)

Lemma commit_rerun old u :
  parentRendered u = true → commit old u = withInterval (readEffect (st u)) (st u).
Proof. unfold commit. by intros ->. Qed.

Lemma commit_changed old u :
  deps old ≠ deps (st u) → commit old u = withInterval (readEffect (st u)) (st u).
Proof.
  unfold commit. intros Hd. rewrite bool_decide_eq_false_2 by done.
  by rewrite orb_true_r.
Qed.

Lemma commit_unchanged old u :
  parentRendered u = false → deps old = deps (st u) → commit old u = st u.
Proof. unfold commit. intros -> Hd. by rewrite bool_decide_eq_true_2. Qed.

Lemma commit_toggle_mute s :
  commit s (onToggleMute s) =
    let s' := withLocal (setIsMuted (negb (muted s))) s in
    withInterval (readEffect s') s'.
Proof.
  apply commit_changed. unfold deps, onToggleMute, reading, muted, page, total.
  simpl. destruct (isMuted (local s)); simpl; congruence.
Qed.

Lemma commit_set_reading b e s :
  reading s = negb b →
  commit s (localUpdate (setIsReading b) e s) =
    let s' := withLocal (setIsReading b) s in
    withInterval (readEffect s') s'.
Proof.
  intros Hr. apply commit_changed. unfold deps, reading, muted, page, total in *.
  simpl. rewrite Hr. destruct b; simpl; congruence.
Qed.

(** Case analysis on the integer tests of a guard. *)
Ltac case_test :=
  repeat match goal with
  | H : interval _ = _ |- _ => rewrite H in *
  | H : mounted _ = _ |- _ => rewrite H in *
  | |- context [?a =? ?b] => destruct (Z.eqb_spec a b); try lia
  | |- context [?a <=? ?b] => destruct (Z.leb_spec a b); try lia
  | |- context [?a <? ?b] => destruct (Z.ltb_spec a b); try lia
  | H : context [?a =? ?b] |- _ => destruct (Z.eqb_spec a b); try lia
  | H : context [?a <=? ?b] |- _ => destruct (Z.leb_spec a b); try lia
  | H : context [?a <? ?b] |- _ => destruct (Z.ltb_spec a b); try lia
  end; simplify_eq/=.

Lemma step_fire s e s' : step s e s' → ∃ out, fire e s = Some (s', out).
Proof.
  unfold fire, enabled, transition,
    FlipBook.prevIsDisabled, FlipBook.nextIsDisabled.
  destruct 1; simpl; unfold elapse; case_test; eauto.
Qed.

Lemma fire_step s e s' out : fire e s = Some (s', out) → step s e s'.
Proof.
  unfold fire, enabled, FlipBook.prevIsDisabled, FlipBook.nextIsDisabled.
  destruct (mounted s) eqn:Hm; [|done].
  destruct e; simpl; intros Hf; case_test;
    try (by constructor); try (constructor; [done|lia]).
  - destruct (interval s) as [t|] eqn:Ht; case_test.
    + by econstructor.
    + unfold transition, elapse. rewrite Ht. by constructor.
  - destruct (interval s) as [t|] eqn:Ht; case_test.
    by constructor.
Qed.

(** ** Handlers leave the interval to the effect phase *)

Definition frame (u : Update) (s : State) : Prop :=
  interval (st u) = interval s ∧ mounted (st u) = mounted s.

Lemma frame_stay s : frame (stay s) s.
Proof. done. Qed.

Lemma frame_onPageChange p s : frame (onPageChange p s) s.
Proof. done. Qed.

Lemma frame_localUpdate f e s : frame (localUpdate f e s) s.
Proof. done. Qed.

Lemma frame_intervalCallback t s : frame (intervalCallback t s) s.
Proof. unfold intervalCallback. by case_match. Qed.

Lemma frame_handle e s : e ≠ Tick → frame (handle e s) s.
Proof.
  destruct e; intros He; try done; simpl;
    unfold handlePrevPage, handleNextPage, handleAutoRead; by repeat case_match.
Qed.

(** ** The interval is coherent with the state *)

Lemma coherent_readEffect s :
  mounted s = true → coherent (withInterval (readEffect s) s).
Proof.
  intros Hm. unfold coherent, readEffect, fresh.
  destruct (reading s) eqn:Hr, (muted s) eqn:Hmu; simpl; auto.
  unfold period. repeat split; auto; lia.
Qed.

Lemma coherent_deps s s' :
  deps s = deps s' → interval s' = interval s → mounted s' = mounted s →
  coherent s → coherent s'.
Proof.
  unfold deps, coherent, fresh. intros Hd Hi Hm.
  injection Hd as Hr Hmu Hp Ht Hs.
  by rewrite Hi, Hm, <- Hr, <- Hmu, <- Hp, <- Ht, <- Hs.
Qed.

Lemma coherent_commit old u :
  frame u old → mounted old = true → coherent old → coherent (commit old u).
Proof.
  intros [Hi Hm] Hmo Hc. unfold commit.
  destruct (parentRendered u); simpl.
  { apply coherent_readEffect. congruence. }
  case_bool_decide; simpl.
  - by apply (coherent_deps old).
  - apply coherent_readEffect. congruence.
Qed.

Lemma coherent_rearm s : coherent s → coherent (rearm s).
Proof.
  unfold coherent, rearm, fresh.
  destruct (interval s) as [t|] eqn:Ht; simpl; [|by rewrite Ht].
  intros (? & ? & ? & ? & ? & ? & ?). repeat split; auto; lia.
Qed.

Lemma coherent_elapse ms s :
  enabled (Elapse ms) s = true → coherent s → coherent (elapse ms s).
Proof.
  unfold enabled, coherent, elapse, fresh.
  destruct (interval s) as [t|] eqn:Ht; simpl; [|by rewrite Ht].
  intros He (? & ? & ? & ? & ? & ? & ?).
  apply andb_true_iff in He as [_ [Hpos Hle]%andb_true_iff].
  apply Z.ltb_lt in Hpos. apply Z.leb_le in Hle.
  repeat split; auto; lia.
Qed.

Lemma coherent_unmount s : coherent (unmount s).
Proof. unfold coherent. simpl. auto. Qed.

Lemma enabled_mounted e s : enabled e s = true → mounted s = true.
Proof. unfold enabled. by intros [? _]%andb_true_iff. Qed.

Lemma coherent_transition e s :
  enabled e s = true → coherent s → coherent (transition e s).
Proof.
  intros He Hc. pose proof (enabled_mounted _ _ He) as Hm.
  destruct e; try (apply coherent_commit; [by apply frame_handle|done..]).
  - by apply coherent_elapse.
  - unfold transition. simpl. apply coherent_commit.
    + destruct (interval s) as [t|] eqn:Ht; [apply frame_intervalCallback|].
      unfold rearm. by rewrite Ht.
    + unfold rearm. by destruct (interval s).
    + by apply coherent_rearm.
  - apply coherent_unmount.
Qed.

Lemma coherent_init bs : coherent (init bs).
Proof. unfold coherent. simpl. auto. Qed.

Lemma coherent_step s e s' : step s e s' → coherent s → coherent s'.
Proof.
  intros [out Hf]%step_fire Hc. unfold fire in Hf.
  destruct (enabled e s) eqn:He; simplify_eq. by apply coherent_transition.
Qed.

Lemma coherent_reachable s0 s : coherent s0 → reachable s0 s → coherent s.
Proof. induction 2; eauto using coherent_step. Qed.

(** ** Sequences of events *)

Lemma run_app es1 es2 s :
  run (es1 ++ es2) s =
    '(s1, out1) ← run es1 s; '(s2, out2) ← run es2 s1; Some (s2, out1 ++ out2).
Proof. apply runWith_app. Qed.

Lemma run_reachable es s s' out : run es s = Some (s', out) → reachable s s'.
Proof.
  revert s s' out. induction es as [|e es IH]; intros s s' out; simpl.
  { intros [= <- _]. constructor. }
  destruct (fire e s) as [[s1 o1]|] eqn:Hf; simpl; [|done].
  destruct (run es s1) as [[s2 o2]|] eqn:Hr; simpl; [|done].
  intros [= <- _]. apply IH in Hr. apply fire_step in Hf.
  clear IH. induction Hr; [eapply reachable_step; [constructor|done]|].
  eapply reachable_step; eauto.
Qed.

(** ** Auto-advance *)

(** The reader is playing: mounted, reading, not muted, at normal speed,
    with the interval its effect creates. *)
Definition playing (s : State) : Prop :=
  mounted s = true ∧ reading s = true ∧ muted s = false ∧
  readingSpeed (local s) = 1 ∧ interval s = readEffect s.

#[export] Instance playing_dec s : Decision (playing s).
Proof. unfold playing. apply _. Defined.

(** One period of the clock followed by the tick it makes due. *)
Definition round : list Event := [Elapse 30000; Tick].

(** [n] rounds. *)
Definition autoplay (n : nat) (s : State) : option (State * list Effect) :=
  run (concat (replicate n round)) s.

(** The state after a tick that turned the page. *)
Definition turned (s : State) : State :=
  let s' := withBook (handleBookPageChange (page s + 1)) s in
  withInterval (readEffect s') s'.

(** The state after the tick that found the last page. *)
Definition halted (s : State) : State :=
  withInterval None (withLocal (setIsReading false) s).

Lemma playing_interval s :
  playing s →
  interval s = Some {| seenPage := page s; seenTotal := total s;
                       delay := 30000; due := 30000 |}.
Proof.
  intros (_ & Hr & Hm & Hs & ->). unfold readEffect. by rewrite Hr, Hm, Hs.
Qed.

Lemma round_turns s :
  playing s → page s < total s → run round s = Some (turned s, []).
Proof.
  intros Hp Hlt. pose proof (playing_interval s Hp) as Hi.
  destruct Hp as (Hm & Hr & Hmu & Hs & _).
  unfold round, run, fire, enabled, transition, elapse. simpl.
  rewrite Hm, Hi. simpl. rewrite Hm. simpl.
  unfold rearm, intervalCallback. simpl.
  destruct (Z.ltb_spec (page s) (total s)); [|lia]. simpl.
  by rewrite commit_rerun.
Qed.

Lemma round_halts s :
  playing s → total s ≤ page s → run round s = Some (halted s, []).
Proof.
  intros Hp Hge. pose proof (playing_interval s Hp) as Hi.
  destruct Hp as (Hm & Hr & Hmu & Hs & _).
  unfold round, run, fire, enabled, transition, elapse. simpl.
  rewrite Hm, Hi. simpl. rewrite Hm. simpl.
  unfold rearm, intervalCallback. simpl.
  destruct (Z.ltb_spec (page s) (total s)); [lia|]. simpl.
  rewrite commit_set_reading by done.
  by unfold halted, readEffect, reading.
Qed.

Lemma playing_turned s : playing s → playing (turned s).
Proof.
  intros (Hm & Hr & Hmu & Hs & _). unfold playing, turned. by simpl.
Qed.

Lemma page_turned s : page (turned s) = page s + 1.
Proof. done. Qed.

Lemma total_turned s : total (turned s) = total s.
Proof. done. Qed.

Lemma page_iter_turned n s :
  page (Nat.iter n turned s) = page s + Z.of_nat n
  ∧ total (Nat.iter n turned s) = total s.
Proof.
  induction n as [|n [IHp IHt]]; simpl; [split; [lia|done]|].
  rewrite page_turned, total_turned. split; [lia|done].
Qed.

Lemma playing_iter_turned n s : playing s → playing (Nat.iter n turned s).
Proof. intros Hp. induction n; simpl; auto using playing_turned. Qed.

Lemma autoplay_S n s :
  autoplay (S n) s =
    '(s1, out1) ← run round s; '(s2, out2) ← autoplay n s1; Some (s2, out1 ++ out2).
Proof. unfold autoplay. apply (run_app round). Qed.

Lemma autoplay_turns n s :
  playing s → page s + Z.of_nat n ≤ total s →
  autoplay n s = Some (Nat.iter n turned s, []).
Proof.
  revert s. induction n as [|n IH]; intros s Hp Hle; [done|].
  rewrite Nat.iter_succ_r, autoplay_S, round_turns by (done || lia). simpl.
  by rewrite IH;
    [|by apply playing_turned|rewrite page_turned, total_turned; lia].
Qed.

(** ** The reading speed never changes *)

Definition normalSpeed (s : State) : Prop := readingSpeed (local s) = 1.

Lemma normalSpeed_commit old u :
  normalSpeed (st u) → normalSpeed (commit old u).
Proof. unfold commit, normalSpeed. by case_match. Qed.

Lemma normalSpeed_transition e s :
  normalSpeed s → normalSpeed (transition e s).
Proof.
  intros Hs. destruct e; try apply normalSpeed_commit; try done; simpl;
    unfold handlePrevPage, handleNextPage, handleAutoRead, elapse, rearm,
      intervalCallback; by repeat case_match.
Qed.

Lemma normalSpeed_reachable s0 s : normalSpeed s0 → reachable s0 s → normalSpeed s.
Proof.
  induction 2 as [|s e s' _ IH Hst]; [done|].
  apply step_fire in Hst as [out Hf]. unfold fire in Hf.
  case_match; simplify_eq. by apply normalSpeed_transition.
Qed.

(** ** The page stays in the book *)

Lemma inBook_commit old u : inBook (st u) → inBook (commit old u).
Proof. unfold commit, inBook. by case_match. Qed.

Lemma inBook_tick s :
  coherent s → inBook s → inBook (transition Tick s).
Proof.
  intros Hc Hb. unfold transition. apply inBook_commit. simpl.
  unfold coherent, fresh in Hc. unfold rearm, intervalCallback.
  destruct (interval s) as [t|] eqn:Ht; simpl; [|done].
  destruct Hc as (_ & _ & _ & Hp & Htot & _).
  unfold inBook, page, total in *. case_match; simpl; [|done].
  apply Z.ltb_lt in H. lia.
Qed.

Lemma inBook_buttons e s :
  e ∈ [ClickPrev; ClickNext; ClickAutoRead; ClickMute; ClickSubscribe;
       ParentRender; Unmount] →
  inBook s → inBook (transition e s).
Proof.
  intros He Hb. unfold inBook, page, total in *.
  repeat (apply elem_of_cons in He as [->|He]); try (by apply elem_of_nil in He);
    try apply inBook_commit; unfold inBook, page, total; simpl; try done;
    unfold handlePrevPage, handleNextPage, handleAutoRead, page, total;
    repeat case_match; simpl; try done;
    repeat match goal with
    | H : (_ <? _) = true |- _ => apply Z.ltb_lt in H
    end; lia.
Qed.

Lemma inBook_elapse ms s : inBook s → inBook (transition (Elapse ms) s).
Proof. unfold inBook, transition, elapse. by case_match. Qed.

(** ** Theorems of the controller *)

(** C1: in every state the reader reaches from its initial
    state, the auto-read interval exists exactly when the reader is
    mounted, reading and not muted, and the interval's callback closed over
    the current page and page count (no stale closure), with a remaining
    time between zero and its delay. *)
Theorem reader_interval_invariant bs s :
  reachable (init bs) s → coherent s.
Proof. apply coherent_reachable, coherent_init. Qed.

(** No event changes the reading speed, so every interval
    the reader ever creates has a delay of 30000 milliseconds. *)
Theorem reader_speed_constant bs s t :
  reachable (init bs) s → interval s = Some t → delay t = 30000.
Proof.
  intros Hr Ht. pose proof (coherent_reachable _ _ (coherent_init bs) Hr) as Hc.
  pose proof (normalSpeed_reachable (init bs) s eq_refl Hr) as Hs.
  unfold coherent, fresh in Hc. rewrite Ht in Hc.
  destruct Hc as (_ & _ & _ & _ & _ & -> & _). by rewrite Hs.
Qed.

(** C11: stopping auto-read while it plays cancels the
    interval: the next state has none, no tick can fire in it, and any
    amount of time passes without changing it.  The effects are the
    cancellation of speech, when there is speech, and the toast. *)
Theorem stop_cancels_interval s :
  playing s →
  ∃ s', fire ClickAutoRead s
          = Some (s', (if speech then [SpeechCancel] else []) ++ [stoppedToast])
    ∧ reading s' = false ∧ interval s' = None
    ∧ fire Tick s' = None
    ∧ ∀ ms, 0 < ms → fire (Elapse ms) s' = Some (s', []).
Proof.
  intros (Hm & Hr & Hmu & Hs & Hi).
  eexists. unfold fire at 1, enabled. rewrite Hm. simpl.
  unfold handleAutoRead. rewrite Hr. simpl. split; [done|].
  rewrite commit_set_reading by done.
  unfold fire, enabled, readEffect, reading. simpl. rewrite Hm. simpl.
  repeat split. intros ms Hms. apply Z.ltb_lt in Hms. by rewrite Hms.
Qed.

(** Starting auto-read from rest (not muted, normal speed)
    creates the interval with a full period and requests the speech, when
    the browser has it, and the toast. *)
Theorem start_arms_interval s :
  mounted s = true → reading s = false → muted s = false → normalSpeed s →
  ∃ s', fire ClickAutoRead s
          = Some (s', (if speech then [Speak (startedText s) 1] else [])
                       ++ [startedToast s])
    ∧ playing s' ∧ bookState s' = bookState s.
Proof.
  intros Hm Hr Hmu Hs. eexists. unfold fire, enabled. rewrite Hm. simpl.
  unfold handleAutoRead. rewrite Hr. simpl. rewrite Hs. split; [done|].
  rewrite commit_set_reading by done.
  unfold playing, reading, muted, readEffect, reading, muted in *. by simpl.
Qed.

(** After the reader is unmounted no event is enabled: no
    tick, no click and no callback reaches a reader that is gone. *)
Theorem unmount_is_final e s : fire e (unmount s) = None.
Proof. done. Qed.

(** C17: the arrow buttons, the other buttons, the clock and the
    interval callback keep the page counter between one and the number of
    pages. *)
Theorem pages_stay_in_book s e s' :
  step s e s' → coherent s → inBook s →
  (∀ d, e ≠ Flip d) → (∀ bs, e ≠ SelectBook bs) →
  inBook s'.
Proof.
  intros [out Hf]%step_fire Hc Hb Hflip Hsel. unfold fire in Hf.
  case_match; simplify_eq.
  destruct e as [ | | | | |d|b| |ms| | ];
    try (by destruct (Hflip d)); try (by destruct (Hsel b));
    try (apply inBook_buttons; [set_solver|done]).
  - by apply inBook_elapse.
  - by apply inBook_tick.
Qed.

(** C16: the callback of the flip widget stores the index it is
    given as the current page, whatever it is: the controller does not
    clamp. *)
Theorem flip_is_not_clamped s d s' out :
  fire (Flip d) s = Some (s', out) → page s' = d ∧ total s' = total s.
Proof.
  unfold fire. case_match; [|done]. intros [= <- _].
  unfold transition. simpl. by rewrite commit_rerun.
Qed.

(** C25: the button that turns forward is disabled from the
    page before the last one on, so a click on it never arrives at the
    last page. *)
Theorem next_button_misses_last_page s s' out :
  fire ClickNext s = Some (s', out) →
  page s' = page s + 1 ∧ page s' < total s'.
Proof.
  unfold fire, enabled, FlipBook.nextIsDisabled. case_match; [|done].
  intros [= <- _]. apply andb_true_iff in H as [_ H].
  apply negb_true_iff, Z.leb_gt in H.
  unfold transition. simpl. unfold handleNextPage.
  destruct (Z.ltb_spec (page s) (total s)); [|lia].
  rewrite commit_rerun by done. unfold page, total in *. simpl. lia.
Qed.

(** On page one the button that turns back is enabled
    (it is disabled on page zero only) and its handler does nothing. *)
Theorem prev_button_idles_on_first_page s :
  mounted s = true → page s = 1 → fire ClickPrev s = Some (s, []).
Proof.
  intros Hm Hp. unfold fire, enabled, FlipBook.prevIsDisabled.
  rewrite Hm, Hp. simpl. unfold handlePrevPage. rewrite Hp. simpl.
  by rewrite commit_unchanged.
Qed.

(** C15: while playing, every period of the clock turns
    exactly one page: [n] rounds from page [k] lead to page [k + n], still
    playing with a fresh interval, as long as that page exists. *)
Theorem autoplay_one_page_per_tick n s :
  playing s → page s + Z.of_nat n ≤ total s →
  ∃ s', autoplay n s = Some (s', [])
    ∧ page s' = page s + Z.of_nat n ∧ total s' = total s ∧ playing s'.
Proof.
  intros Hp Hle. exists (Nat.iter n turned s).
  split; [by apply autoplay_turns|].
  destruct (page_iter_turned n s). auto using playing_iter_turned.
Qed.

(** C4: auto-advance from page [k] reaches the last page after
    [totalPages - k] rounds and stops on the round after that: reading is
    off, the interval is gone and no further tick can fire. *)
Theorem autoplay_stops_at_end s :
  playing s → page s ≤ total s →
  ∃ s', autoplay (S (Z.to_nat (total s - page s))) s = Some (s', [])
    ∧ page s' = total s ∧ reading s' = false ∧ interval s' = None
    ∧ fire Tick s' = None.
Proof.
  intros Hp Hle. set (n := Z.to_nat (total s - page s)).
  destruct (page_iter_turned n s) as [Hpage Htot].
  exists (halted (Nat.iter n turned s)).
  replace (S n) with (n + 1)%nat by lia. unfold autoplay.
  rewrite replicate_add, concat_app, run_app. fold (autoplay n s).
  rewrite autoplay_turns by (done || lia). cbn [mbind option_bind].
  rewrite round_halts by (auto using playing_iter_turned || lia).
  repeat split; simpl; try done.
  - unfold page in *. simpl. unfold total in *. lia.
  - unfold fire, enabled. simpl. by rewrite andb_false_r.
Qed.

(** The clock advancing by less than a period and then a render of the
    page bring a playing reader back to where it was. *)
Lemma elapse_then_render ms s :
  playing s → 0 < ms < 30000 →
  enabled (Elapse ms) s = true ∧ mounted (elapse ms s) = true
  ∧ transition ParentRender (elapse ms s) = s.
Proof.
  intros Hp Hms. pose proof (playing_interval s Hp) as Hi.
  destruct Hp as (Hm & Hr & Hmu & Hs & Heq).
  unfold enabled, transition, elapse. rewrite Hm, Hi. simpl.
  destruct (Z.ltb_spec 0 ms); [|lia]. destruct (Z.leb_spec ms 30000); [|lia].
  split_and!; [done..|]. rewrite commit_rerun by done. simpl.
  unfold readEffect in *. unfold reading, muted, page, total in *. simpl.
  rewrite Hr, Hmu, Hs in *. simpl in *.
  destruct s as [b l i m]. simpl in *. by subst.
Qed.

(** C31: a render of the page re-runs the effect and
    arms the interval again with a full period.  If the page renders more
    often than once per period, the tick never becomes due: however many
    times the clock advances by less than a period and the page then
    renders, the reader is back in the same state on the same page. *)
Theorem rerender_starves_autoplay n ms s :
  playing s → 0 < ms < 30000 →
  run (concat (replicate n [Elapse ms; ParentRender])) s = Some (s, []).
Proof.
  intros Hp Hms. destruct (elapse_then_render ms s Hp Hms) as (He & Hm & Ht).
  apply runWith_cycles. cbn [runWith]. unfold fire. rewrite He.
  cbn [mbind option_bind transition]. unfold enabled. rewrite Hm. simpl.
  f_equal. by rewrite <- Ht at 3.
Qed.

(** C37: muting while playing removes the interval although
    reading stays on; unmuting creates a new interval with a full period,
    whatever time had already passed. *)
Theorem mute_suspends_interval ms s :
  playing s → 0 < ms ≤ 30000 →
  ∃ s1, run [Elapse ms; ClickMute] s = Some (s1, [])
    ∧ reading s1 = true ∧ interval s1 = None ∧ fire Tick s1 = None
    ∧ fire ClickMute s1 = Some (s, []).
Proof.
  intros Hp Hms. pose proof (playing_interval s Hp) as Hi.
  destruct Hp as (Hm & Hr & Hmu & Hs & Heq).
  eexists. unfold run. cbn [runWith]. unfold fire at 1 2, enabled, transition, elapse.
  rewrite Hm, Hi. simpl.
  destruct (Z.ltb_spec 0 ms); [|lia]. destruct (Z.leb_spec ms 30000); [|lia].
  simpl. rewrite Hm. simpl. split; [done|].
  rewrite commit_toggle_mute. unfold fire, enabled. simpl.
  unfold readEffect, reading, muted in *. simpl. rewrite Hm, Hr, Hmu. simpl.
  repeat split. rewrite commit_toggle_mute. simpl.
  unfold readEffect, reading, muted, page, total in *. simpl.
  rewrite Hr, Hmu in *. simpl.
  destruct s as [b l i m]. destruct l. simpl in *. by subst.
Qed.

End props.

(** ** The rendered reader *)

Section view.
Context (bookId title author uploader uploaderAvatar description : string)
  (views : Z) (uploadDate : string).

(** The properties the reader hands to the flip widget. *)
Definition flipBookProps (s : State) : FlipBook.Props :=
  {| FlipBook.bookId := bookId;
     FlipBook.title := title;
     FlipBook.author := author;
     FlipBook.currentPage := page s;
     FlipBook.totalPages := total s;
     FlipBook.pages := [];
     FlipBook.progress := progress s;
     FlipBook.isReading := reading s;
     FlipBook.isMuted := muted s;
     FlipBook.isLiked := isLiked (local s);
     FlipBook.isDisliked := isDisliked (local s);
     FlipBook.views := views;
     FlipBook.uploadDate := uploadDate;
     FlipBook.uploader := Some uploader;
     FlipBook.uploaderAvatar := Some uploaderAvatar;
     FlipBook.isSubscribed := Some (isSubscribed (local s));
     FlipBook.description := Some description |}.

Record View : Type := {
  flipBook : FlipBook.Props;
  avatarFallback : string;
  channelName : string;
  subscribeDimmed : bool;
  subscribeLabel : string;
  channelDescription : string
}.

Definition view (s : State) : View :=
  {| flipBook := flipBookProps s;
     avatarFallback := charAt 0 uploader;
     channelName := uploader;
     subscribeDimmed := isSubscribed (local s);
     subscribeLabel := if isSubscribed (local s) then "Subscribed" else "Subscribe";
     channelDescription := description |}.

End view.

(** ** Properties of the rendered reader *)

(** While the page is a page of the book, the progress value
    handed to the progress bar is a number above zero and at most one
    hundred. *)
Theorem progress_in_range s :
  inBook s → ∃ q, progress s = FlipBook.Ratio q ∧ (0 < q ∧ q <= 100)%Q.
Proof.
  unfold inBook, progress. intros [Hlo Hhi].
  destruct (page s) as [|p|p] eqn:Hp; try lia.
  destruct (total s) as [|t|t] eqn:Ht; try lia.
  eexists. split; [done|].
  unfold Qlt, Qle, Qdiv, Qmult, Qinv, inject_Z. simpl. lia.
Qed.

(** For a book of zero pages the progress bar receives no number: [NaN]
    on page zero, and an infinity with the sign of the page elsewhere. *)
Theorem progress_without_pages s :
  total s = 0 →
  progress s = if decide (page s = 0) then FlipBook.NaN
               else FlipBook.Infinity (bool_decide (page s < 0)).
Proof.
  unfold progress. intros ->. simpl.
  case_decide as Hp; [by rewrite Hp|].
  apply Z.eqb_neq in Hp as ->. f_equal.
  apply eq_true_iff_eq. by rewrite Z.ltb_lt, bool_decide_eq_true.
Qed.

(** The widget labels the page with the counter plus
    one while the reader counts from one, so on the last page of the book
    the label shows a page number above the number of pages. *)
Theorem page_label_is_one_ahead bookId title author uploader avatar description
    views uploadDate s fs :
  page s = total s →
  let v := FlipBook.view
    (flipBookProps bookId title author uploader avatar description views
       uploadDate s) fs in
  FlipBook.pageLabel v = page s + 1 ∧ FlipBook.pageTotal v < FlipBook.pageLabel v.
Proof. intros Hp. simpl. lia. Qed.

(** The reader passes no pages of its own, so the widget
    shows one placeholder sheet per page of the book, sheet [i] carrying
    the number [i + 1]. *)
Theorem reader_sheets_count bookId title author uploader avatar description
    views uploadDate s fs (i : nat) :
  Z.of_nat i < total s →
  let v := FlipBook.view
    (flipBookProps bookId title author uploader avatar description views
       uploadDate s) fs in
  length (FlipBook.sheets v) = Z.to_nat (total s)
  ∧ FlipBook.sheets v !! i = Some (FlipBook.placeholder title (Z.of_nat i)).
Proof.
  intros Hi. simpl. split.
  - by apply FlipBook.length_bookPages_default.
  - by apply FlipBook.bookPages_default_lookup.
Qed.

(** ** Witnesses *)

Definition demoBook : BookState := {| currentPage := 2; totalPages := 4 |}.

(** The reader of [demoBook] while it plays. *)
Definition demoPlaying : State :=
  {| bookState := demoBook;
     local := setIsReading true initLocal;
     interval := Some {| seenPage := 2; seenTotal := 4; delay := 30000; due := 30000 |};
     mounted := true |}.

Lemma demo_reachable :
  reachable "T" "A" true (init demoBook) demoPlaying.
Proof. eapply (run_reachable "T" "A" true [ClickAutoRead]). reflexivity. Defined.

Lemma demo_is_playing : playing demoPlaying.
Proof. repeat split. Defined.

Lemma reader_interval_invariant_witness : coherent demoPlaying.
Proof. apply (reader_interval_invariant "T" "A" true demoBook), demo_reachable. Defined.

Lemma reader_speed_constant_witness : 30000 = 30000.
Proof.
  apply (reader_speed_constant "T" "A" true demoBook demoPlaying
           {| seenPage := 2; seenTotal := 4; delay := 30000; due := 30000 |}).
  - apply demo_reachable.
  - reflexivity.
Defined.

Lemma stop_cancels_interval_witness :
  ∃ s', fire "T" "A" true ClickAutoRead demoPlaying
          = Some (s', [SpeechCancel; stoppedToast])
    ∧ reading s' = false ∧ interval s' = None
    ∧ fire "T" "A" true Tick s' = None
    ∧ ∀ ms, 0 < ms → fire "T" "A" true (Elapse ms) s' = Some (s', []).
Proof. apply (stop_cancels_interval "T" "A" true), demo_is_playing. Defined.

Lemma start_arms_interval_witness :
  ∃ s', fire "T" "A" true ClickAutoRead (init demoBook)
          = Some (s', [Speak (startedText "T" "A" (init demoBook)) 1;
                       startedToast "T" (init demoBook)])
    ∧ playing s' ∧ bookState s' = demoBook.
Proof. apply (start_arms_interval "T" "A" true (init demoBook)); reflexivity. Defined.

Lemma pages_stay_in_book_witness : inBook (turned demoPlaying).
Proof.
  apply (pages_stay_in_book "T" "A" true
           (elapse 30000 demoPlaying) Tick (turned demoPlaying)).
  - apply (fire_step "T" "A" true _ _ _ []). reflexivity.
  - vm_compute. repeat split; congruence.
  - vm_compute. split; congruence.
  - discriminate.
  - discriminate.
Defined.

Lemma flip_is_not_clamped_witness :
  let s' := transition "T" "A" true (Flip 0) demoPlaying in
  page s' = 0 ∧ total s' = total demoPlaying.
Proof. apply (flip_is_not_clamped "T" "A" true demoPlaying 0 _ []). reflexivity. Defined.

Lemma next_button_misses_last_page_witness :
  let s' := transition "T" "A" true ClickNext demoPlaying in
  page s' = page demoPlaying + 1 ∧ page s' < total s'.
Proof.
  apply (next_button_misses_last_page "T" "A" true demoPlaying _ []). reflexivity.
Defined.

Lemma prev_button_idles_on_first_page_witness :
  fire "T" "A" true ClickPrev (init {| currentPage := 1; totalPages := 4 |})
  = Some (init {| currentPage := 1; totalPages := 4 |}, []).
Proof. apply (prev_button_idles_on_first_page "T" "A" true); reflexivity. Defined.

Lemma autoplay_one_page_per_tick_witness :
  ∃ s', autoplay "T" "A" true 2 demoPlaying = Some (s', [])
    ∧ page s' = page demoPlaying + Z.of_nat 2 ∧ total s' = total demoPlaying
    ∧ playing s'.
Proof.
  apply (autoplay_one_page_per_tick "T" "A" true 2 demoPlaying).
  - apply demo_is_playing.
  - vm_compute. congruence.
Defined.

Lemma autoplay_stops_at_end_witness :
  ∃ s', autoplay "T" "A" true 3 demoPlaying = Some (s', [])
    ∧ page s' = total demoPlaying ∧ reading s' = false ∧ interval s' = None
    ∧ fire "T" "A" true Tick s' = None.
Proof.
  apply (autoplay_stops_at_end "T" "A" true demoPlaying).
  - apply demo_is_playing.
  - vm_compute. congruence.
Defined.

Lemma rerender_starves_autoplay_witness :
  run "T" "A" true (concat (replicate 5 [Elapse 20000; ParentRender])) demoPlaying
  = Some (demoPlaying, []).
Proof.
  apply (rerender_starves_autoplay "T" "A" true 5 20000 demoPlaying).
  - apply demo_is_playing.
  - lia.
Defined.

Lemma mute_suspends_interval_witness :
  ∃ s1, run "T" "A" true [Elapse 29000; ClickMute] demoPlaying = Some (s1, [])
    ∧ reading s1 = true ∧ interval s1 = None
    ∧ fire "T" "A" true Tick s1 = None
    ∧ fire "T" "A" true ClickMute s1 = Some (demoPlaying, []).
Proof.
  apply (mute_suspends_interval "T" "A" true 29000 demoPlaying).
  - apply demo_is_playing.
  - lia.
Defined.

Lemma progress_in_range_witness :
  ∃ q, progress demoPlaying = FlipBook.Ratio q ∧ (0 < q ∧ q <= 100)%Q.
Proof. apply (progress_in_range demoPlaying). vm_compute. split; congruence. Defined.

Lemma progress_without_pages_witness :
  progress (init {| currentPage := 1; totalPages := 0 |})
  = if decide (1 = 0) then FlipBook.NaN else FlipBook.Infinity (bool_decide (1 < 0)).
Proof.
  apply (progress_without_pages (init {| currentPage := 1; totalPages := 0 |})).
  reflexivity.
Defined.

Lemma page_label_is_one_ahead_witness :
  let s := init {| currentPage := 4; totalPages := 4 |} in
  let v := FlipBook.view (flipBookProps "b" "T" "A" "u" "a" "d" 0 "2024" s)
             FlipBook.init in
  FlipBook.pageLabel v = page s + 1
  ∧ FlipBook.pageTotal v < FlipBook.pageLabel v.
Proof.
  apply (page_label_is_one_ahead "b" "T" "A" "u" "a" "d" 0 "2024"
           (init {| currentPage := 4; totalPages := 4 |}) FlipBook.init).
  reflexivity.
Defined.

Lemma reader_sheets_count_witness :
  let v := FlipBook.view (flipBookProps "b" "T" "A" "u" "a" "d" 0 "2024" demoPlaying)
             FlipBook.init in
  length (FlipBook.sheets v) = Z.to_nat (total demoPlaying)
  ∧ FlipBook.sheets v !! 3%nat = Some (FlipBook.placeholder "T" (Z.of_nat 3)).
Proof.
  apply (reader_sheets_count "b" "T" "A" "u" "a" "d" 0 "2024" demoPlaying
           FlipBook.init 3).
  vm_compute. congruence.
Defined.

End BookReader.
