(* ===== verification/Comments.v ===== *)
(** * The comment thread

    [CommentThread] models the comment state of the book page
    ([src/app/book/[bookId]/page.tsx]): the [Comment] record of
    [src/components/CommentSection.tsx] and the four handlers
    [handleCommentSubmit], [handleCommentLike], [handleCommentDislike] and
    [handleReply].  The clock ([Date.now()]) and the formatted time
    ([new Date().toISOString()]) are arguments of the handlers that read
    them.

    [Reaction] is the three-valued reaction the specification proposes in
    place of the two flags; [abstract] maps a comment to it and the
    refinement theorems show that both toggles implement the abstract
    toggles on every comment whose flags are not both set.

    [CommentSection] models the form state of the component (the draft of
    a new comment, the comment being replied to and the draft of the
    reply), its handlers and its view. *)

From S2P Require Import Prelude JsString Numbers.

#[local] Open Scope Z_scope.

Module CommentThread.

(** ** Data *)

Inductive Comment : Type := mkComment {
  id : string;
  author : string;
  authorAvatar : string;
  content : string;
  timestamp : string;
  likes : Z;
  dislikes : Z;
  isLiked : option bool;
  isDisliked : option bool;
  replies : option (list Comment)
}.

#[global] Instance Comment_has_id : HasId Comment := id.

(** [comment.isLiked] and [comment.isDisliked] where a boolean is needed. *)
Definition liked (c : Comment) : bool := truthy (isLiked c).
Definition disliked (c : Comment) : bool := truthy (isDisliked c).

(** [comment.replies || []] *)
Definition repliesOf (c : Comment) : list Comment := default [] (replies c).

(** ** Handlers *)

(** The object literal of [handleCommentSubmit] and of [handleReply]. *)
Definition fresh (newId content iso : string) : Comment :=
  {| id := newId; author := "You"; authorAvatar := "/placeholder-avatar.jpg";
     content := content; timestamp := iso; likes := 0; dislikes := 0;
     isLiked := Some false; isDisliked := Some false; replies := None |}.

(** [setComments(prev => [newComment, ...prev])] *)
Definition handleCommentSubmit (now : Z) (iso content : string)
    (prev : list Comment) : list Comment :=
  fresh (pretty now) content iso :: prev.

(** The object spread of [handleCommentLike]. *)
Definition like (c : Comment) : Comment :=
  {| id := id c; author := author c; authorAvatar := authorAvatar c;
     content := content c; timestamp := timestamp c;
     likes := if liked c then likes c - 1 else likes c + 1;
     dislikes := if disliked c then dislikes c - 1 else dislikes c;
     isLiked := Some (negb (liked c));
     isDisliked := Some false;
     replies := replies c |}.

(** The object spread of [handleCommentDislike]. *)
Definition dislike (c : Comment) : Comment :=
  {| id := id c; author := author c; authorAvatar := authorAvatar c;
     content := content c; timestamp := timestamp c;
     likes := if liked c then likes c - 1 else likes c;
     dislikes := if disliked c then dislikes c - 1 else dislikes c + 1;
     isLiked := Some false;
     isDisliked := Some (negb (disliked c));
     replies := replies c |}.

Definition handleCommentLike (commentId : string) (prev : list Comment) : list Comment :=
  update_by_id like commentId prev.

Definition handleCommentDislike (commentId : string) (prev : list Comment) : list Comment :=
  update_by_id dislike commentId prev.

(** [{ ...comment, replies: [...(comment.replies || []), newReply] }] *)
Definition addReply (newReply : Comment) (c : Comment) : Comment :=
  {| id := id c; author := author c; authorAvatar := authorAvatar c;
     content := content c; timestamp := timestamp c;
     likes := likes c; dislikes := dislikes c;
     isLiked := isLiked c; isDisliked := isDisliked c;
     replies := Some (repliesOf c ++ [newReply]) |}.

Definition replyId (commentId : string) (now : Z) : string :=
  commentId +:+ "-" +:+ pretty now.

Definition handleReply (now : Z) (iso commentId content : string)
    (prev : list Comment) : list Comment :=
  update_by_id (addReply (fresh (replyId commentId now) content iso)) commentId prev.

(** ** The three-valued reaction *)

Module spec.

Inductive Reaction : Type := NoReaction | Liked | Disliked.

(** A comment as the specification sees it: the viewer's reaction and the
    two counts without the viewer's own contribution. *)
Record Abstract : Type := {
  reaction : Reaction;
  othersLikes : Z;
  othersDislikes : Z
}.

Definition toggleLike (a : Abstract) : Abstract :=
  {| reaction := match reaction a with Liked => NoReaction | _ => Liked end;
     othersLikes := othersLikes a; othersDislikes := othersDislikes a |}.

Definition toggleDislike (a : Abstract) : Abstract :=
  {| reaction := match reaction a with Disliked => NoReaction | _ => Disliked end;
     othersLikes := othersLikes a; othersDislikes := othersDislikes a |}.

(** The counts a comment displays. *)
Definition shownLikes (a : Abstract) : Z :=
  othersLikes a + match reaction a with Liked => 1 | _ => 0 end.
Definition shownDislikes (a : Abstract) : Z :=
  othersDislikes a + match reaction a with Disliked => 1 | _ => 0 end.

End spec.

(** The flags are not both set. *)
Definition exclusive (c : Comment) : Prop := liked c && disliked c = false.

#[export] Instance exclusive_dec c : Decision (exclusive c).
Proof. unfold exclusive. apply _. Defined.

(** The abstraction function. *)
Definition abstract (c : Comment) : spec.Abstract :=
  {| spec.reaction :=
       if liked c then spec.Liked
       else if disliked c then spec.Disliked else spec.NoReaction;
     spec.othersLikes := likes c - (if liked c then 1 else 0);
     spec.othersDislikes := dislikes c - (if disliked c then 1 else 0) |}.

(** Every counter agrees with its flag: a set flag is counted, and no
    counter is negative. *)
Definition counted (c : Comment) : Prop :=
  (if liked c then 1 else 0) ≤ likes c ∧ (if disliked c then 1 else 0) ≤ dislikes c.

#[export] Instance counted_dec c : Decision (counted c).
Proof. unfold counted. apply _. Defined.

(** The replies of a comment have exclusive flags and counted counters. *)
Definition repliesSound (c : Comment) : Prop :=
  Forall (λ r, exclusive r ∧ counted r) (repliesOf c).

#[export] Instance repliesSound_dec c : Decision (repliesSound c).
Proof. unfold repliesSound. apply _. Defined.

(** ** The object spreads *)

Lemma like_keeps_id : keeps_id like.
Proof. done. Qed.

Lemma dislike_keeps_id : keeps_id dislike.
Proof. done. Qed.

Lemma addReply_keeps_id r : keeps_id (addReply r).
Proof. done. Qed.

#[export] Hint Resolve like_keeps_id dislike_keeps_id addReply_keeps_id : bv.

Lemma repliesOf_addReply r c : repliesOf (addReply r c) = repliesOf c ++ [r].
Proof. done. Qed.

(** Case analysis on the two flags of a comment. *)
Ltac case_flags c :=
  unfold exclusive, counted, abstract, spec.toggleLike, spec.toggleDislike,
    spec.shownLikes, spec.shownDislikes, like, dislike, liked, disliked in *;
  unfold truthy, option_truthy, bool_truthy in *; simpl in *;
  destruct (isLiked c) as [[]|], (isDisliked c) as [[]|];
  simpl in *; unfold truthy, option_truthy, bool_truthy in *; simpl in *;
  intros; try done; try (f_equal; lia); try lia;
  try (split_and!; (done || lia || (f_equal; lia))).

Lemma exclusive_like c : exclusive (like c).
Proof. unfold exclusive, liked, disliked. simpl. apply andb_false_r. Qed.

Lemma exclusive_dislike c : exclusive (dislike c).
Proof. done. Qed.

Lemma exclusive_fresh i t iso : exclusive (fresh i t iso).
Proof. done. Qed.

Lemma exclusive_addReply r c : exclusive c → exclusive (addReply r c).
Proof. done. Qed.

Lemma counted_like c : counted c → counted (like c).
Proof. case_flags c. Qed.

Lemma counted_dislike c : counted c → counted (dislike c).
Proof. case_flags c. Qed.

Lemma counted_fresh i t iso : counted (fresh i t iso).
Proof. done. Qed.

Lemma counted_addReply r c : counted c → counted (addReply r c).
Proof. done. Qed.

Lemma repliesSound_like c : repliesSound c → repliesSound (like c).
Proof. done. Qed.

Lemma repliesSound_dislike c : repliesSound c → repliesSound (dislike c).
Proof. done. Qed.

Lemma repliesSound_fresh i t iso : repliesSound (fresh i t iso).
Proof. constructor. Qed.

Lemma repliesSound_addReply i t iso c :
  repliesSound c → repliesSound (addReply (fresh i t iso) c).
Proof.
  unfold repliesSound. rewrite repliesOf_addReply, Forall_app, Forall_singleton.
  by auto using exclusive_fresh, counted_fresh.
Qed.

Lemma abstract_like c :
  exclusive c → abstract (like c) = spec.toggleLike (abstract c).
Proof. case_flags c. Qed.

Lemma abstract_dislike c :
  exclusive c → abstract (dislike c) = spec.toggleDislike (abstract c).
Proof. case_flags c. Qed.

Lemma shown_abstract c :
  exclusive c →
  spec.shownLikes (abstract c) = likes c
  ∧ spec.shownDislikes (abstract c) = dislikes c.
Proof. case_flags c. Qed.

(** ** Invariants of the thread *)

(** A property of comments that the spreads keep holds for the whole list
    after any handler. *)
Lemma Forall_update (P : Comment → Prop) f i (l : list Comment) :
  (∀ c, P c → P (f c)) → Forall P l → Forall P (update_by_id f i l).
Proof.
  intros Hf Hl. unfold update_by_id. apply Forall_fmap.
  eapply Forall_impl; [done|]. intros c Hc. simpl. unfold on_id.
  case_decide; auto.
Qed.

Lemma update_hit f i (l : list Comment) k c :
  l !! k = Some c → id c = i → update_by_id f i l !! k = Some (f c).
Proof.
  intros Hk Hi. rewrite update_by_id_lookup, Hk. simpl. by rewrite on_id_eq.
Qed.

Lemma update_miss f i (l : list Comment) k c :
  l !! k = Some c → id c ≠ i → update_by_id f i l !! k = Some c.
Proof.
  intros Hk Hi. rewrite update_by_id_lookup, Hk. simpl. by rewrite on_id_ne.
Qed.

(** ** Operations as data *)

(** The four callbacks the page hands to the comment section. *)
Inductive Op : Type :=
  | Submit (now : Z) (iso content : string)
  | Like (commentId : string)
  | Dislike (commentId : string)
  | Reply (now : Z) (iso commentId content : string).

Definition apply (o : Op) (prev : list Comment) : list Comment :=
  match o with
  | Submit now iso content => handleCommentSubmit now iso content prev
  | Like commentId => handleCommentLike commentId prev
  | Dislike commentId => handleCommentDislike commentId prev
  | Reply now iso commentId content => handleReply now iso commentId content prev
  end.

(** A sequence of callbacks, oldest first. *)
Definition applyAll (os : list Op) (prev : list Comment) : list Comment :=
  foldl (λ l o, apply o l) prev os.

Lemma Forall_apply (P : Comment → Prop) o l :
  (∀ c, P c → P (like c)) → (∀ c, P c → P (dislike c)) →
  (∀ i t iso c, P c → P (addReply (fresh i t iso) c)) →
  (∀ i t iso, P (fresh i t iso)) →
  Forall P l → Forall P (apply o l).
Proof.
  intros Hl Hd Hr Hf Hall. destruct o; simpl.
  - by constructor.
  - by apply Forall_update.
  - by apply Forall_update.
  - apply Forall_update; auto.
Qed.

Lemma Forall_applyAll (P : Comment → Prop) os l :
  (∀ c, P c → P (like c)) → (∀ c, P c → P (dislike c)) →
  (∀ i t iso c, P c → P (addReply (fresh i t iso) c)) →
  (∀ i t iso, P (fresh i t iso)) →
  Forall P l → Forall P (applyAll os l).
Proof.
  intros Hl Hd Hr Hf. revert l. unfold applyAll.
  induction os as [|o os IH]; intros l Hall; simpl; [done|].
  by apply IH, Forall_apply.
Qed.

(** ** Theorems of the thread *)

(** A submitted comment is placed at position zero of the
    sequence, with the text as given, no likes, no dislikes and no
    reaction; every earlier comment moves down by one and is unchanged. *)
Theorem comment_submit_prepends now iso text prev :
  let next := handleCommentSubmit now iso text prev in
  next !! 0%nat = Some (fresh (pretty now) text iso)
  ∧ (∀ k, next !! S k = prev !! k)
  ∧ length next = S (length prev).
Proof. done. Qed.

(** C27: a reply is appended at the end of the reply sequence
    of the comment with the given identifier; the parent keeps its
    identifier, author, avatar, text, time stamp, both counters and both
    flags, and every comment with another identifier is unchanged. *)
Theorem reply_appends_to_parent now iso cid text prev k c :
  prev !! k = Some c → id c = cid →
  let next := handleReply now iso cid text prev in
  let r := fresh (replyId cid now) text iso in
  let p := addReply r c in
  next !! k = Some p
  ∧ repliesOf p = repliesOf c ++ [r]
  ∧ last (repliesOf p) = Some r
  ∧ length next = length prev
  ∧ (∀ j d, prev !! j = Some d → id d ≠ cid → next !! j = Some d)
  ∧ id p = id c ∧ author p = author c ∧ authorAvatar p = authorAvatar c
  ∧ content p = content c ∧ timestamp p = timestamp c
  ∧ likes p = likes c ∧ dislikes p = dislikes c
  ∧ isLiked p = isLiked c ∧ isDisliked p = isDisliked c
  ∧ replies p = Some (repliesOf c ++ [r]).
Proof.
  intros Hk Hc. simpl. unfold handleReply. split_and!; try done.
  - by apply update_hit.
  - rewrite repliesOf_addReply. apply last_snoc.
  - by rewrite length_update_by_id.
  - intros j d Hj Hd. by apply update_miss.
Qed.

(** C2: on a comment whose flags are not both set, the two
    toggles implement the toggles of the three-valued reaction, the counts
    of the other readers are untouched, and the counts displayed are those
    plus the reader's own reaction. *)
Theorem toggles_refine_reaction c :
  exclusive c →
  abstract (like c) = spec.toggleLike (abstract c)
  ∧ abstract (dislike c) = spec.toggleDislike (abstract c)
  ∧ likes c = spec.shownLikes (abstract c)
  ∧ dislikes c = spec.shownDislikes (abstract c).
Proof.
  intros Hc. destruct (shown_abstract c Hc).
  auto using abstract_like, abstract_dislike.
Qed.

(** C9: whatever sequence of submissions, replies and toggles
    is applied, a thread whose comments have exclusive flags and counters
    that count the set flags keeps both properties: no comment is ever
    liked and disliked at once and no counter drops below zero.  The
    same holds one level down: when the replies the thread starts with
    have the two properties, so have all replies afterwards. *)
Theorem thread_flags_exclusive os prev :
  Forall exclusive prev → Forall counted prev →
  Forall exclusive (applyAll os prev)
  ∧ Forall (λ c, counted c ∧ 0 ≤ likes c ∧ 0 ≤ dislikes c) (applyAll os prev)
  ∧ (Forall repliesSound prev → Forall repliesSound (applyAll os prev)).
Proof.
  intros He Hc. split_and!.
  - apply Forall_applyAll;
      auto using exclusive_like, exclusive_dislike, exclusive_addReply,
        exclusive_fresh.
  - eapply Forall_impl.
    + apply (Forall_applyAll counted);
        eauto using counted_like, counted_dislike, counted_addReply,
          counted_fresh.
    + intros c [H1 H2]. unfold counted. repeat split; try done;
        destruct (liked c), (disliked c); lia.
  - apply Forall_applyAll;
      auto using repliesSound_like, repliesSound_dislike, repliesSound_addReply,
        repliesSound_fresh.
Qed.

(** Liking and then disliking a comment that had no
    reaction leaves it disliked and not liked; against the state after the
    like, the likes went down by one and the dislikes up by one, and the
    likes are back at their value before both toggles. *)
Theorem like_then_dislike_swaps c :
  liked c = false → disliked c = false →
  let c1 := like c in
  let c2 := dislike c1 in
  liked c2 = false ∧ disliked c2 = true
  ∧ likes c2 = likes c1 - 1 ∧ dislikes c2 = dislikes c1 + 1
  ∧ likes c2 = likes c ∧ dislikes c2 = dislikes c + 1.
Proof. intros Hl Hd. case_flags c. Qed.

(** C32: toggling the same reaction twice restores the reaction
    and both counters, whatever the reaction before was not the opposite
    one. *)
Theorem toggle_twice_restores c :
  exclusive c →
  (disliked c = false →
     abstract (like (like c)) = abstract c ∧ likes (like (like c)) = likes c)
  ∧ (liked c = false →
     abstract (dislike (dislike c)) = abstract c
     ∧ dislikes (dislike (dislike c)) = dislikes c).
Proof. intros He. split; intros Hf; case_flags c. Qed.

(** A toggle changes the comments with the given
    identifier and nothing else: the sequence keeps its length, its
    identifiers and their order, and every comment with another identifier
    is unchanged. *)
Theorem toggle_touches_target_only cid prev :
  let next := handleCommentLike cid prev in
  length next = length prev ∧ ids next = ids prev
  ∧ ∀ k c, prev !! k = Some c →
      next !! k = Some (if decide (id c = cid) then like c else c).
Proof.
  simpl. unfold handleCommentLike. split_and!.
  - by rewrite length_update_by_id.
  - by rewrite ids_update_by_id by apply like_keeps_id.
  - intros k c Hk. by rewrite update_by_id_lookup, Hk.
Qed.

(** The toggles look for the identifier among the
    top-level comments only.  The like and dislike buttons of a reply pass
    the identifier of the reply, which no top-level comment has, so they
    change nothing. *)
Theorem reaction_on_reply_ignored now iso cid text prev :
  replyId cid now ∉ ids prev →
  let next := handleReply now iso cid text prev in
  handleCommentLike (replyId cid now) next = next
  ∧ handleCommentDislike (replyId cid now) next = next.
Proof.
  intros Hid. simpl.
  assert (replyId cid now ∉ ids (handleReply now iso cid text prev)) as Hn.
  { unfold handleReply. by rewrite ids_update_by_id by apply addReply_keeps_id. }
  unfold handleCommentLike, handleCommentDislike.
  by rewrite !update_by_id_absent.
Qed.

(** C36: identifiers are the clock reading in
    milliseconds.  Two comments submitted at the same reading share their
    identifier, and a like meant for one of them toggles both. *)
Theorem same_instant_comments_collide now iso1 iso2 t1 t2 prev :
  let next := handleCommentLike (pretty now)
                (handleCommentSubmit now iso2 t2
                   (handleCommentSubmit now iso1 t1 prev)) in
  (liked <$> next !! 0%nat) = Some true ∧ (liked <$> next !! 1%nat) = Some true.
Proof.
  cbv zeta. unfold handleCommentLike, handleCommentSubmit.
  rewrite !update_by_id_cons. simpl. by rewrite !on_id_eq.
Qed.

(** ** Witnesses *)

Definition demoReply : Comment :=
  {| id := "1-50"; author := "Ann"; authorAvatar := "/a.jpg"; content := "Indeed";
     timestamp := "2024-01-02"; likes := 0; dislikes := 0;
     isLiked := None; isDisliked := None; replies := None |}.

Definition demoFirst : Comment :=
  {| id := "1"; author := "Bob"; authorAvatar := "/b.jpg"; content := "Great book";
     timestamp := "2024-01-01"; likes := 3; dislikes := 1;
     isLiked := None; isDisliked := None; replies := Some [demoReply] |}.

Definition demoSecond : Comment :=
  {| id := "2"; author := "Cy"; authorAvatar := "/c.jpg"; content := "Too long";
     timestamp := "2024-01-03"; likes := 1; dislikes := 4;
     isLiked := Some false; isDisliked := Some true; replies := None |}.

Definition demoThread : list Comment := [demoFirst; demoSecond].

Lemma reply_appends_to_parent_witness :
  let next := handleReply 70 "t" "1" "Thanks" demoThread in
  let r := fresh (replyId "1" 70) "Thanks" "t" in
  let p := addReply r demoFirst in
  next !! 0%nat = Some p
  ∧ repliesOf p = repliesOf demoFirst ++ [r]
  ∧ last (repliesOf p) = Some r
  ∧ length next = length demoThread
  ∧ (∀ j d, demoThread !! j = Some d → id d ≠ "1" → next !! j = Some d)
  ∧ id p = "1" ∧ author p = author demoFirst
  ∧ authorAvatar p = authorAvatar demoFirst
  ∧ content p = content demoFirst ∧ timestamp p = timestamp demoFirst
  ∧ likes p = likes demoFirst ∧ dislikes p = dislikes demoFirst
  ∧ isLiked p = isLiked demoFirst ∧ isDisliked p = isDisliked demoFirst
  ∧ replies p = Some (repliesOf demoFirst ++ [r]).
Proof. apply (reply_appends_to_parent 70 "t" "1" "Thanks" demoThread 0 demoFirst); reflexivity. Defined.

Lemma toggles_refine_reaction_witness :
  abstract (like demoSecond) = spec.toggleLike (abstract demoSecond)
  ∧ abstract (dislike demoSecond) = spec.toggleDislike (abstract demoSecond)
  ∧ likes demoSecond = spec.shownLikes (abstract demoSecond)
  ∧ dislikes demoSecond = spec.shownDislikes (abstract demoSecond).
Proof. apply (toggles_refine_reaction demoSecond). reflexivity. Defined.

Lemma thread_flags_exclusive_witness :
  let os := [Like "1"; Dislike "1"; Reply 70 "t" "2" "Why?"; Submit 80 "t" "Hm"; Like "2"] in
  Forall exclusive (applyAll os demoThread)
  ∧ Forall (λ c, counted c ∧ 0 ≤ likes c ∧ 0 ≤ dislikes c) (applyAll os demoThread)
  ∧ (Forall repliesSound demoThread → Forall repliesSound (applyAll os demoThread)).
Proof.
  apply (thread_flags_exclusive _ demoThread).
  - repeat constructor.
  - repeat constructor; vm_compute; congruence.
Defined.

Lemma like_then_dislike_swaps_witness :
  let c1 := like demoFirst in
  let c2 := dislike c1 in
  liked c2 = false ∧ disliked c2 = true
  ∧ likes c2 = likes c1 - 1 ∧ dislikes c2 = dislikes c1 + 1
  ∧ likes c2 = likes demoFirst ∧ dislikes c2 = dislikes demoFirst + 1.
Proof. apply (like_then_dislike_swaps demoFirst); reflexivity. Defined.

Lemma toggle_twice_restores_witness :
  (disliked demoFirst = false →
     abstract (like (like demoFirst)) = abstract demoFirst
     ∧ likes (like (like demoFirst)) = likes demoFirst)
  ∧ (liked demoFirst = false →
     abstract (dislike (dislike demoFirst)) = abstract demoFirst
     ∧ dislikes (dislike (dislike demoFirst)) = dislikes demoFirst).
Proof. apply (toggle_twice_restores demoFirst). reflexivity. Defined.

Lemma reaction_on_reply_ignored_witness :
  let next := handleReply 70 "t" "1" "Thanks" demoThread in
  handleCommentLike (replyId "1" 70) next = next
  ∧ handleCommentDislike (replyId "1" 70) next = next.
Proof.
  apply (reaction_on_reply_ignored 70 "t" "1" "Thanks" demoThread).
  by_compute.
Defined.

End CommentThread.

Module CommentSection.

(** ** Form state *)

Record Form : Type := {
  newComment : string;
  replyingTo : option string;
  replyContent : string
}.

(** [useState('')], [useState(null)], [useState('')] *)
Definition init : Form :=
  {| newComment := ""; replyingTo := None; replyContent := "" |}.

Definition setNewComment (v : string) (f : Form) : Form :=
  {| newComment := v; replyingTo := replyingTo f; replyContent := replyContent f |}.

Definition setReplyingTo (v : option string) (f : Form) : Form :=
  {| newComment := newComment f; replyingTo := v; replyContent := replyContent f |}.

Definition setReplyContent (v : string) (f : Form) : Form :=
  {| newComment := newComment f; replyingTo := replyingTo f; replyContent := v |}.

(** A call of one of the four callback properties. *)
Inductive Call : Type :=
  | onCommentSubmit (content : string)
  | onCommentLike (commentId : string)
  | onCommentDislike (commentId : string)
  | onReply (commentId content : string).

Definition handleSubmitComment (f : Form) : Form * list Call :=
  if JsString.nonBlank (newComment f)
  then (setNewComment "" f, [onCommentSubmit (newComment f)])
  else (f, []).

Definition handleSubmitReply (commentId : string) (f : Form) : Form * list Call :=
  if JsString.nonBlank (replyContent f)
  then (setReplyingTo None (setReplyContent "" f),
        [onReply commentId (replyContent f)])
  else (f, []).

(** The [Cancel] button of the reply form. *)
Definition cancelReply (f : Form) : Form :=
  setReplyContent "" (setReplyingTo None f).

(** The [Cancel] button of the comment form. *)
Definition cancelComment (f : Form) : Form := setNewComment "" f.

(** ** Time labels *)

Section clock.
(** [new Date(s).getTime()] and [new Date(s).toLocaleDateString()] are the
    platform's. *)
Context (getTime : string → Z) (toLocaleDateString : string → string).

Definition formatTimestamp (now : Z) (timestamp : string) : string :=
  let diffTime := Z.abs (now - getTime timestamp) in
  let diffHours := JsNumber.ceilQuot diffTime (1000 * 60 * 60) in
  if diffHours <? 24 then pretty diffHours +:+ "h ago"
  else
    let diffDays := JsNumber.ceilQuot diffTime (1000 * 60 * 60 * 24) in
    if diffDays <? 7 then pretty diffDays +:+ "d ago"
    else toLocaleDateString timestamp.

(** ** View *)

Record Card : Type := {
  cardId : string;
  isReply : bool;
  avatarFallback : string;
  authorName : string;
  timeLabel : string;
  text : string;
  likeHighlighted : bool;
  likesShown : Z;
  dislikeHighlighted : bool;
  dislikesShown : option Z;
  replyButton : bool;
  replyForm : option (string * bool)
}.

Record View : Type := {
  countLabel : string;
  draft : string;
  commentDisabled : bool;
  cards : list Card
}.

(** [CommentCard] *)
Definition card (now : Z) (f : Form) (reply : bool) (c : CommentThread.Comment) : Card :=
  {| cardId := CommentThread.id c;
     isReply := reply;
     avatarFallback := charAt 0 (CommentThread.author c);
     authorName := CommentThread.author c;
     timeLabel := formatTimestamp now (CommentThread.timestamp c);
     text := CommentThread.content c;
     likeHighlighted := CommentThread.liked c;
     likesShown := CommentThread.likes c;
     dislikeHighlighted := CommentThread.disliked c;
     dislikesShown :=
       if 0 <? CommentThread.dislikes c then Some (CommentThread.dislikes c) else None;
     replyButton := negb reply;
     replyForm :=
       if decide (replyingTo f = Some (CommentThread.id c))
       then Some (replyContent f, negb (JsString.nonBlank (replyContent f)))
       else None |}.

(** A comment's card followed by the cards of its replies. *)
Definition thread (now : Z) (f : Form) (c : CommentThread.Comment) : list Card :=
  card now f false c :: (card now f true <$> CommentThread.repliesOf c).

(** [n comment(s)] *)
Definition countText (n : nat) : string :=
  pretty n +:+ " comment" +:+ (if decide (n = 1%nat) then "" else "s").

Definition view (now : Z) (f : Form) (comments : list CommentThread.Comment) : View :=
  {| countLabel := countText (length comments);
     draft := newComment f;
     commentDisabled := negb (JsString.nonBlank (newComment f));
     cards := comments ≫= thread now f |}.

End clock.

(** ** The section wired to the page *)

Record State : Type := {
  form : Form;
  comments : list CommentThread.Comment
}.

Inductive Event : Type :=
  | TypeComment (v : string)
  | ClickComment (now : Z) (iso : string)
  | ClickCancelComment
  | ClickLike (commentId : string)
  | ClickDislike (commentId : string)
  | ClickReplyTo (commentId : string)
  | TypeReply (v : string)
  | ClickSubmitReply (now : Z) (iso : string) (commentId : string)
  | ClickCancelReply.

(** The page's handler behind each callback; the clock is read there. *)
Definition perform (now : Z) (iso : string) (c : Call)
    (l : list CommentThread.Comment) : list CommentThread.Comment :=
  match c with
  | onCommentSubmit content => CommentThread.handleCommentSubmit now iso content l
  | onCommentLike i => CommentThread.handleCommentLike i l
  | onCommentDislike i => CommentThread.handleCommentDislike i l
  | onReply i content => CommentThread.handleReply now iso i content l
  end.

Definition performAll (now : Z) (iso : string) (cs : list Call)
    (l : list CommentThread.Comment) : list CommentThread.Comment :=
  foldl (λ l c, perform now iso c l) l cs.

(** The identifiers that have a card: the comments and their replies. *)
Definition cardIds (l : list CommentThread.Comment) : list string :=
  l ≫= λ c, CommentThread.id c :: (CommentThread.id <$> CommentThread.repliesOf c).

(** Whether the element the event needs is on the screen and enabled. *)
Definition enabled (e : Event) (s : State) : bool :=
  match e with
  | ClickComment _ _ => JsString.nonBlank (newComment (form s))
  | ClickLike i | ClickDislike i => bool_decide (i ∈ cardIds (comments s))
  | ClickReplyTo i => bool_decide (i ∈ ids (comments s))
  | TypeReply _ | ClickCancelReply =>
      match replyingTo (form s) with
      | Some i => bool_decide (i ∈ cardIds (comments s))
      | None => false
      end
  | ClickSubmitReply _ _ i =>
      bool_decide (replyingTo (form s) = Some i)
      && bool_decide (i ∈ cardIds (comments s))
      && JsString.nonBlank (replyContent (form s))
  | TypeComment _ | ClickCancelComment => true
  end.

Definition handle (e : Event) (s : State) : State :=
  match e with
  | TypeComment v => {| form := setNewComment v (form s); comments := comments s |}
  | ClickComment now iso =>
      let '(f, cs) := handleSubmitComment (form s) in
      {| form := f; comments := performAll now iso cs (comments s) |}
  | ClickCancelComment => {| form := cancelComment (form s); comments := comments s |}
  | ClickLike i =>
      {| form := form s; comments := CommentThread.handleCommentLike i (comments s) |}
  | ClickDislike i =>
      {| form := form s; comments := CommentThread.handleCommentDislike i (comments s) |}
  | ClickReplyTo i =>
      {| form := setReplyingTo (Some i) (form s); comments := comments s |}
  | TypeReply v => {| form := setReplyContent v (form s); comments := comments s |}
  | ClickSubmitReply now iso i =>
      let '(f, cs) := handleSubmitReply i (form s) in
      {| form := f; comments := performAll now iso cs (comments s) |}
  | ClickCancelReply => {| form := cancelReply (form s); comments := comments s |}
  end.

Definition fire (e : Event) (s : State) : option State :=
  if enabled e s then Some (handle e s) else None.

Definition run (es : list Event) (s : State) : option State :=
  foldl (λ o e, o ≫= fire e) (Some s) es.

(** ** Properties of the form *)

Lemma handleSubmitComment_blank f :
  JsString.blank (newComment f) = true → handleSubmitComment f = (f, []).
Proof.
  intros Hb. unfold handleSubmitComment.
  destruct (JsString.nonBlank (newComment f)) eqn:Hn; [|done].
  apply JsString.nonBlank_spec in Hn. congruence.
Qed.

Lemma handleSubmitReply_blank i f :
  JsString.blank (replyContent f) = true → handleSubmitReply i f = (f, []).
Proof.
  intros Hb. unfold handleSubmitReply.
  destruct (JsString.nonBlank (replyContent f)) eqn:Hn; [|done].
  apply JsString.nonBlank_spec in Hn. congruence.
Qed.

(** A reaction changes no card identifier. *)
Lemma cardIds_reaction f i l :
  (∀ c, CommentThread.id (f c) = CommentThread.id c
        ∧ CommentThread.repliesOf (f c) = CommentThread.repliesOf c) →
  cardIds (update_by_id f i l) = cardIds l.
Proof.
  intros Hf. unfold cardIds, update_by_id.
  induction l as [|c l IH]; [done|]. rewrite fmap_cons, !bind_cons, IH. f_equal.
  unfold on_id. case_decide; [|done]. by destruct (Hf c) as [-> ->].
Qed.

Lemma cardIds_like i l : cardIds (CommentThread.handleCommentLike i l) = cardIds l.
Proof. by apply cardIds_reaction. Qed.

(** Both invariants of a comment at once. *)
Definition sound (c : CommentThread.Comment) : Prop :=
  CommentThread.exclusive c ∧ CommentThread.counted c.

#[export] Instance sound_dec c : Decision (sound c).
Proof. unfold sound. apply _. Defined.

Lemma sound_perform now iso c l : Forall sound l → Forall sound (perform now iso c l).
Proof.
  intros Hl. destruct c; simpl; [constructor; [by split|done]|..];
    apply CommentThread.Forall_update; try done; intros c [He Hc]; split;
    auto using CommentThread.exclusive_like, CommentThread.exclusive_dislike,
      CommentThread.exclusive_addReply, CommentThread.counted_like,
      CommentThread.counted_dislike, CommentThread.counted_addReply.
Qed.

Lemma sound_performAll now iso cs l :
  Forall sound l → Forall sound (performAll now iso cs l).
Proof.
  revert l. unfold performAll.
  induction cs as [|c cs IH]; intros l Hl; simpl; auto using sound_perform.
Qed.

Lemma sound_handle e s : Forall sound (comments s) → Forall sound (comments (handle e s)).
Proof.
  intros Hl. destruct e; simpl; try done; try case_match; simpl;
    try apply sound_performAll; try done.
  - apply (sound_perform 0 "" (onCommentLike commentId) _ Hl).
  - apply (sound_perform 0 "" (onCommentDislike commentId) _ Hl).
Qed.

(** ** Theorems of the comment section *)

(** C23: a draft that is empty or all white space is never
    posted: the button is disabled, and the handler itself leaves the form
    and the thread alone. *)
Theorem blank_draft_never_posts now iso s :
  JsString.blank (newComment (form s)) = true →
  fire (ClickComment now iso) s = None
  ∧ handle (ClickComment now iso) s = s.
Proof.
  intros Hb. unfold fire, enabled, handle.
  rewrite handleSubmitComment_blank by done.
  destruct (JsString.nonBlank (newComment (form s))) eqn:Hn.
  { apply JsString.nonBlank_spec in Hn. congruence. }
  by destruct s.
Qed.

(** Posting a draft puts the new comment, with the
    draft as typed, in front of the thread, clears the draft, and the
    first card on the screen is the card of the new comment. *)
Theorem posted_comment_is_first_card getTime toLocale now iso s s' :
  fire (ClickComment now iso) s = Some s' →
  let c := CommentThread.fresh (pretty now) (newComment (form s)) iso in
  comments s' = c :: comments s
  ∧ newComment (form s') = ""
  ∧ cards (view getTime toLocale now (form s') (comments s')) !! 0%nat
    = Some (card getTime toLocale now (form s') false c).
Proof.
  unfold fire, enabled, handle, handleSubmitComment.
  destruct (JsString.nonBlank (newComment (form s))) eqn:Hn; [|done].
  by intros [= <-].
Qed.

(** Posting a reply appends it to the replies of the
    comment it answers, closes the reply form and clears its draft; the
    last card of that comment's thread is the card of the new reply. *)
Theorem posted_reply_is_last_card getTime toLocale now iso i s s' k c :
  fire (ClickSubmitReply now iso i) s = Some s' →
  comments s !! k = Some c → CommentThread.id c = i →
  let r := CommentThread.fresh (CommentThread.replyId i now) (replyContent (form s)) iso in
  comments s' !! k = Some (CommentThread.addReply r c)
  ∧ replyingTo (form s') = None ∧ replyContent (form s') = ""
  ∧ last (thread getTime toLocale now (form s') (CommentThread.addReply r c))
    = Some (card getTime toLocale now (form s') true r).
Proof.
  unfold fire, enabled, handle, handleSubmitReply.
  destruct (JsString.nonBlank (replyContent (form s))) eqn:Hn;
    [|by rewrite andb_false_r].
  case_match; [|done]. intros [= <-] Hk Hi. simpl. split_and!; try done.
  - unfold CommentThread.handleReply. by apply CommentThread.update_hit.
  - unfold thread. rewrite CommentThread.repliesOf_addReply, fmap_app. simpl.
    by rewrite last_cons, last_snoc.
Qed.

(** The heading counts the top-level comments: a
    reply, a like or a dislike leaves it as it was and a posted comment
    raises the count by one. *)
Theorem count_label_ignores_replies getTime toLocale now f o l :
  countLabel (view getTime toLocale now f (CommentThread.apply o l)) =
    match o with
    | CommentThread.Submit _ _ _ => countText (S (length l))
    | _ => countLabel (view getTime toLocale now f l)
    end.
Proof.
  destruct o; simpl; unfold CommentThread.handleCommentLike,
    CommentThread.handleCommentDislike, CommentThread.handleReply;
    by rewrite ?length_update_by_id.
Qed.

(** Choosing another comment to reply to keeps the
    draft that was typed: the text written for one comment is posted under
    the comment chosen last. *)
Theorem reply_draft_follows_target now iso i j v s s' :
  run [ClickReplyTo i; TypeReply v; ClickReplyTo j; ClickSubmitReply now iso j] s
    = Some s' →
  comments s' = CommentThread.handleReply now iso j v (comments s)
  ∧ i ∈ ids (comments s).
Proof.
  unfold run, fire. simpl.
  destruct (bool_decide (i ∈ ids (comments s))) eqn:Hi; [|done]. simpl.
  case_match; [|done]. simpl.
  destruct (bool_decide (j ∈ ids (comments s))) eqn:Hj; [|done]. simpl.
  unfold handleSubmitReply. simpl.
  destruct (JsString.nonBlank v) eqn:Hv; [|by rewrite !andb_false_r].
  case_match; [|done]. simpl. intros [= <-]. simpl.
  split; [done|]. by apply bool_decide_eq_true in Hi.
Qed.

(** C35: the like button of a reply card is on the screen
    and enabled, and pressing it changes nothing, because the handler looks
    for the identifier among the top-level comments only. *)
Theorem reply_card_reactions_inert i s :
  i ∈ cardIds (comments s) → i ∉ ids (comments s) →
  fire (ClickLike i) s = Some s ∧ fire (ClickDislike i) s = Some s.
Proof.
  intros Hc Ht. unfold fire, enabled, handle.
  rewrite bool_decide_eq_true_2 by done.
  unfold CommentThread.handleCommentLike, CommentThread.handleCommentDislike.
  rewrite !update_by_id_absent by done. by destruct s.
Qed.

(** The time label counts started hours up to twenty-three,
    started days from there up to six, and is the locale date beyond. *)
Theorem time_label_buckets getTime toLocale now ts :
  let d := Z.abs (now - getTime ts) in
  let label := formatTimestamp getTime toLocale now ts in
  let hours := JsNumber.ceilDiv d 3600000 in
  let days := JsNumber.ceilDiv d 86400000 in
  d < 2 ^ 52 →
  (d ≤ 23 * 3600000 → label = pretty hours +:+ "h ago" ∧ 0 ≤ hours ≤ 23)
  ∧ (23 * 3600000 < d ≤ 6 * 86400000 →
     label = pretty days +:+ "d ago" ∧ 1 ≤ days ≤ 6)
  ∧ (6 * 86400000 < d → label = toLocale ts).
Proof.
  simpl. unfold formatTimestamp.
  change (1000 * 60 * 60 * 24) with 86400000. change (1000 * 60 * 60) with 3600000.
  set (d := Z.abs (now - getTime ts)). intros Hd.
  assert (0 ≤ d) by (unfold d; lia).
  rewrite !JsNumber.ceil_divide by lia.
  pose proof (JsNumber.ceilDiv_spec d 3600000 ltac:(lia)).
  pose proof (JsNumber.ceilDiv_spec d 86400000 ltac:(lia)).
  split_and!; intros Hb; repeat case_match; rewrite ?Z.ltb_lt, ?Z.ltb_ge in *;
    (split; [done|lia]) || done || lia.
Qed.

(** ** Witnesses *)

Definition demoState : State :=
  {| form := {| newComment := " Nice "; replyingTo := Some "1"; replyContent := "Yes" |};
     comments := CommentThread.demoThread |}.

Definition demoBlank : State :=
  {| form := {| newComment := "  "; replyingTo := None; replyContent := "" |};
     comments := CommentThread.demoThread |}.

Lemma blank_draft_never_posts_witness :
  fire (ClickComment 90 "t") demoBlank = None
  ∧ handle (ClickComment 90 "t") demoBlank = demoBlank.
Proof. apply (blank_draft_never_posts 90 "t" demoBlank). reflexivity. Defined.

Lemma posted_comment_is_first_card_witness :
  let s' := handle (ClickComment 90 "t") demoState in
  let c := CommentThread.fresh (pretty 90) " Nice " "t" in
  comments s' = c :: comments demoState
  ∧ newComment (form s') = ""
  ∧ cards (view (λ _, 0) id 90 (form s') (comments s')) !! 0%nat
    = Some (card (λ _, 0) id 90 (form s') false c).
Proof.
  apply (posted_comment_is_first_card (λ _, 0) id 90 "t" demoState). reflexivity.
Defined.

Lemma posted_reply_is_last_card_witness :
  let s' := handle (ClickSubmitReply 90 "t" "1") demoState in
  let r := CommentThread.fresh (CommentThread.replyId "1" 90) "Yes" "t" in
  comments s' !! 0%nat = Some (CommentThread.addReply r CommentThread.demoFirst)
  ∧ replyingTo (form s') = None ∧ replyContent (form s') = ""
  ∧ last (thread (λ _, 0) id 90 (form s')
            (CommentThread.addReply r CommentThread.demoFirst))
    = Some (card (λ _, 0) id 90 (form s') true r).
Proof.
  apply (posted_reply_is_last_card (λ _, 0) id 90 "t" "1" demoState _ 0
           CommentThread.demoFirst); reflexivity.
Defined.

Lemma reply_draft_follows_target_witness :
  comments (handle (ClickSubmitReply 90 "t" "2")
              {| form := {| newComment := "  "; replyingTo := Some "2";
                            replyContent := "for Bob" |};
                 comments := CommentThread.demoThread |})
  = CommentThread.handleReply 90 "t" "2" "for Bob" (comments demoBlank)
  ∧ "1" ∈ ids (comments demoBlank).
Proof.
  apply (reply_draft_follows_target 90 "t" "1" "2" "for Bob" demoBlank). reflexivity.
Defined.

Lemma reply_card_reactions_inert_witness :
  fire (ClickLike "1-50") demoState = Some demoState
  ∧ fire (ClickDislike "1-50") demoState = Some demoState.
Proof.
  apply (reply_card_reactions_inert "1-50" demoState); by_compute.
Defined.

Lemma time_label_buckets_witness :
  let getTime := λ _ : string, 0 in
  let toLocale := λ ts : string, ts in
  let d := Z.abs (7200001 - getTime "t") in
  let label := formatTimestamp getTime toLocale 7200001 "t" in
  let hours := JsNumber.ceilDiv d 3600000 in
  let days := JsNumber.ceilDiv d 86400000 in
  (d ≤ 23 * 3600000 → label = pretty hours +:+ "h ago" ∧ 0 ≤ hours ≤ 23)
  ∧ (23 * 3600000 < d ≤ 6 * 86400000 →
     label = pretty days +:+ "d ago" ∧ 1 ≤ days ≤ 6)
  ∧ (6 * 86400000 < d → label = toLocale "t").
Proof.
  apply (time_label_buckets (λ _, 0) (λ ts, ts) 7200001 "t"). reflexivity.
Defined.

End CommentSection.
