(* ===== verification/Overlay.v ===== *)
(** * Overlays

    The interface between a component and a panel it draws over itself.
    Two components of the sources are such panels: the notification centre
    and the reading-list dialog.  Both receive [isOpen] from their host
    and begin their render with [if (!isOpen) return null]
    ([NotificationCenter.tsx], [ReadingListModal.tsx]).  What the host may
    rely on follows from that line: the panel renders nothing while the
    flag is off and something while it is on, and a panel that renders
    nothing has no element to click, so none of its events can happen.
    The hosts prove their theorems about closed panels from these laws;
    the panels discharge them.

    The search results are not an overlay in this sense: the bar mounts
    them conditionally, and their render can throw. *)

From S2P Require Import Prelude.

Class Overlay (St Ev V : Type) := {
  (** The panel for a flag and a state: [None] is React's [null]. *)
  render : bool → St → option V;
  (** Whether the element the event needs is on the screen. *)
  accepts : bool → Ev → St → bool;
  render_closed : ∀ s, render false s = None;
  render_open : ∀ s, is_Some (render true s);
  closed_inert : ∀ e s, accepts false e s = false
}.

Section overlay.
Context `{Overlay St Ev V}.

Lemma render_is_Some isOpen s : is_Some (render isOpen s) ↔ isOpen = true.
Proof.
  destruct isOpen.
  - split; [done|]. intros _. apply render_open.
  - rewrite render_closed. split; [by intros [? ?]|done].
Qed.

Lemma render_None isOpen s : render isOpen s = None ↔ isOpen = false.
Proof.
  rewrite eq_None_not_Some, render_is_Some. by destruct isOpen.
Qed.

(** An event of the panel happens only while something of the panel is
    on the screen. *)
Lemma accepts_visible isOpen e s :
  accepts isOpen e s = true → isOpen = true ∧ is_Some (render isOpen s).
Proof.
  destruct isOpen; [intros _; split; [done|apply render_open]|].
  by rewrite closed_inert.
Qed.

End overlay.
