(* ===== verification/Notifications.v ===== *)
(** * The notification centre

    [NotificationCenter] models
    [src/components/NotificationCenter.tsx]: the [Notification] record, the
    fixture list the component starts from, the three handlers
    [markAsRead], [markAllAsRead] and [deleteNotification], the derived
    [unreadCount], [getIcon], and the view: nothing while closed, the
    badge and the button that marks everything read while something is
    unread, the empty state, and one card per notification.

    The component is an [Overlay]: the navigation bar opens and closes
    it and relies on the laws of the interface only, which the view and
    [enabled] discharge.

    [spec] is what the list stands for: a finite map from identifiers to
    read flags, on which the three handlers are [alter], [fmap] and
    [delete]; [abstract] maps a list to it and the handlers commute with
    it, for every list; the unread count is the number of unread entries
    of the map when the identifiers of the list are distinct. *)

From stdpp Require Import gmap.
From S2P Require Import Prelude Overlay.

Module NotificationCenter.

(** ** Data *)

Inductive Kind : Type := like | comment | new_book | follow | recommendation.

#[export] Instance Kind_eq_dec : EqDecision Kind.
Proof. solve_decision. Defined.

(** The string each member of the union type stands for. *)
Definition kindName (k : Kind) : string :=
  match k with
  | like => "like"
  | comment => "comment"
  | new_book => "new_book"
  | follow => "follow"
  | recommendation => "recommendation"
  end.

Record Notification : Type := {
  id : string;
  type : Kind;
  title : string;
  description : string;
  time : string;
  read : bool;
  avatar : option string;
  bookCover : option string
}.

#[export] Instance Notification_eq_dec : EqDecision Notification.
Proof. solve_decision. Defined.

#[global] Instance Notification_has_id : HasId Notification := id.

Definition mockNotifications : list Notification := [
  {| id := "1"; type := like; title := "New Like on Your Book";
     description := "Sarah Mitchell liked " +:+ dquote
       +:+ "Writing Masterclass: Crafting Stories" +:+ dquote;
     time := "2 minutes ago"; read := false;
     avatar := Some "/placeholder-avatar.jpg"; bookCover := None |};
  {| id := "2"; type := comment; title := "New Comment";
     description := "Alex Rodriguez commented on " +:+ dquote
       +:+ "Top 10 Ebooks of 2023" +:+ dquote;
     time := "15 minutes ago"; read := false;
     avatar := Some "/placeholder-avatar.jpg"; bookCover := None |};
  {| id := "3"; type := new_book; title := "New Book Released";
     description := "Classic Literature uploaded " +:+ dquote
       +:+ "Pride and Prejudice" +:+ dquote;
     time := "1 hour ago"; read := true;
     avatar := None; bookCover := Some "/placeholder-book.jpg" |};
  {| id := "4"; type := follow; title := "New Subscriber";
     description := "Emma Watson subscribed to your channel";
     time := "3 hours ago"; read := true;
     avatar := Some "/placeholder-avatar.jpg"; bookCover := None |};
  {| id := "5"; type := recommendation; title := "Recommended for You";
     description := "Based on your reading history: " +:+ dquote
       +:+ "The Science of Storytelling" +:+ dquote;
     time := "1 day ago"; read := true;
     avatar := None; bookCover := Some "/placeholder-book.jpg" |}
].

(** ** Handlers *)

(** [{ ...notif, read: true }] *)
Definition setRead (n : Notification) : Notification :=
  {| id := id n; type := type n; title := title n; description := description n;
     time := time n; read := true; avatar := avatar n; bookCover := bookCover n |}.

Definition markAsRead (i : string) (prev : list Notification) : list Notification :=
  update_by_id setRead i prev.

Definition markAllAsRead (prev : list Notification) : list Notification :=
  setRead <$> prev.

Definition deleteNotification (i : string) (prev : list Notification) : list Notification :=
  remove_by_id i prev.

(** [notifications.filter(n => !n.read).length] *)
Definition unreadCount (l : list Notification) : nat :=
  length (filter (λ n, read n = false) l).

Inductive Icon : Type := Heart | MessageCircle | BookOpen | UserPlus | Star | Bell.

(** [getIcon]: a [switch] over the name of the kind, with a default. *)
Definition getIcon (type : string) : Icon :=
  if decide (type = "like") then Heart
  else if decide (type = "comment") then MessageCircle
  else if decide (type = "new_book") then BookOpen
  else if decide (type = "follow") then UserPlus
  else if decide (type = "recommendation") then Star
  else Bell.

(** ** View *)

(** What stands at the left of a card. *)
Inductive Picture : Type :=
  | AvatarImage (src : string)
  | CoverIcon
  | KindIcon (icon : Icon).

Record Card : Type := {
  cardId : string;
  highlighted : bool;
  picture : Picture;
  heading : string;
  body : string;
  timeLabel : string;
  unreadDot : bool
}.

Record View : Type := {
  badge : option nat;
  markAllButton : bool;
  emptyState : bool;
  cards : list Card
}.

Definition card (n : Notification) : Card :=
  {| cardId := id n;
     highlighted := negb (read n);
     picture :=
       if truthy (avatar n) then AvatarImage (default "" (avatar n))
       else if truthy (bookCover n) then CoverIcon
       else KindIcon (getIcon (kindName (type n)));
     heading := title n;
     body := description n;
     timeLabel := time n;
     unreadDot := negb (read n) |}.

(** [if (!isOpen) return null] and the JSX below it. *)
Definition view (isOpen : bool) (l : list Notification) : option View :=
  if negb isOpen then None
  else Some {| badge := if (0 <? unreadCount l)%nat then Some (unreadCount l) else None;
               markAllButton := (0 <? unreadCount l)%nat;
               emptyState := bool_decide (length l = 0%nat);
               cards := card <$> l |}.

(** ** Events *)

Inductive Event : Type :=
  | ClickCard (i : string)
  | ClickMarkAll
  | ClickDelete (i : string).

(** The element is on the screen: the panel is open, the card exists, the
    button is shown. *)
Definition enabled (isOpen : bool) (e : Event) (l : list Notification) : bool :=
  isOpen &&
  match e with
  | ClickCard i | ClickDelete i => bool_decide (i ∈ ids l)
  | ClickMarkAll => (0 <? unreadCount l)%nat
  end.

#[global] Instance NotificationCenter_overlay :
  Overlay (list Notification) Event View.
Proof.
  refine {| render := view; accepts := enabled |}.
  - done.
  - intros l. by eexists.
  - done.
Defined.

Definition handle (e : Event) (l : list Notification) : list Notification :=
  match e with
  | ClickCard i => markAsRead i l
  | ClickMarkAll => markAllAsRead l
  | ClickDelete i => deleteNotification i l
  end.

Definition applyAll (es : list Event) (l : list Notification) : list Notification :=
  foldl (λ l e, handle e l) l es.

(** ** Lemmas *)

Lemma setRead_keeps_id : keeps_id setRead.
Proof. done. Qed.

Lemma unreadCount_cons n l :
  unreadCount (n :: l) = ((if read n then 0 else 1) + unreadCount l)%nat.
Proof.
  unfold unreadCount. destruct (read n) eqn:Hr.
  - by rewrite filter_cons_False by congruence.
  - by rewrite filter_cons_True by done.
Qed.

Lemma unreadCount_app l1 l2 :
  unreadCount (l1 ++ l2) = (unreadCount l1 + unreadCount l2)%nat.
Proof. unfold unreadCount. by rewrite filter_app, length_app. Qed.

Lemma unreadCount_le_length l : (unreadCount l ≤ length l)%nat.
Proof. apply length_filter. Qed.

Lemma unreadCount_zero l : unreadCount l = 0%nat ↔ Forall (λ n, read n = true) l.
Proof.
  induction l as [|n l IH]; [done|]. rewrite unreadCount_cons, Forall_cons.
  destruct (read n); simpl; [rewrite IH; naive_solver|]. split; [lia|].
  by intros [? _].
Qed.

Lemma unreadCount_markAllAsRead l : unreadCount (markAllAsRead l) = 0%nat.
Proof.
  apply unreadCount_zero. unfold markAllAsRead. apply Forall_fmap.
  by apply Forall_true.
Qed.

Lemma unreadCount_markAsRead_le i l :
  (unreadCount (markAsRead i l) ≤ unreadCount l)%nat.
Proof.
  unfold markAsRead. induction l as [|n l IH]; [done|].
  rewrite update_by_id_cons, !unreadCount_cons. unfold on_id.
  case_decide; simpl; destruct (read n); lia.
Qed.

Lemma unreadCount_delete_le i l :
  (unreadCount (deleteNotification i l) ≤ unreadCount l)%nat.
Proof.
  unfold deleteNotification, remove_by_id. induction l as [|n l IH]; [done|].
  rewrite unreadCount_cons. destruct (decide (id n ≠ i)).
  - rewrite filter_cons_True by done. rewrite unreadCount_cons. lia.
  - rewrite filter_cons_False by done. lia.
Qed.

Lemma unreadCount_handle_le e l : (unreadCount (handle e l) ≤ unreadCount l)%nat.
Proof.
  destruct e; simpl.
  - apply unreadCount_markAsRead_le.
  - rewrite unreadCount_markAllAsRead. lia.
  - apply unreadCount_delete_le.
Qed.

Lemma markAsRead_idemp i l : markAsRead i (markAsRead i l) = markAsRead i l.
Proof.
  unfold markAsRead. rewrite update_by_id_compose by apply setRead_keeps_id.
  unfold update_by_id. apply list_fmap_ext. intros _ n _. unfold on_id.
  by case_decide.
Qed.

Lemma markAllAsRead_markAsRead i l :
  markAllAsRead (markAsRead i l) = markAllAsRead l.
Proof.
  unfold markAllAsRead, markAsRead, update_by_id.
  rewrite <- list_fmap_compose. apply list_fmap_ext. intros _ n _. simpl.
  unfold on_id. by case_decide.
Qed.

(** ** The centre as a finite map *)

Module spec.

(** The state is a [gmap string bool]: the notifications by identifier,
    each read or not. *)

Definition markAsRead (i : string) (m : gmap string bool) : gmap string bool :=
  alter (λ _, true) i m.

Definition markAllAsRead (m : gmap string bool) : gmap string bool := (λ _, true) <$> m.

Definition deleteNotification (i : string) (m : gmap string bool) : gmap string bool :=
  delete i m.

Definition unreadCount (m : gmap string bool) : nat :=
  size (filter (λ kv, kv.2 = false) m).

Definition handle (e : Event) (m : gmap string bool) : gmap string bool :=
  match e with
  | ClickCard i => markAsRead i m
  | ClickMarkAll => markAllAsRead m
  | ClickDelete i => deleteNotification i m
  end.

End spec.

(** The abstraction function: of two notifications with one identifier
    the map sees the first. *)
Definition abstract (l : list Notification) : gmap string bool :=
  list_to_map ((λ n, (id n, read n)) <$> l).

Lemma abstract_cons n l : abstract (n :: l) = <[id n := read n]> (abstract l).
Proof. done. Qed.

Lemma abstract_lookup_None i l : abstract l !! i = None ↔ i ∉ ids l.
Proof.
  unfold abstract, ids. etrans; [symmetry; apply not_elem_of_list_to_map|].
  by rewrite <- list_fmap_compose.
Qed.

Lemma abstract_markAsRead i l :
  abstract (markAsRead i l) = spec.markAsRead i (abstract l).
Proof.
  unfold markAsRead, spec.markAsRead. induction l as [|n l IH]; [done|].
  rewrite update_by_id_cons, !abstract_cons, IH. unfold on_id.
  change (get_id n) with (id n). case_decide as Hi.
  - simpl. by rewrite Hi, insert_alter_eq, alter_insert_eq.
  - by rewrite alter_insert_ne.
Qed.

Lemma abstract_markAllAsRead l :
  abstract (markAllAsRead l) = spec.markAllAsRead (abstract l).
Proof.
  unfold markAllAsRead, spec.markAllAsRead. induction l as [|n l IH]; [done|].
  by rewrite fmap_cons, !abstract_cons, IH, fmap_insert.
Qed.

Lemma abstract_deleteNotification i l :
  abstract (deleteNotification i l) = spec.deleteNotification i (abstract l).
Proof.
  unfold deleteNotification, spec.deleteNotification, remove_by_id.
  induction l as [|n l IH]; [symmetry; apply delete_empty|].
  rewrite abstract_cons. destruct (decide (id n = i)) as [<-|Hne].
  - by rewrite filter_cons_False, IH, delete_insert_eq by naive_solver.
  - by rewrite filter_cons_True, abstract_cons, IH, delete_insert_ne by done.
Qed.

Lemma abstract_handle e l : abstract (handle e l) = spec.handle e (abstract l).
Proof.
  destruct e; simpl;
    auto using abstract_markAsRead, abstract_markAllAsRead, abstract_deleteNotification.
Qed.

Lemma abstract_unreadCount l :
  NoDup (ids l) → unreadCount l = spec.unreadCount (abstract l).
Proof.
  unfold spec.unreadCount. induction l as [|n l IH]; [done|].
  intros [Hn Hl]%NoDup_cons. apply abstract_lookup_None in Hn.
  rewrite unreadCount_cons, abstract_cons, (IH Hl). destruct (read n) eqn:Hr.
  - by rewrite map_filter_insert_False, delete_id by (done || by simpl).
  - rewrite map_filter_insert_True, map_size_insert_None by
      (done || by rewrite map_lookup_filter_None; left). done.
Qed.

Lemma NoDup_handle e l : NoDup (ids l) → NoDup (ids (handle e l)).
Proof.
  intros Hl. destruct e; simpl.
  - unfold markAsRead. by rewrite ids_update_by_id by apply setRead_keeps_id.
  - unfold markAllAsRead, ids. by rewrite <- list_fmap_compose.
  - unfold deleteNotification, ids. eapply sublist_NoDup; [done|].
    apply fmap_sublist, remove_by_id_sublist.
Qed.

(** ** Theorems *)

(** C13: the list of the notification centre implements a finite map
    from identifiers to read flags: every sequence of clicks commutes with
    the abstraction; and when the identifiers of the list are distinct, as
    in the fixture, they stay distinct and the unread count is the number
    of unread entries of the map. *)
Theorem centre_refines_map es l :
  NoDup (ids l) →
  abstract (applyAll es l) = foldl (λ m e, spec.handle e m) (abstract l) es
  ∧ NoDup (ids (applyAll es l))
  ∧ unreadCount (applyAll es l) = spec.unreadCount (abstract (applyAll es l)).
Proof.
  unfold applyAll. revert l. induction es as [|e es IH]; intros l Hl; simpl.
  - auto using abstract_unreadCount.
  - rewrite <- abstract_handle. by apply IH, NoDup_handle.
Qed.

(** C12: no sequence of clicks in the panel raises the number of
    unread notifications, and the number never exceeds the length of the
    list. *)
Theorem unread_never_grows es l :
  (unreadCount (applyAll es l) ≤ unreadCount l)%nat
  ∧ (unreadCount (applyAll es l) ≤ length (applyAll es l))%nat.
Proof.
  split; [|apply unreadCount_le_length].
  revert l. unfold applyAll. induction es as [|e es IH]; intros l; simpl; [done|].
  etrans; [apply IH|apply unreadCount_handle_le].
Qed.

(** After everything is marked read the unread count is
    zero, so the badge and the button disappear, while every notification
    is still listed, in the same order, changed in its read flag only. *)
Theorem mark_all_clears_badge l :
  let l' := markAllAsRead l in
  unreadCount l' = 0%nat
  ∧ view true l' = Some {| badge := None; markAllButton := false;
                           emptyState := bool_decide (length l = 0%nat);
                           cards := card <$> l' |}
  ∧ ids l' = ids l.
Proof.
  simpl. split_and!.
  - apply unreadCount_markAllAsRead.
  - unfold view. simpl. rewrite unreadCount_markAllAsRead. simpl.
    unfold markAllAsRead. by rewrite length_fmap.
  - unfold ids, markAllAsRead. rewrite <- list_fmap_compose.
    by apply list_fmap_ext.
Qed.

(** Clicking an unread notification whose identifier is
    unique lowers the unread count by exactly one and changes nothing but
    the read flag of that notification. *)
Theorem mark_as_read_decrements i l k n :
  NoDup (ids l) → l !! k = Some n → id n = i → read n = false →
  markAsRead i l = <[k := setRead n]> l
  ∧ unreadCount l = S (unreadCount (markAsRead i l)).
Proof.
  intros Hnd Hk Hi Hr. unfold markAsRead.
  rewrite (update_by_id_insert setRead i l k n) by done. split; [done|].
  rewrite <- (take_drop_middle l k n) at 1 by done.
  rewrite insert_take_drop by (by eapply lookup_lt_Some).
  rewrite !unreadCount_app, !unreadCount_cons, Hr. simpl. lia.
Qed.

(** Deleting removes exactly the notifications with the
    identifier given: none of them is left, every other one stays, in
    order. *)
Theorem delete_removes_card i l :
  let l' := deleteNotification i l in
  (i ∉ ids l') ∧ l' `sublist_of` l
  ∧ ∀ n, n ∈ l' ↔ n ∈ l ∧ id n ≠ i.
Proof.
  simpl. unfold deleteNotification. split_and!.
  - apply remove_by_id_absent.
  - apply remove_by_id_sublist.
  - intros n. apply elem_of_remove_by_id.
Qed.

(** The panel opens on the fixture with a badge of two,
    five cards, and no card that falls back on the icon of its kind: each
    fixture entry has an avatar or a cover. *)
Theorem fixture_shows_two_unread :
  ∃ v, view true mockNotifications = Some v
    ∧ badge v = Some 2%nat ∧ length (cards v) = 5%nat
    ∧ Forall (λ c, ∀ i, picture c ≠ KindIcon i) (cards v).
Proof.
  eexists. split; [reflexivity|]. split_and!; [done..|].
  repeat constructor; simpl; congruence.
Qed.

(** Every kind of notification has an icon of its own; the
    default of the switch is never taken for a value of the union type. *)
Theorem icon_default_unreachable k : getIcon (kindName k) ≠ Bell.
Proof. by destruct k. Qed.

(** ** Witnesses *)

Lemma mark_as_read_decrements_witness :
  markAsRead "2" mockNotifications
    = <[1%nat := setRead {| id := "2"; type := comment; title := "New Comment";
         description := "Alex Rodriguez commented on " +:+ dquote
           +:+ "Top 10 Ebooks of 2023" +:+ dquote;
         time := "15 minutes ago"; read := false;
         avatar := Some "/placeholder-avatar.jpg"; bookCover := None |}]>
      mockNotifications
  ∧ unreadCount mockNotifications = S (unreadCount (markAsRead "2" mockNotifications)).
Proof.
  apply (mark_as_read_decrements "2" mockNotifications 1); try reflexivity.
  by_compute.
Defined.

Lemma centre_refines_map_witness :
  let es := [ClickCard "1"; ClickDelete "2"] in
  abstract (applyAll es mockNotifications)
  = foldl (λ m e, spec.handle e m) (abstract mockNotifications) es
  ∧ NoDup (ids (applyAll es mockNotifications))
  ∧ unreadCount (applyAll es mockNotifications)
    = spec.unreadCount (abstract (applyAll es mockNotifications)).
Proof.
  apply (centre_refines_map [ClickCard "1"; ClickDelete "2"] mockNotifications).
  by_compute.
Defined.

End NotificationCenter.
