(* ===== verification/Search.v ===== *)
(** * The search overlay

    [SearchResults] models [src/components/SearchResults.tsx]: the filter
    the effect computes from the query (a case-folded substring test on
    five fields of each book, or the whole catalogue for a blank query),
    the state the effect writes, the statistics of [getSearchStats]
    (number of results, the first five distinct tags), the click on a
    result, and the view.

    The component asks react-router for [navigate]; that hook needs a
    router above the component and throws without one, so the render
    takes the presence of a router as an argument.  [useNavigate] is the
    one definition of the file that is not code of the repository: it
    states the behaviour of the library. *)

From S2P Require Import Prelude JsString Catalog.

Import JsString BookStore.

(** ** [[...new Set(xs)]]: first occurrences, in order *)

Section dedupe.
Context {A : Type} `{EqDecision A}.

Fixpoint dedupeFrom (seen l : list A) : list A :=
  match l with
  | [] => []
  | x :: l' =>
      if decide (x ∈ seen) then dedupeFrom seen l'
      else x :: dedupeFrom (x :: seen) l'
  end.

Definition dedupe (l : list A) : list A := dedupeFrom [] l.

Lemma elem_of_dedupeFrom seen l x :
  x ∈ dedupeFrom seen l ↔ x ∈ l ∧ x ∉ seen.
Proof.
  revert seen. induction l as [|y l IH]; intros seen; simpl.
  { set_solver. }
  case_decide; [rewrite IH; set_solver|].
  rewrite elem_of_cons, IH. destruct (decide (x = y)); set_solver.
Qed.

Lemma NoDup_dedupeFrom seen l : NoDup (dedupeFrom seen l).
Proof.
  revert seen. induction l as [|y l IH]; intros seen; simpl; [constructor|].
  case_decide; [done|]. constructor; [|done].
  rewrite elem_of_dedupeFrom. set_solver.
Qed.

Lemma dedupeFrom_sublist seen l : dedupeFrom seen l `sublist_of` l.
Proof.
  revert seen. induction l as [|y l IH]; intros seen; simpl; [done|].
  case_decide; [by apply sublist_cons|by apply sublist_skip].
Qed.

Lemma dedupeFrom_NoDup_id seen l :
  NoDup l → (∀ x, x ∈ l → x ∉ seen) → dedupeFrom seen l = l.
Proof.
  revert seen. induction l as [|y l IH]; intros seen Hnd Hs; simpl; [done|].
  apply NoDup_cons in Hnd as [Hy Hnd].
  rewrite decide_False by set_solver. f_equal. apply IH; [done|].
  intros x Hx. specialize (Hs x). set_solver.
Qed.

Lemma elem_of_dedupe l x : x ∈ dedupe l ↔ x ∈ l.
Proof. unfold dedupe. rewrite elem_of_dedupeFrom. set_solver. Qed.

Lemma NoDup_dedupe l : NoDup (dedupe l).
Proof. apply NoDup_dedupeFrom. Qed.

Lemma dedupe_idemp l : dedupe (dedupe l) = dedupe l.
Proof.
  unfold dedupe at 1. apply dedupeFrom_NoDup_id; [apply NoDup_dedupe|set_solver].
Qed.

Lemma length_dedupe l : (length (dedupe l) ≤ length l)%nat.
Proof. apply sublist_length, dedupeFrom_sublist. Qed.

End dedupe.

Module SearchResults.

(** What a render yields: a view, or the exception of a hook. *)
Inductive Outcome (V : Type) : Type :=
  | Shown (v : V)
  | Throws (message : string).

Arguments Shown {V} v.
Arguments Throws {V} message.

(** [useNavigate()]: the function that navigates, inside a router. *)
Definition useNavigate (inRouter : bool) : Outcome (string → list Effect) :=
  if inRouter then Shown (λ path, [Navigate path])
  else Throws "useNavigate() may be used only in the context of a <Router> component.".

Section catalogue.
Context (mockBooks : list Book).

(** ** The filter *)

(** The predicate of [mockBooks.filter], for a query already folded. *)
Definition matches (query : string) (book : Book) : bool :=
  includes (toLowerCase (title book)) query
  || includes (toLowerCase (author book)) query
  || includes (toLowerCase (description book)) query
  || existsb (λ tag, includes (toLowerCase tag) query) (tags book)
  || includes (toLowerCase (uploader book)) query.

(** The value the effect stores for a query. *)
Definition search (searchQuery : string) : list Book :=
  if negb (nonBlank searchQuery) then mockBooks
  else
    let query := toLowerCase searchQuery in
    filter (λ book, matches query book = true) mockBooks.

(** ** State *)

(** [filteredBooks], and the query the effect last ran for ([None] before
    the first run). *)
Record State : Type := {
  filteredBooks : list Book;
  ranFor : option string
}.

(** [useState(mockBooks)] *)
Definition mount : State := {| filteredBooks := mockBooks; ranFor := None |}.

(** The effect with dependency [[searchQuery]]: it runs after the first
    render and after each render in which the query differs from the one
    it ran for. *)
Definition effect (searchQuery : string) (s : State) : State :=
  if decide (ranFor s = Some searchQuery) then s
  else {| filteredBooks := search searchQuery; ranFor := Some searchQuery |}.

(** [handleBookClick]: navigate to the book, then close the overlay.  The
    second component tells the parent to close. *)
Definition handleBookClick (navigate : string → list Effect) (bookId : string)
    : list Effect * bool :=
  (navigate ("/book/" +:+ bookId), true).

(** ** Statistics and view *)

Record Stats : Type := {
  totalResults : nat;
  categories : list string
}.

Definition getSearchStats (s : State) : Stats :=
  {| totalResults := length (filteredBooks s);
     categories := slice 0 5 (dedupe (filteredBooks s ≫= tags)) |}.

Record View : Type := {
  heading : string;
  countLabel : string;
  popularCategories : option (list string);
  grid : option (list Book)
}.

Definition view (searchQuery : string) (s : State) : View :=
  let stats := getSearchStats s in
  {| heading := "Search Results for " +:+ dquote +:+ searchQuery +:+ dquote;
     countLabel :=
       pretty (totalResults stats) +:+ " "
       +:+ (if decide (totalResults stats = 1%nat) then "result" else "results")
       +:+ " found";
     popularCategories :=
       if nonBlank searchQuery then Some (categories stats) else None;
     grid :=
       if (0 <? length (filteredBooks s))%nat then Some (filteredBooks s)
       else None |}.

(** The component function: the hooks, then the JSX. *)
Definition render (inRouter : bool) (searchQuery : string) (s : State)
    : Outcome View :=
  match useNavigate inRouter with
  | Throws m => Throws m
  | Shown _ => Shown (view searchQuery s)
  end.

(** The state once the effect has run for the query. *)
Definition settled (searchQuery : string) : State := effect searchQuery mount.

(** ** Lemmas *)

Lemma matches_spec query book :
  matches query book = true ↔
  ∃ field, field ∈ [title book; author book; description book; uploader book]
                   ++ tags book
           ∧ includes (toLowerCase field) query = true.
Proof.
  unfold matches. rewrite !orb_true_iff, existsb_exists. split.
  - intros [[[[H|H]|H]|(tag & Ht%list_elem_of_In & H)]|H];
      eexists; (split; [|exact H]); set_solver.
  - intros (field & Hf & H). rewrite elem_of_app, !elem_of_cons in Hf.
    destruct Hf as [[->|[->|[->|[->|Hf]]]]|Hf]; [tauto..|by apply elem_of_nil in Hf|].
    left. right. exists field. by rewrite <- list_elem_of_In.
Qed.

Lemma search_blank q : nonBlank q = false → search q = mockBooks.
Proof. unfold search. by intros ->. Qed.

Lemma search_nonBlank q :
  nonBlank q = true →
  search q = filter (λ book, matches (toLowerCase q) book = true) mockBooks.
Proof. unfold search. by intros ->. Qed.

Lemma search_sublist q : search q `sublist_of` mockBooks.
Proof.
  unfold search. destruct (nonBlank q); simpl; [apply sublist_filter|done].
Qed.

Lemma blank_toLowerCase s : blank (toLowerCase s) = blank s.
Proof. induction s; simpl; [done|]. by rewrite is_space_lower, IHs. Qed.

Lemma nonBlank_toLowerCase s : nonBlank (toLowerCase s) = nonBlank s.
Proof.
  apply eq_true_iff_eq. by rewrite !nonBlank_spec, blank_toLowerCase.
Qed.

Lemma matches_narrow q q' book :
  includes q' q = true → matches q' book = true → matches q book = true.
Proof.
  intros Hq. rewrite !matches_spec. intros (field & Hf & H).
  exists field. split; [done|]. by eapply includes_trans.
Qed.

Lemma settled_spec q : settled q = {| filteredBooks := search q; ranFor := Some q |}.
Proof. done. Qed.

Lemma effect_idemp q s : effect q (effect q s) = effect q s.
Proof. unfold effect. repeat (case_decide; simpl in *); done. Qed.

(** ** Theorems *)

(** C7: for a query that is not blank the overlay lists exactly the
    books of the catalogue of which the title, the author, the
    description, the uploader or a tag contains the query as a substring
    once both are folded to lower case, in catalogue order. *)
Theorem search_finds_exactly_matches q :
  nonBlank q = true →
  search q `sublist_of` mockBooks
  ∧ ∀ book, book ∈ search q ↔
      book ∈ mockBooks
      ∧ ∃ field pre post,
          field ∈ [title book; author book; description book; uploader book]
                  ++ tags book
          ∧ toLowerCase field = pre +:+ toLowerCase q +:+ post.
Proof.
  intros Hq. split; [apply search_sublist|]. intros book.
  rewrite (search_nonBlank q Hq), list_elem_of_filter, matches_spec.
  setoid_rewrite includes_spec. naive_solver.
Qed.

(** Two queries that differ in the case of their letters only
    give the same results. *)
Theorem search_ignores_case q1 q2 :
  toLowerCase q1 = toLowerCase q2 → search q1 = search q2.
Proof.
  intros Hq. unfold search.
  by rewrite <- (nonBlank_toLowerCase q1), <- (nonBlank_toLowerCase q2), Hq.
Qed.

(** Extending a query can only remove results: when the
    folded query [q] occurs in the folded query [q'], every result for
    [q'] is a result for [q]. *)
Theorem refined_query_narrows q q' :
  nonBlank q = true → nonBlank q' = true →
  includes (toLowerCase q') (toLowerCase q) = true →
  search q' ⊆ search q.
Proof.
  intros Hq Hq' Hi book.
  rewrite (search_nonBlank q Hq), (search_nonBlank q' Hq'), !list_elem_of_filter.
  intros [Hm ?]. split; [|done]. by eapply matches_narrow.
Qed.

(** For a blank query the settled overlay lists the whole
    catalogue and hides the categories. *)
Theorem blank_query_lists_catalogue q :
  nonBlank q = false →
  filteredBooks (settled q) = mockBooks
  ∧ popularCategories (view q (settled q)) = None
  ∧ totalResults (getSearchStats (settled q)) = length mockBooks.
Proof.
  intros Hq. rewrite settled_spec. unfold view, getSearchStats. simpl.
  by rewrite (search_blank q Hq), Hq.
Qed.

(** The categories shown are at most five, pairwise distinct,
    each the tag of a listed book, and they are the first distinct tags
    in the order of the list. *)
Theorem categories_distinct_at_most_five s :
  let cs := categories (getSearchStats s) in
  (length cs ≤ 5)%nat ∧ NoDup cs
  ∧ (∀ c, c ∈ cs → ∃ book, book ∈ filteredBooks s ∧ c ∈ tags book)
  ∧ cs = take 5 (dedupe (filteredBooks s ≫= tags)).
Proof.
  simpl. split_and!.
  - rewrite length_slice. lia.
  - eapply sublist_NoDup; [apply NoDup_dedupe|apply slice_sublist].
  - intros c Hc. eapply elem_of_sublist in Hc; [|apply slice_sublist].
    apply elem_of_dedupe, list_elem_of_bind in Hc. naive_solver.
  - done.
Qed.

(** The first render of the overlay, before the effect has
    run, lists the whole catalogue whatever the query is; the render
    after the effect lists the results. *)
Theorem first_render_is_unfiltered q :
  filteredBooks mount = mockBooks
  ∧ totalResults (getSearchStats mount) = length mockBooks
  ∧ filteredBooks (effect q mount) = search q.
Proof. done. Qed.

(** The label under the heading says [result] for
    exactly one result and [results] otherwise, zero included. *)
Theorem count_label_singular_for_one q s :
  countLabel (view q s) =
    pretty (length (filteredBooks s)) +:+ " "
    +:+ (if decide (length (filteredBooks s) = 1%nat) then "result" else "results")
    +:+ " found"
  ∧ (grid (view q s) = None ↔ filteredBooks s = []).
Proof.
  split; [done|]. unfold view. simpl.
  destruct (filteredBooks s); simpl; naive_solver.
Qed.

(** Without a router above it the overlay renders nothing:
    the hook throws before any of the view is produced. *)
Theorem search_needs_router q s :
  render false q s
    = Throws "useNavigate() may be used only in the context of a <Router> component."
  ∧ render true q s = Shown (view q s).
Proof. done. Qed.

(** Clicking a result navigates to the page of that book and
    asks the parent to close the overlay. *)
Theorem result_click_navigates_and_closes bookId :
  ∃ navigate, useNavigate true = Shown navigate
    ∧ handleBookClick navigate bookId = ([Navigate ("/book/" +:+ bookId)], true).
Proof. by eexists. Qed.

End catalogue.

(** ** Witnesses *)

(** The query is trimmed for the test of blankness only: a
    query with a blank after the word finds no book whose text has the
    word at its end, although the same word alone finds it. *)
Theorem query_is_not_trimmed :
  search demoCatalogue "dune" = [demoDune]
  ∧ search demoCatalogue "dune " = []
  ∧ trim "dune " = "dune".
Proof. by vm_compute. Qed.

Lemma search_finds_exactly_matches_witness :
  search demoCatalogue "AUSTEN" `sublist_of` demoCatalogue
  ∧ ∀ book, book ∈ search demoCatalogue "AUSTEN" ↔
      book ∈ demoCatalogue
      ∧ ∃ field pre post,
          field ∈ [title book; author book; description book; uploader book]
                  ++ tags book
          ∧ toLowerCase field = pre +:+ toLowerCase "AUSTEN" +:+ post.
Proof. apply (search_finds_exactly_matches demoCatalogue "AUSTEN"). reflexivity. Defined.

Lemma search_ignores_case_witness :
  search demoCatalogue "Sci-Fi" = search demoCatalogue "sci-fi".
Proof. apply (search_ignores_case demoCatalogue "Sci-Fi" "sci-fi"). reflexivity. Defined.

Lemma refined_query_narrows_witness :
  search demoCatalogue "dune" ⊆ search demoCatalogue "un".
Proof. apply (refined_query_narrows demoCatalogue "un" "dune"); reflexivity. Defined.

Lemma blank_query_lists_catalogue_witness :
  filteredBooks (settled demoCatalogue "  ") = demoCatalogue
  ∧ popularCategories (view "  " (settled demoCatalogue "  ")) = None
  ∧ totalResults (getSearchStats (settled demoCatalogue "  ")) = length demoCatalogue.
Proof. apply (blank_query_lists_catalogue demoCatalogue "  "). reflexivity. Defined.

End SearchResults.
