(* ===== verification/Navigation.v ===== *)
(** * The navigation bar

    [Navigation] models [src/components/Navigation.tsx]: the search query
    and the two flags that open the search overlay and the notification
    centre, the handlers of the form, of the input and of the buttons, and
    the two children.  The notification centre is always mounted, so its
    list lives as long as the bar; the search results are mounted while
    their flag is set, so their state is created when the flag rises and
    dropped when it falls.

    Two rules of React that the sources rely on are part of the model and
    are not code of the repository.  Effects run after a render that
    returned: [commit] runs the effect of the search results then, and
    commits nothing for a render that threw.  An exception during a
    render, with no error boundary above it (the sources have none),
    unmounts the tree: [crashed] holds from then on and no event is
    enabled.  Whether the render of the search results throws depends on
    [inRouter], a parameter of the section: it says whether a router of
    react-router is above the bar. *)

From S2P Require Import Prelude JsString Catalog Overlay Notifications Search.

Import JsString BookStore.

Module Navigation.

Import SearchResults (Outcome, Shown, Throws).

(** ** State *)

Record State : Type := {
  searchQuery : string;
  showSearchResults : bool;
  showNotifications : bool;
  notifications : list NotificationCenter.Notification;
  results : option SearchResults.State
}.

Definition init : State :=
  {| searchQuery := ""; showSearchResults := false; showNotifications := false;
     notifications := NotificationCenter.mockNotifications; results := None |}.

Definition setSearchQuery (v : string) (s : State) : State :=
  {| searchQuery := v; showSearchResults := showSearchResults s;
     showNotifications := showNotifications s;
     notifications := notifications s; results := results s |}.

Definition setShowSearchResults (b : bool) (s : State) : State :=
  {| searchQuery := searchQuery s; showSearchResults := b;
     showNotifications := showNotifications s;
     notifications := notifications s; results := results s |}.

Definition setShowNotifications (b : bool) (s : State) : State :=
  {| searchQuery := searchQuery s; showSearchResults := showSearchResults s;
     showNotifications := b;
     notifications := notifications s; results := results s |}.

Definition withNotifications (l : list NotificationCenter.Notification) (s : State)
    : State :=
  {| searchQuery := searchQuery s; showSearchResults := showSearchResults s;
     showNotifications := showNotifications s;
     notifications := l; results := results s |}.

Definition withResults (r : option SearchResults.State) (s : State) : State :=
  {| searchQuery := searchQuery s; showSearchResults := showSearchResults s;
     showNotifications := showNotifications s;
     notifications := notifications s; results := r |}.

(** ** Handlers *)

(** [handleSearch]: submitting the form opens the overlay for a query that
    is not blank. *)
Definition handleSearch (s : State) : State :=
  if nonBlank (searchQuery s) then setShowSearchResults true s else s.

(** [handleSearchInputChange]: every keystroke stores the text and opens
    or closes the overlay. *)
Definition handleSearchInputChange (value : string) (s : State) : State :=
  let s := setSearchQuery value s in
  if nonBlank value then setShowSearchResults true s
  else setShowSearchResults false s.

(** [() => setShowNotifications(!showNotifications)] *)
Definition toggleNotifications (s : State) : State :=
  setShowNotifications (negb (showNotifications s)) s.

(** [onClose] of the search overlay and of the notification centre. *)
Definition closeSearch (s : State) : State := setShowSearchResults false s.

Definition closeNotifications (s : State) : State := setShowNotifications false s.

Section tree.
Context (mockBooks : list Book) (inRouter : bool).

(** ** Children *)

(** The state the search overlay renders with: its own when it is mounted,
    the initial one on the render that mounts it. *)
Definition resultsState (s : State) : SearchResults.State :=
  default (SearchResults.mount mockBooks) (results s).

(** [{showSearchResults && <SearchResults ... />}]: nothing while the
    flag is off; otherwise the render of the overlay, which returns its
    view or throws. *)
Definition searchPanel (s : State) : option (Outcome SearchResults.View) :=
  if showSearchResults s
  then Some (SearchResults.render inRouter (searchQuery s) (resultsState s))
  else None.

(** What happens to the children after a render.  While the overlay is
    rendered and its render returned, it is mounted and its effect has
    run; while the flag is off it is unmounted.  A render that threw is
    not committed: no effect runs and no state of the overlay exists. *)
Definition commit (s : State) : State :=
  withResults
    match searchPanel s with
    | Some (Shown _) =>
        Some (SearchResults.effect mockBooks (searchQuery s) (resultsState s))
    | Some (Throws _) | None => None
    end s.

(** The render of the search overlay threw: the bar is gone. *)
Definition crashed (s : State) : bool :=
  match searchPanel s with
  | Some (Throws _) => true
  | Some (Shown _) | None => false
  end.

(** ** View *)

Record View : Type := {
  queryInput : string;
  bellBadge : string;
  searchOverlay : option (Outcome SearchResults.View);
  notificationPanel : option NotificationCenter.View
}.

Definition view (s : State) : View :=
  {| queryInput := searchQuery s;
     bellBadge := "3";
     searchOverlay := searchPanel s;
     notificationPanel := render (showNotifications s) (notifications s) |}.

(** ** Events *)

Inductive Event : Type :=
  | ClickMenu
  | TypeQuery (value : string)
  | SubmitSearch
  | ClickUpload
  | ClickBell
  | ClickAvatar
  | CloseSearch
  | ClickResult (bookId : string)
  | CloseNotifications
  | Panel (e : NotificationCenter.Event).

(** A handler's result: the next state, the effects requested, and
    whether [onSidebarToggle] was called. *)
Record Update : Type := {
  st : State;
  fx : list Effect;
  sidebarToggled : bool
}.

Definition quiet (s : State) : Update :=
  {| st := s; fx := []; sidebarToggled := false |}.

Definition enabled (e : Event) (s : State) : bool :=
  negb (crashed s) &&
  match e with
  | CloseSearch => showSearchResults s
  | ClickResult bookId =>
      showSearchResults s
      && bool_decide (bookId ∈ ids (SearchResults.filteredBooks (resultsState s)))
  | CloseNotifications => showNotifications s
  | Panel e => accepts (showNotifications s) e (notifications s)
  | _ => true
  end.

Definition handle (e : Event) (s : State) : Update :=
  match e with
  | ClickMenu => {| st := s; fx := []; sidebarToggled := true |}
  | TypeQuery value => quiet (handleSearchInputChange value s)
  | SubmitSearch => quiet (handleSearch s)
  | ClickUpload => {| st := s; fx := [RouterPush "/upload"]; sidebarToggled := false |}
  | ClickBell => quiet (toggleNotifications s)
  | ClickAvatar => {| st := s; fx := [RouterPush "/profile"]; sidebarToggled := false |}
  | CloseSearch => quiet (closeSearch s)
  | ClickResult bookId =>
      match SearchResults.useNavigate inRouter with
      | Shown navigate =>
          let '(effects, close) := SearchResults.handleBookClick navigate bookId in
          {| st := if close then closeSearch s else s; fx := effects;
             sidebarToggled := false |}
      | Throws _ => quiet s
      end
  | CloseNotifications => quiet (closeNotifications s)
  | Panel e => quiet (withNotifications (NotificationCenter.handle e (notifications s)) s)
  end.

Definition fire (e : Event) (s : State) : option Update :=
  if enabled e s then
    let u := handle e s in
    Some {| st := commit (st u); fx := fx u; sidebarToggled := sidebarToggled u |}
  else None.

Fixpoint run (es : list Event) (s : State) : option State :=
  match es with
  | [] => Some s
  | e :: es' => u ← fire e s; run es' (st u)
  end.

Inductive reachable : State → Prop :=
  | reachable_init : reachable init
  | reachable_fire e s u : reachable s → fire e s = Some u → reachable (st u).

(** ** Invariant *)

(** The overlay is open for queries that are not blank only, and its
    state is the one the effect leaves for the current query; there is no
    such state while the overlay is closed or its render threw. *)
Definition coherent (s : State) : Prop :=
  (showSearchResults s = true → nonBlank (searchQuery s) = true)
  ∧ results s =
      if showSearchResults s && inRouter
      then Some (SearchResults.settled mockBooks (searchQuery s))
      else None.

(** ** Lemmas *)

Lemma crashed_spec s : crashed s = showSearchResults s && negb inRouter.
Proof.
  unfold crashed, searchPanel, SearchResults.render, SearchResults.useNavigate.
  by destruct (showSearchResults s), inRouter.
Qed.

Lemma commit_spec s :
  commit s =
    withResults
      (if showSearchResults s && inRouter
       then Some (SearchResults.effect mockBooks (searchQuery s) (resultsState s))
       else None) s.
Proof.
  unfold commit, searchPanel, SearchResults.render, SearchResults.useNavigate.
  by destruct (showSearchResults s), inRouter.
Qed.

Lemma effect_settled q q' :
  SearchResults.effect mockBooks q' (SearchResults.settled mockBooks q)
  = SearchResults.settled mockBooks q'.
Proof.
  unfold SearchResults.settled, SearchResults.effect. simpl.
  case_decide; [|done]. by simplify_eq.
Qed.

Lemma commit_coherent s :
  (showSearchResults s = true → nonBlank (searchQuery s) = true) →
  (∃ q, results s = Some (SearchResults.settled mockBooks q)) ∨ results s = None →
  coherent (commit s).
Proof.
  intros Hq Hr. split; [done|]. rewrite commit_spec. unfold resultsState. simpl.
  destruct (showSearchResults s && inRouter); [|done]. f_equal.
  destruct Hr as [[q ->]| ->]; simpl; [apply effect_settled|done].
Qed.

Lemma commit_fixed s : coherent s → commit s = s.
Proof.
  destruct s as [q sh no l r]. intros [_ Hr]. simpl in Hr. subst r.
  rewrite commit_spec. unfold resultsState, withResults. simpl.
  destruct (sh && inRouter); simpl; [|done]. by rewrite effect_settled.
Qed.

Lemma coherent_results s :
  coherent s →
  (∃ q, results s = Some (SearchResults.settled mockBooks q)) ∨ results s = None.
Proof. intros [_ ->]. destruct (showSearchResults s && inRouter); eauto. Qed.

Lemma coherent_handle e s : coherent s → coherent (commit (st (handle e s))).
Proof.
  intros Hc. pose proof (coherent_results s Hc) as Hr. destruct Hc as [Hq _].
  apply commit_coherent; destruct e; simpl; try done;
    unfold handleSearchInputChange, handleSearch; simpl;
    repeat case_match; simpl; naive_solver.
Qed.

Lemma nav_coherent_init : coherent init.
Proof. done. Qed.

Lemma fire_Some e s u :
  fire e s = Some u →
  enabled e s = true
  ∧ u = {| st := commit (st (handle e s)); fx := fx (handle e s);
           sidebarToggled := sidebarToggled (handle e s) |}.
Proof. unfold fire. case_match; naive_solver. Qed.

Lemma nav_coherent_fire e s u : fire e s = Some u → coherent s → coherent (st u).
Proof. intros [_ ->]%fire_Some. apply coherent_handle. Qed.

Lemma nav_coherent_reachable s : reachable s → coherent s.
Proof.
  induction 1 as [|e s u _ IH Hf]; [apply nav_coherent_init|].
  by apply (nav_coherent_fire e s).
Qed.

Lemma nav_run_reachable es s s' : reachable s → run es s = Some s' → reachable s'.
Proof.
  revert s. induction es as [|e es IH]; intros s Hs; simpl.
  { by intros [= <-]. }
  destruct (fire e s) as [u|] eqn:Hf; [|done]. simpl.
  apply IH. by eapply reachable_fire.
Qed.

Lemma crashed_disables e s : crashed s = true → fire e s = None.
Proof. unfold fire, enabled. by intros ->. Qed.

(** Inside a router the render of the overlay never throws. *)
Lemma router_never_crashes s : inRouter = true → crashed s = false.
Proof. rewrite crashed_spec. intros ->. apply andb_false_r. Qed.

(** ** Theorems *)

(** C6: in every state the bar reaches the search overlay is open for
    a query that is not blank only; while it is rendered (the flag is set
    and a router is above the bar) the list it holds is the result of the
    search for the query in the input, and otherwise the overlay has no
    state. *)
Theorem nav_search_invariant s :
  reachable s →
  (showSearchResults s = true → nonBlank (searchQuery s) = true)
  ∧ results s =
      if showSearchResults s && inRouter
      then Some {| SearchResults.filteredBooks :=
                     SearchResults.search mockBooks (searchQuery s);
                   SearchResults.ranFor := Some (searchQuery s) |}
      else None.
Proof. apply nav_coherent_reachable. Qed.

(** While the notification centre is closed nothing that can
    happen on the bar changes the notifications or their read marks: the
    closed panel accepts no event, and the handlers of the bar do not
    touch the list.  The list changes only through the open panel. *)
Theorem closed_panel_keeps_notifications e s u :
  showNotifications s = false → fire e s = Some u →
  notifications (st u) = notifications s
  ∧ notificationPanel (view s) = None.
Proof.
  intros Hn [He ->]%fire_Some. split; [|by apply render_None].
  destruct e; simpl; try done;
    unfold handleSearchInputChange, handleSearch; repeat case_match; try done.
  unfold enabled in He. apply andb_true_iff in He as [_ [He _]%accepts_visible].
  congruence.
Qed.

(** The bell changes the notification flag and nothing of
    the search; typing, submitting and closing the search change nothing
    of the notifications. *)
Theorem bell_leaves_search_alone e s u :
  fire e s = Some u →
  (e = ClickBell →
     showNotifications (st u) = negb (showNotifications s)
     ∧ showSearchResults (st u) = showSearchResults s
     ∧ searchQuery (st u) = searchQuery s)
  ∧ (e ∈ [TypeQuery (searchQuery (st u)); SubmitSearch; CloseSearch] →
     showNotifications (st u) = showNotifications s
     ∧ notifications (st u) = notifications s).
Proof.
  intros [_ ->]%fire_Some. split; [by intros ->|].
  rewrite !elem_of_cons. intros [->|[->|[->|[]%elem_of_nil]]]; simpl;
    unfold handleSearchInputChange, handleSearch; by repeat case_match.
Qed.

(** Opening and closing the panel, and every event that is
    not a click inside the panel, keep the list of notifications with its
    read marks. *)
Theorem notifications_outlive_panel e s u :
  fire e s = Some u → (∀ e', e ≠ Panel e') →
  notifications (st u) = notifications s.
Proof.
  intros [_ ->]%fire_Some He. destruct e; simpl; try done;
    unfold handleSearchInputChange, handleSearch; repeat case_match; try done.
  by destruct (He e).
Qed.

(** After a keystroke the overlay is open exactly when the
    text is not blank, and then, inside a router, it lists the results
    for the text. *)
Theorem typing_decides_overlay value s u :
  fire (TypeQuery value) s = Some u → coherent s →
  searchQuery (st u) = value
  ∧ showSearchResults (st u) = nonBlank value
  ∧ results (st u) =
      if nonBlank value && inRouter
      then Some (SearchResults.settled mockBooks value) else None.
Proof.
  intros [_ ->]%fire_Some Hc.
  destruct (coherent_handle (TypeQuery value) s Hc) as [_ Hr].
  revert Hr. simpl. unfold handleSearchInputChange.
  destruct (nonBlank value); simpl; intros Hr; by split_and!.
Qed.

(** Submitting the form with a blank query changes nothing. *)
Theorem blank_submit_is_ignored s :
  coherent s → nonBlank (searchQuery s) = false →
  fire SubmitSearch s = Some (quiet s).
Proof.
  intros [Hq Hr] Hb. unfold fire, enabled, handle, handleSearch.
  rewrite crashed_spec.
  destruct (showSearchResults s) eqn:Hs; [rewrite Hq in Hb; done|].
  rewrite Hb. simpl. unfold quiet. rewrite commit_spec, Hs. do 2 f_equal.
  destruct s; simpl in *. by subst.
Qed.

(** The badge on the bell shows three in every state, whatever
    the number of unread notifications is: two at the start, none after
    everything is marked read. *)
Theorem bell_badge_is_constant s :
  bellBadge (view s) = "3"
  ∧ NotificationCenter.unreadCount (notifications init) = 2%nat
  ∧ ∀ l, bellBadge (view (withNotifications (NotificationCenter.markAllAsRead l) s))
         = "3".
Proof. done. Qed.

(** C19: with no router above the bar, the first keystroke that is
    not blank makes the search overlay throw; no event of the bar is
    enabled after it, and the overlay that threw has no state. *)
Theorem search_crash_kills_bar value s u :
  inRouter = false → nonBlank value = true →
  fire (TypeQuery value) s = Some u →
  (∃ m, searchOverlay (view (st u)) = Some (Throws m))
  ∧ (∀ e, fire e (st u) = None)
  ∧ results (st u) = None.
Proof.
  intros Hr Hv [_ ->]%fire_Some. simpl. unfold handleSearchInputChange.
  rewrite Hv, commit_spec. simpl. split_and!.
  - unfold searchPanel, SearchResults.render. rewrite Hr. simpl. by eexists.
  - intros e. apply crashed_disables. rewrite crashed_spec. by rewrite Hr.
  - by rewrite Hr.
Qed.

(** Inside a router, a click on a result navigates to the
    page of the book, closes the overlay and drops its state; the query
    stays in the input. *)
Theorem result_click_closes_overlay bookId s u :
  inRouter = true → fire (ClickResult bookId) s = Some u →
  fx u = [Navigate ("/book/" +:+ bookId)]
  ∧ showSearchResults (st u) = false ∧ results (st u) = None
  ∧ searchQuery (st u) = searchQuery s.
Proof. intros Hr [_ ->]%fire_Some. simpl. by rewrite Hr. Qed.

(** Closing the overlay keeps the query, and submitting the
    form brings the same overlay back. *)
Theorem close_then_submit_reopens s :
  inRouter = true → coherent s → showSearchResults s = true →
  run [CloseSearch; SubmitSearch] s = Some s.
Proof.
  intros Hr [Hq Hres] Hs. specialize (Hq Hs). rewrite Hs, Hr in Hres.
  unfold run, fire, enabled. rewrite !router_never_crashes, Hs by done. simpl.
  unfold handleSearch. simpl. rewrite Hq. simpl. rewrite !commit_spec, Hr. simpl.
  f_equal. destruct s; simpl in *. by subst.
Qed.

End tree.

(** ** Witnesses *)

(** The update an event produces. *)
Definition after (inRouter : bool) (e : Event) (s : State) : Update :=
  default (quiet s) (fire demoCatalogue inRouter e s).

Definition typedDune : State := st (after true (TypeQuery "dune") init).

Lemma typedDune_reachable : reachable demoCatalogue true typedDune.
Proof.
  apply (reachable_fire demoCatalogue true (TypeQuery "dune") init
           (after true (TypeQuery "dune") init)); [apply reachable_init|reflexivity].
Qed.

(** Opening the notification centre and then typing a query
    leaves both panels on the screen at once. *)
Theorem both_overlays_open_together :
  ∃ s, run demoCatalogue true [ClickBell; TypeQuery "dune"] init = Some s
    ∧ reachable demoCatalogue true s
    ∧ is_Some (searchOverlay (view demoCatalogue true s))
    ∧ is_Some (notificationPanel (view demoCatalogue true s)).
Proof.
  eexists. split; [reflexivity|]. split_and!; [|by eexists..].
  eapply (nav_run_reachable demoCatalogue true [ClickBell; TypeQuery "dune"]);
    [apply reachable_init|reflexivity].
Qed.

Lemma nav_search_invariant_witness :
  (showSearchResults typedDune = true → nonBlank (searchQuery typedDune) = true)
  ∧ results typedDune =
      if showSearchResults typedDune && true
      then Some {| SearchResults.filteredBooks :=
                     SearchResults.search demoCatalogue (searchQuery typedDune);
                   SearchResults.ranFor := Some (searchQuery typedDune) |}
      else None.
Proof.
  apply (nav_search_invariant demoCatalogue true), typedDune_reachable.
Defined.

Lemma closed_panel_keeps_notifications_witness :
  let u := after true (TypeQuery "dune") init in
  notifications (st u) = notifications init
  ∧ notificationPanel (view demoCatalogue true init) = None.
Proof.
  intros u. apply (closed_panel_keeps_notifications demoCatalogue true
                     (TypeQuery "dune") init); reflexivity.
Defined.

Lemma bell_leaves_search_alone_witness :
  let u := after true ClickBell typedDune in
  (ClickBell = ClickBell →
     showNotifications (st u) = negb (showNotifications typedDune)
     ∧ showSearchResults (st u) = showSearchResults typedDune
     ∧ searchQuery (st u) = searchQuery typedDune)
  ∧ (ClickBell ∈ [TypeQuery (searchQuery (st u)); SubmitSearch; CloseSearch] →
     showNotifications (st u) = showNotifications typedDune
     ∧ notifications (st u) = notifications typedDune).
Proof.
  intros u. apply (bell_leaves_search_alone demoCatalogue true). reflexivity.
Defined.

Lemma notifications_outlive_panel_witness :
  notifications (st (after true CloseNotifications
                       (st (after true (Panel NotificationCenter.ClickMarkAll)
                              (st (after true ClickBell init))))))
  = notifications (st (after true (Panel NotificationCenter.ClickMarkAll)
                         (st (after true ClickBell init)))).
Proof.
  apply (notifications_outlive_panel demoCatalogue true CloseNotifications);
    [reflexivity|done].
Defined.

Lemma typing_decides_overlay_witness :
  searchQuery typedDune = "dune"
  ∧ showSearchResults typedDune = nonBlank "dune"
  ∧ results typedDune =
      if nonBlank "dune" && true
      then Some (SearchResults.settled demoCatalogue "dune") else None.
Proof.
  apply (typing_decides_overlay demoCatalogue true "dune" init);
    [reflexivity|apply nav_coherent_init].
Defined.

Lemma blank_submit_is_ignored_witness :
  fire demoCatalogue true SubmitSearch init = Some (quiet init).
Proof.
  apply (blank_submit_is_ignored demoCatalogue true init);
    [apply nav_coherent_init|reflexivity].
Defined.

Lemma search_crash_kills_bar_witness :
  let u := after false (TypeQuery "dune") init in
  (∃ m, searchOverlay (view demoCatalogue false (st u)) = Some (Throws m))
  ∧ (∀ e, fire demoCatalogue false e (st u) = None)
  ∧ results (st u) = None.
Proof.
  intros u. apply (search_crash_kills_bar demoCatalogue false "dune" init);
    reflexivity.
Defined.

Lemma result_click_closes_overlay_witness :
  let u := after true (ClickResult "1") typedDune in
  fx u = [Navigate ("/book/" +:+ "1")]
  ∧ showSearchResults (st u) = false ∧ results (st u) = None
  ∧ searchQuery (st u) = searchQuery typedDune.
Proof.
  intros u. apply (result_click_closes_overlay demoCatalogue true "1" typedDune);
    reflexivity.
Defined.

Lemma close_then_submit_reopens_witness :
  run demoCatalogue true [CloseSearch; SubmitSearch] typedDune = Some typedDune.
Proof.
  apply (close_then_submit_reopens demoCatalogue true typedDune);
    [reflexivity| |reflexivity].
  apply (nav_coherent_reachable demoCatalogue true), typedDune_reachable.
Defined.

End Navigation.
