(* ===== verification/ReadingLists.v ===== *)
(** * The reading-list dialog

    [ReadingListModal] models [src/components/ReadingListModal.tsx]: the
    lists with their book counts, the form that creates a list, the three
    handlers [createNewList], [addToList] and [deleteList], and the view.
    The dialog works in two modes: with a [bookId] it saves that book to a
    list, without one it manages the lists.  Membership is a counter: a
    list does not know which books it holds.  The handlers address a
    list by its identifier, so they act on every list that carries it;
    [gain] is the ledger of what each event adds to the counts, and the
    sum of the counts is proved to follow it exactly.

    The dialog is an [Overlay]: its view and [enabled] discharge the
    laws of the interface. *)

From S2P Require Import Prelude JsString Overlay.

#[local] Open Scope Z_scope.

Module ReadingListModal.

Import JsString.

(** ** Data *)

Record ReadingList : Type := {
  id : string;
  name : string;
  description : string;
  bookCount : Z;
  isPublic : bool
}.

#[export] Instance ReadingList_eq_dec : EqDecision ReadingList.
Proof. solve_decision. Defined.

#[global] Instance ReadingList_has_id : HasId ReadingList := id.

Definition mockReadingLists : list ReadingList := [
  {| id := "1"; name := "Want to Read"; description := "Books I plan to read soon";
     bookCount := 12; isPublic := false |};
  {| id := "2"; name := "Favorites"; description := "My all-time favorite books";
     bookCount := 8; isPublic := true |};
  {| id := "3"; name := "Science Fiction"; description := "Sci-fi collection";
     bookCount := 15; isPublic := true |}
].

Record State : Type := {
  readingLists : list ReadingList;
  newListName : string;
  showCreateForm : bool
}.

#[export] Instance State_eq_dec : EqDecision State.
Proof. solve_decision. Defined.

Definition init : State :=
  {| readingLists := mockReadingLists; newListName := ""; showCreateForm := false |}.

Definition setReadingLists (f : list ReadingList → list ReadingList) (s : State)
    : State :=
  {| readingLists := f (readingLists s); newListName := newListName s;
     showCreateForm := showCreateForm s |}.

Definition setNewListName (v : string) (s : State) : State :=
  {| readingLists := readingLists s; newListName := v;
     showCreateForm := showCreateForm s |}.

Definition setShowCreateForm (b : bool) (s : State) : State :=
  {| readingLists := readingLists s; newListName := newListName s;
     showCreateForm := b |}.

(** A handler's result: the next state, the toasts, and whether [onClose]
    was called. *)
Record Update : Type := {
  st : State;
  fx : list Effect;
  closed : bool
}.

Definition stay (s : State) : Update := {| st := s; fx := []; closed := false |}.

(** [`"${x}"`] *)
Definition quoted (x : string) : string := dquote +:+ x +:+ dquote.

(** An optional property inside a template literal. *)
Definition shown (x : option string) : string := default "undefined" x.

Section props.
Context (bookId bookTitle : option string).

(** ** Handlers *)

Definition newList (now : Z) (listName : string) : ReadingList :=
  {| id := pretty now;
     name := listName;
     description := "Custom reading list: " +:+ listName;
     bookCount := if truthy bookId then 1 else 0;
     isPublic := false |}.

Definition createNewList (now : Z) (s : State) : Update :=
  if negb (nonBlank (newListName s)) then stay s
  else
    {| st := setShowCreateForm false
               (setNewListName ""
                  (setReadingLists (λ prev, prev ++ [newList now (newListName s)]) s));
       fx := [if truthy bookId
              then Toast "Book Added!"
                     (quoted (shown bookTitle) +:+ " has been added to "
                      +:+ quoted (newListName s)) false
              else Toast "Reading List Created!"
                     (quoted (newListName s) +:+ " has been created successfully.")
                     false];
       closed := false |}.

(** [{ ...list, bookCount: list.bookCount + 1 }] *)
Definition addBook (l : ReadingList) : ReadingList :=
  {| id := id l; name := name l; description := description l;
     bookCount := bookCount l + 1; isPublic := isPublic l |}.

Definition addToList (listId listName : string) (s : State) : Update :=
  {| st := setReadingLists (update_by_id addBook listId) s;
     fx := [Toast "Book Added!"
              (quoted (shown bookTitle) +:+ " has been added to " +:+ quoted listName)
              false];
     closed := true |}.

Definition deleteList (listId listName : string) (s : State) : Update :=
  {| st := setReadingLists (remove_by_id listId) s;
     fx := [Toast "Reading List Deleted"
              (quoted listName +:+ " has been deleted.") true];
     closed := false |}.

(** [Cancel] of the form. *)
Definition cancelCreate (s : State) : State :=
  setNewListName "" (setShowCreateForm false s).

(** ** View *)

Record Card : Type := {
  cardName : string;
  publicBadge : bool;
  cardDescription : string;
  countLabel : string;
  clickable : bool;
  deleteButton : bool
}.

Record View : Type := {
  heading : string;
  createForm : option string;
  cards : list Card;
  emptyState : bool
}.

Definition card (l : ReadingList) : Card :=
  {| cardName := name l;
     publicBadge := isPublic l;
     cardDescription := description l;
     countLabel :=
       pretty (bookCount l) +:+ " " +:+ (if bookCount l =? 1 then "book" else "books");
     clickable := truthy bookId;
     deleteButton := negb (truthy bookId) |}.

Definition view (isOpen : bool) (s : State) : option View :=
  if negb isOpen then None
  else Some {| heading := if truthy bookId then "Save to Reading List"
                          else "Manage Reading Lists";
               createForm := if showCreateForm s then Some (newListName s) else None;
               cards := card <$> readingLists s;
               emptyState := bool_decide (length (readingLists s) = 0%nat) |}.

(** ** Events *)

(** Cards are addressed by their position on the screen: the handlers
    receive the identifier and the name of the list rendered there. *)
Inductive Event : Type :=
  | ClickClose
  | ClickCreateNew
  | TypeName (v : string)
  | PressKey (key : string) (now : Z)
  | ClickCreate (now : Z)
  | ClickCancel
  | ClickCard (k : nat)
  | ClickDelete (k : nat).

Definition enabled (isOpen : bool) (e : Event) (s : State) : bool :=
  isOpen &&
  match e with
  | ClickClose => true
  | ClickCreateNew => negb (showCreateForm s)
  | TypeName _ | PressKey _ _ | ClickCreate _ | ClickCancel => showCreateForm s
  | ClickCard k => bool_decide (is_Some (readingLists s !! k))
  | ClickDelete k =>
      negb (truthy bookId) && bool_decide (is_Some (readingLists s !! k))
  end.

#[global] Instance ReadingListModal_overlay : Overlay State Event View.
Proof.
  refine {| render := view; accepts := enabled |}.
  - done.
  - intros s. by eexists.
  - done.
Defined.

Definition handle (e : Event) (s : State) : Update :=
  match e with
  | ClickClose => {| st := s; fx := []; closed := true |}
  | ClickCreateNew => stay (setShowCreateForm true s)
  | TypeName v => stay (setNewListName v s)
  | PressKey key now =>
      if decide (key = "Enter") then createNewList now s else stay s
  | ClickCreate now => createNewList now s
  | ClickCancel => stay (cancelCreate s)
  | ClickCard k =>
      match readingLists s !! k with
      | Some l => if truthy bookId then addToList (id l) (name l) s else stay s
      | None => stay s
      end
  | ClickDelete k =>
      match readingLists s !! k with
      | Some l => deleteList (id l) (name l) s
      | None => stay s
      end
  end.

(** The parent owns the flag: it closes the dialog when [onClose] is
    called. *)
Definition fire (e : Event) (c : bool * State) : option (bool * State * list Effect) :=
  let '(isOpen, s) := c in
  if enabled isOpen e s then
    let u := handle e s in
    Some (isOpen && negb (closed u), st u, fx u)
  else None.

Fixpoint run (es : list Event) (c : bool * State) : option (bool * State) :=
  match es with
  | [] => Some c
  | e :: es' => r ← fire e c; run es' r.1
  end.

(** The sum of the book counts. *)
Definition totalBooks (l : list ReadingList) : Z :=
  foldr (λ x acc, bookCount x + acc) 0 l.

(** The lists that carry an identifier.  The handlers address a list by
    its identifier, so they act on every list that carries it. *)
Definition withId (i : string) (l : list ReadingList) : list ReadingList :=
  filter (λ x, id x = i) l.

(** The ledger: the number of books an event adds to the lists.  A
    created list brings one book in save mode; a click on a card adds one
    book to every list with the identifier of the card; a deletion takes
    away the books of every list with the identifier. *)
Definition gain (e : Event) (s : State) : Z :=
  let created := if nonBlank (newListName s) && truthy bookId then 1 else 0 in
  match e with
  | PressKey key _ => if decide (key = "Enter") then created else 0
  | ClickCreate _ => created
  | ClickCard k =>
      match readingLists s !! k with
      | Some l =>
          if truthy bookId
          then Z.of_nat (length (withId (id l) (readingLists s))) else 0
      | None => 0
      end
  | ClickDelete k =>
      match readingLists s !! k with
      | Some l => - totalBooks (withId (id l) (readingLists s))
      | None => 0
      end
  | ClickClose | ClickCreateNew | TypeName _ | ClickCancel => 0
  end.

(** The ledger of a sequence of events. *)
Fixpoint gains (es : list Event) (c : bool * State) : Z :=
  match es with
  | [] => 0
  | e :: es' =>
      match fire e c with
      | Some r => gain e c.2 + gains es' r.1
      | None => 0
      end
  end.

(** No list has a negative count. *)
Definition counted (s : State) : Prop :=
  Forall (λ l, 0 ≤ bookCount l) (readingLists s).

#[export] Instance counted_dec s : Decision (counted s).
Proof. unfold counted. apply _. Defined.

(** ** Lemmas *)

Lemma addBook_keeps_id : keeps_id addBook.
Proof. done. Qed.

Lemma totalBooks_app l1 l2 : totalBooks (l1 ++ l2) = totalBooks l1 + totalBooks l2.
Proof. induction l1 as [|x l1 IH]; simpl; lia. Qed.

Lemma totalBooks_insert l k x y :
  l !! k = Some x → totalBooks (<[k := y]> l) = totalBooks l - bookCount x + bookCount y.
Proof.
  revert k. induction l as [|z l IH]; intros [|k] Hk; simplify_eq/=; [lia|].
  rewrite (IH k) by done. lia.
Qed.

Lemma totalBooks_update i l :
  totalBooks (update_by_id addBook i l) = totalBooks l + Z.of_nat (length (withId i l)).
Proof.
  unfold withId. induction l as [|x l IH]; [done|].
  rewrite update_by_id_cons, filter_cons. simpl. rewrite IH.
  unfold on_id. change (get_id x) with (id x). case_decide; simpl; lia.
Qed.

Lemma totalBooks_remove i l :
  totalBooks (remove_by_id i l) = totalBooks l - totalBooks (withId i l).
Proof.
  unfold withId, remove_by_id. induction l as [|x l IH]; [done|].
  rewrite !filter_cons. change (get_id x) with (id x).
  destruct (decide (id x = i)) as [Hi|Hi].
  - rewrite decide_False by naive_solver. simpl. lia.
  - rewrite decide_True by done. simpl. lia.
Qed.

(** With distinct identifiers one list carries the identifier of a card. *)
Lemma withId_NoDup l k x :
  NoDup (ids l) → l !! k = Some x → withId (id x) l = [x].
Proof.
  unfold withId. revert k. induction l as [|y l IH]; intros k; [done|].
  unfold ids. rewrite fmap_cons, NoDup_cons, filter_cons. intros [Hy Hl].
  assert (∀ z, z ∈ l → id z ≠ id y) as Hne.
  { intros z Hz Hi. apply Hy. change (get_id y) with (id y). rewrite <- Hi.
    by apply (list_elem_of_fmap_2 get_id). }
  destruct k as [|k]; simpl.
  - intros [= ->]. rewrite decide_True by done. f_equal.
    apply filter_none, Forall_forall. intros z Hz. by apply Hne.
  - intros Hk. rewrite decide_False; [by eapply IH|].
    intros Hi. by apply (Hne x); [eapply list_elem_of_lookup_2|].
Qed.

Lemma totalBooks_remove_le i l :
  Forall (λ x, 0 ≤ bookCount x) l → totalBooks (remove_by_id i l) ≤ totalBooks l.
Proof.
  unfold remove_by_id. induction 1 as [|x l Hx _ IH]; [done|].
  rewrite filter_cons. case_decide; simpl; lia.
Qed.

Lemma counted_createNewList now s : counted s → counted (st (createNewList now s)).
Proof.
  unfold counted, createNewList. intros Hc. case_match; simpl; [done|].
  apply Forall_app. split; [done|]. constructor; [|done]. simpl. by case_match.
Qed.

Lemma counted_addToList i n s : counted s → counted (st (addToList i n s)).
Proof.
  unfold counted. simpl. unfold update_by_id. intros Hc. apply Forall_fmap.
  eapply Forall_impl; [done|]. intros x Hx. simpl in *. by case_id.
Qed.

Lemma counted_deleteList i n s : counted s → counted (st (deleteList i n s)).
Proof.
  unfold counted. simpl. rewrite !Forall_forall.
  intros Hc x [Hx _]%elem_of_remove_by_id. by apply Hc.
Qed.

Lemma counted_handle e s : counted s → counted (st (handle e s)).
Proof.
  intros Hc. destruct e; cbn [handle]; repeat case_match;
    auto using counted_createNewList, counted_addToList, counted_deleteList.
Qed.

Lemma dialog_fire_Some isOpen e s r :
  fire e (isOpen, s) = Some r →
  isOpen = true ∧ enabled true e s = true
  ∧ r = (negb (closed (handle e s)), st (handle e s), fx (handle e s)).
Proof.
  unfold fire. destruct isOpen; [|done].
  destruct (enabled true e s) eqn:He; [|done]. rewrite andb_true_l. naive_solver.
Qed.

Lemma counted_run es c c' : run es c = Some c' → counted c.2 → counted c'.2.
Proof.
  revert c. induction es as [|e es IH]; intros [o s]; cbn [run].
  { by intros [= <-]. }
  destruct (fire e (o, s)) as [r|] eqn:Hf; [|done]. cbn [mbind option_bind].
  intros Hr Hc.
  apply (IH _ Hr). apply dialog_fire_Some in Hf as (_ & _ & ->). by apply counted_handle.
Qed.

Lemma remove_newList now n : remove_by_id (pretty now) [newList now n] = [].
Proof.
  unfold remove_by_id. rewrite filter_cons, decide_False; [done|].
  intros Hn. by apply Hn.
Qed.

Lemma save_keeps_lists e s :
  truthy bookId = true → enabled true e s = true →
  (length (readingLists s) ≤ length (readingLists (st (handle e s))))%nat.
Proof.
  intros Hb. unfold enabled. rewrite Hb.
  destruct e; cbn [handle]; unfold createNewList; repeat case_match;
    simpl; rewrite ?List.length_app, ?length_update_by_id; try done; lia.
Qed.

Lemma manage_adds_no_book e s :
  truthy bookId = false → counted s →
  totalBooks (readingLists (st (handle e s))) ≤ totalBooks (readingLists s).
Proof.
  intros Hb Hc.
  destruct e; cbn [handle]; unfold createNewList, newList; rewrite ?Hb;
    repeat case_match; simpl; rewrite ?totalBooks_app; simpl; try lia.
  by apply totalBooks_remove_le.
Qed.

Lemma counted_init : counted init.
Proof. by_compute. Qed.

Lemma gain_handle e s :
  totalBooks (readingLists (st (handle e s))) = totalBooks (readingLists s) + gain e s.
Proof.
  destruct e; cbn [handle gain]; unfold createNewList, newList;
    destruct (nonBlank (newListName s)), (truthy bookId);
    repeat case_match; simpl;
    rewrite ?totalBooks_app, ?totalBooks_update, ?totalBooks_remove;
    simpl; lia.
Qed.

(** ** Theorems *)

(** C18: the book counts change by the ledger and by nothing else:
    after any sequence of events the sum of the counts is the sum before
    plus one book for every list created in save mode, plus one for every
    list that carries the identifier of a clicked card, minus the books of
    the lists that carry the identifier of a deleted card.  Typing,
    opening and cancelling the form and closing the dialog add nothing. *)
Theorem books_follow_ledger es c c' :
  run es c = Some c' →
  totalBooks (readingLists c'.2) = totalBooks (readingLists c.2) + gains es c.
Proof.
  revert c. induction es as [|e es IH]; intros [o s]; cbn [run gains].
  { intros [= <-]. lia. }
  destruct (fire e (o, s)) as [r|] eqn:Hf; [|done]. cbn [mbind option_bind].
  intros Hr. rewrite (IH _ Hr).
  apply dialog_fire_Some in Hf as (_ & _ & ->). simpl. rewrite gain_handle. lia.
Qed.

(** With distinct identifiers the ledger of a click on a card in save
    mode is one book, and that of a deletion the count of the deleted
    list. *)
Theorem ledger_of_distinct_lists k x s :
  NoDup (ids (readingLists s)) → readingLists s !! k = Some x →
  gain (ClickCard k) s = (if truthy bookId then 1 else 0)
  ∧ gain (ClickDelete k) s = - bookCount x.
Proof.
  intros Hd Hk. unfold gain. rewrite Hk, (withId_NoDup _ k x) by done.
  simpl. split; [done|lia].
Qed.

(** Creating a list with a name that is not blank appends it
    after the existing lists, private, with one book when the dialog was
    opened for a book and none otherwise; the form is cleared and hidden,
    one toast is requested and the dialog stays open. *)
Theorem created_list_is_last now s :
  nonBlank (newListName s) = true →
  let u := createNewList now s in
  readingLists (st u)
    = readingLists s ++
      [{| id := pretty now; name := newListName s;
          description := "Custom reading list: " +:+ newListName s;
          bookCount := if truthy bookId then 1 else 0; isPublic := false |}]
  ∧ newListName (st u) = "" ∧ showCreateForm (st u) = false
  ∧ length (fx u) = 1%nat ∧ closed u = false.
Proof. intros Hn. simpl. unfold createNewList. by rewrite Hn. Qed.

(** With a blank name the handler returns at once: no list,
    no toast, and the form stays as it is. *)
Theorem blank_name_creates_nothing now s :
  blank (newListName s) = true → createNewList now s = stay s.
Proof.
  intros Hb. unfold createNewList.
  destruct (nonBlank (newListName s)) eqn:Hn; [|done].
  apply nonBlank_spec in Hn. congruence.
Qed.

(** C28: in save mode a click on a list whose identifier is unique
    raises the count of that list by one, leaves every other list as it
    was, requests one toast and closes the dialog. *)
Theorem add_increments_target k x s :
  truthy bookId = true → NoDup (ids (readingLists s)) →
  readingLists s !! k = Some x →
  ∃ s' t, fire (ClickCard k) (true, s) = Some (false, s', [t])
    ∧ readingLists s' = <[k := addBook x]> (readingLists s)
    ∧ totalBooks (readingLists s') = totalBooks (readingLists s) + 1.
Proof.
  intros Hb Hnd Hk. unfold fire, enabled, handle. rewrite Hk, Hb. simpl.
  do 2 eexists. split; [done|].
  simpl. rewrite (update_by_id_insert addBook (id x) _ k x) by done.
  split; [done|]. rewrite (totalBooks_insert _ k x) by done. simpl. lia.
Qed.

(** A list does not know its books: saving the same book to
    the same list twice counts it twice. *)
Theorem membership_is_a_counter k x s :
  truthy bookId = true → NoDup (ids (readingLists s)) →
  readingLists s !! k = Some x →
  ∃ s1 s2 t1 t2,
    fire (ClickCard k) (true, s) = Some (false, s1, [t1])
    ∧ fire (ClickCard k) (true, s1) = Some (false, s2, [t2])
    ∧ bookCount <$> readingLists s2 !! k = Some (bookCount x + 2).
Proof.
  intros Hb Hnd Hk.
  destruct (add_increments_target k x s Hb Hnd Hk) as (s1 & t1 & Hf1 & Hl1 & _).
  assert (readingLists s1 !! k = Some (addBook x)) as Hk1.
  { rewrite Hl1. apply list_lookup_insert_eq. by eapply lookup_lt_Some. }
  assert (NoDup (ids (readingLists s1))) as Hnd1.
  { rewrite Hl1. unfold ids. rewrite list_fmap_insert.
    change (get_id (addBook x)) with (get_id x).
    by rewrite list_insert_id by by rewrite list_lookup_fmap, Hk. }
  destruct (add_increments_target k _ s1 Hb Hnd1 Hk1) as (s2 & t2 & Hf2 & Hl2 & _).
  exists s1, s2, t1, t2. split_and!; [done..|].
  rewrite Hl2, list_lookup_insert_eq by by eapply lookup_lt_Some.
  simpl. f_equal. lia.
Qed.

(** C40: the two modes do not mix.  Opened for a book, the dialog
    never removes a list; opened without one, it never adds a book: the
    sum of the counts does not grow. *)
Theorem modes_are_exclusive e o s r :
  fire e (o, s) = Some r → counted s →
  (truthy bookId = true →
     (length (readingLists s) ≤ length (readingLists r.1.2))%nat)
  ∧ (truthy bookId = false →
     totalBooks (readingLists r.1.2) ≤ totalBooks (readingLists s)).
Proof.
  intros (_ & He & ->)%dialog_fire_Some Hc.
  split; intros Hb; [by apply save_keeps_lists|by apply manage_adds_no_book].
Qed.

(** While the dialog is closed none of its events can happen,
    and closing keeps the lists: they are there when it opens again. *)
Theorem closed_dialog_is_inert e s :
  fire e (false, s) = None
  ∧ fire ClickClose (true, s) = Some (false, s, [])
  ∧ render false s = None.
Proof. done. Qed.

(** In the name field the Enter key creates the list; every
    other key leaves the state to the change handler. *)
Theorem only_enter_creates key now s :
  handle (PressKey key now) s
  = if decide (key = "Enter") then createNewList now s else stay s.
Proof. done. Qed.

(** C30: identifiers are clock readings: two lists created at the
    same reading share theirs, and deleting one deletes both. *)
Theorem same_instant_lists_deleted_together now n1 n2 s :
  nonBlank n1 = true → nonBlank n2 = true →
  pretty now ∉ ids (readingLists s) →
  let s1 := st (createNewList now (setNewListName n1 s)) in
  let s2 := st (createNewList now (setNewListName n2 s1)) in
  length (readingLists s2) = S (S (length (readingLists s)))
  ∧ readingLists (st (deleteList (pretty now) n1 s2)) = readingLists s.
Proof.
  intros H1 H2 Hid. simpl. unfold createNewList. simpl. rewrite H1. simpl.
  rewrite H2. simpl. split; [rewrite !List.length_app; simpl; lia|].
  rewrite !remove_by_id_app, (remove_by_id_id _ (readingLists s)) by done.
  by rewrite !remove_newList, !List.app_nil_r.
Qed.

End props.

(** ** Witnesses *)

Definition demoSave : option string := Some "7".
Definition demoTitle : option string := Some "Dune".

Definition demoTyped : State :=
  {| readingLists := mockReadingLists; newListName := "Summer"; showCreateForm := true |}.

Definition demoEvents : list Event :=
  [ClickCreateNew; TypeName "Summer"; ClickCreate 1700000000000; ClickCard 3%nat].

Definition demoEnd : bool * State :=
  default (true, init) (run demoSave demoTitle demoEvents (true, init)).

Lemma books_follow_ledger_witness :
  totalBooks (readingLists demoEnd.2)
  = totalBooks (readingLists init) + gains demoSave demoTitle demoEvents (true, init).
Proof.
  apply (books_follow_ledger demoSave demoTitle demoEvents (true, init) demoEnd).
  reflexivity.
Defined.

(** The ledger of the example: one book with the created list and one by
    the click on it. *)
Lemma demo_ledger :
  gains demoSave demoTitle demoEvents (true, init) = 2
  ∧ totalBooks (readingLists demoEnd.2) = 37.
Proof. by_compute. Qed.

Lemma ledger_of_distinct_lists_witness :
  gain demoSave (ClickCard 1) init = (if truthy demoSave then 1 else 0)
  ∧ gain demoSave (ClickDelete 1) init = - 8.
Proof.
  apply (ledger_of_distinct_lists demoSave 1%nat
           {| id := "2"; name := "Favorites"; description := "My all-time favorite books";
              bookCount := 8; isPublic := true |} init); [by_compute|reflexivity].
Defined.

Lemma created_list_is_last_witness :
  let u := createNewList demoSave demoTitle 1700000000000 demoTyped in
  readingLists (st u)
    = readingLists demoTyped ++
      [{| id := pretty 1700000000000; name := newListName demoTyped;
          description := "Custom reading list: " +:+ newListName demoTyped;
          bookCount := if truthy demoSave then 1 else 0; isPublic := false |}]
  ∧ newListName (st u) = "" ∧ showCreateForm (st u) = false
  ∧ length (fx u) = 1%nat ∧ closed u = false.
Proof.
  apply (created_list_is_last demoSave demoTitle 1700000000000 demoTyped).
  reflexivity.
Defined.

Lemma blank_name_creates_nothing_witness :
  createNewList None None 5 (setNewListName "   " init)
  = stay (setNewListName "   " init).
Proof.
  apply (blank_name_creates_nothing None None 5 (setNewListName "   " init)).
  reflexivity.
Defined.

Definition demoFavorites : ReadingList :=
  {| id := "2"; name := "Favorites"; description := "My all-time favorite books";
     bookCount := 8; isPublic := true |}.

Lemma add_increments_target_witness :
  ∃ s' t, fire demoSave demoTitle (ClickCard 1) (true, init) = Some (false, s', [t])
    ∧ readingLists s' = <[1%nat := addBook demoFavorites]> (readingLists init)
    ∧ totalBooks (readingLists s') = totalBooks (readingLists init) + 1.
Proof.
  apply (add_increments_target demoSave demoTitle 1 demoFavorites init);
    [reflexivity|by_compute|reflexivity].
Defined.

Lemma membership_is_a_counter_witness :
  ∃ s1 s2 t1 t2,
    fire demoSave demoTitle (ClickCard 1) (true, init) = Some (false, s1, [t1])
    ∧ fire demoSave demoTitle (ClickCard 1) (true, s1) = Some (false, s2, [t2])
    ∧ bookCount <$> readingLists s2 !! 1%nat = Some (bookCount demoFavorites + 2).
Proof.
  apply (membership_is_a_counter demoSave demoTitle 1 demoFavorites init);
    [reflexivity|by_compute|reflexivity].
Defined.

Lemma modes_are_exclusive_witness :
  let r := (true, st (deleteList "2" "Favorites" init),
            fx (deleteList "2" "Favorites" init)) in
  (truthy (None : option string) = true →
     (length (readingLists init) ≤ length (readingLists r.1.2))%nat)
  ∧ (truthy (None : option string) = false →
     totalBooks (readingLists r.1.2) ≤ totalBooks (readingLists init)).
Proof.
  apply (modes_are_exclusive None None (ClickDelete 1) true init);
    [reflexivity|by_compute].
Defined.

Lemma same_instant_lists_deleted_together_witness :
  let s1 := st (createNewList None None 7 (setNewListName "A" init)) in
  let s2 := st (createNewList None None 7 (setNewListName "B" s1)) in
  length (readingLists s2) = S (S (length (readingLists init)))
  ∧ readingLists (st (deleteList (pretty 7) "A" s2)) = readingLists init.
Proof.
  apply (same_instant_lists_deleted_together None None 7 "A" "B" init);
    [reflexivity|reflexivity|by_compute].
Defined.

End ReadingListModal.
