(* ===== verification/Sidebar.v ===== *)
(** * The sidebar and the frame of every page

    [Sidebar] models [src/components/Sidebar.tsx]: the three item lists,
    the button of an item, and the view, which shrinks to the icons of the
    main items when the sidebar is collapsed.

    [Shell] is what the four pages have in common
    ([src/app/page.tsx], [src/app/book/[bookId]/page.tsx],
    [src/app/profile/page.tsx], [src/app/upload/page.tsx]): the flag
    [sidebarOpen], the name [currentPage], the navigation bar and the
    sidebar, with [handleSidebarToggle] and [handlePageChange].  The
    pages differ in one point, which is a parameter here: the profile and
    the upload page go to the home route when the item [home] is chosen,
    the home page and the book page only store the name. *)

From S2P Require Import Prelude Machine JsString Catalog Overlay Notifications Search.
From S2P Require Import Navigation.

Import BookStore.

Module Sidebar.

(** ** Items *)

Inductive Icon : Type :=
  | Home | Zap | Heart | BookOpen | History | Star | BookMarked | TrendingUp
  | Users | Settings.

Record Item : Type := {
  id : string;
  label : string;
  icon : Icon
}.

#[global] Instance Item_has_id : HasId Item := id.

Definition mainNavItems : list Item := [
  {| id := "home"; label := "Home"; icon := Home |};
  {| id := "shorts"; label := "Shorts"; icon := Zap |};
  {| id := "subscriptions"; label := "Subscriptions"; icon := Heart |}
].

Definition libraryItems : list Item := [
  {| id := "library"; label := "Your Library"; icon := BookOpen |};
  {| id := "history"; label := "History"; icon := History |};
  {| id := "favorites"; label := "Favorites"; icon := Star |};
  {| id := "reading-list"; label := "Reading List"; icon := BookMarked |}
].

Definition discoverItems : list Item := [
  {| id := "trending"; label := "Trending"; icon := TrendingUp |};
  {| id := "authors"; label := "Authors"; icon := Users |};
  {| id := "genres"; label := "Browse Genres"; icon := BookOpen |}
].

(** ** View *)

Record Button : Type := {
  target : string;
  picture : Icon;
  text : option string;
  active : bool
}.

Definition renderNavItem (isOpen : bool) (item : Item) (isActive : bool) : Button :=
  {| target := id item;
     picture := icon item;
     text := if isOpen then Some (label item) else None;
     active := isActive |}.

Record Section_ : Type := {
  heading : string;
  buttons : list Button
}.

Record View : Type := {
  wide : bool;
  main : list Button;
  sections : list Section_;
  settings : option Button
}.

Definition items (isOpen : bool) (currentPage : string) (l : list Item) : list Button :=
  (λ item, renderNavItem isOpen item (bool_decide (currentPage = id item))) <$> l.

Definition view (isOpen : bool) (currentPage : string) : View :=
  {| wide := isOpen;
     main := items isOpen currentPage mainNavItems;
     sections :=
       if isOpen
       then [{| heading := "Your Library";
                buttons := items isOpen currentPage libraryItems |};
             {| heading := "Discover";
                buttons := items isOpen currentPage discoverItems |}]
       else [];
     settings :=
       if isOpen
       then Some {| target := "settings"; picture := Settings; text := Some "Settings";
                    active := bool_decide (currentPage = "settings") |}
       else None |}.

(** Every button on the screen, top to bottom. *)
Definition allButtons (v : View) : list Button :=
  main v ++ (sections v ≫= buttons) ++ option_list (settings v).

(** A click on the button at position [k]: the name [onPageChange]
    receives. *)
Definition handle (isOpen : bool) (currentPage : string) (k : nat) : option string :=
  target <$> allButtons (view isOpen currentPage) !! k.

(** ** Lemmas and theorems *)

Definition allIds : list string :=
  ids mainNavItems ++ ids libraryItems ++ ids discoverItems ++ ["settings"].

Lemma targets_open currentPage :
  target <$> allButtons (view true currentPage) = allIds.
Proof. done. Qed.

Lemma targets_collapsed currentPage :
  target <$> allButtons (view false currentPage) = ids mainNavItems.
Proof. done. Qed.

Lemma active_iff isOpen currentPage b :
  b ∈ allButtons (view isOpen currentPage) →
  active b = bool_decide (currentPage = target b).
Proof.
  destruct isOpen; unfold allButtons, view, items; simpl;
    rewrite ?elem_of_cons, ?elem_of_nil; intros H;
    repeat (destruct H as [->|H]; [done|]); done.
Qed.

(** C29: the names of the buttons are pairwise distinct, so at most
    one button is marked active, and it is the one named by the current
    page; a current page that names no item (as on the profile, the
    upload and the book page at first) marks none. *)
Theorem sidebar_marks_one_item isOpen currentPage :
  let bs := allButtons (view isOpen currentPage) in
  NoDup (target <$> bs)
  ∧ (∀ b, b ∈ bs → (active b = true ↔ target b = currentPage))
  ∧ (currentPage ∉ allIds → Forall (λ b, active b = false) bs).
Proof.
  cbv zeta. split_and!.
  - destruct isOpen; [rewrite targets_open|rewrite targets_collapsed]; by_compute.
  - intros b Hb. rewrite (active_iff _ _ _ Hb), bool_decide_eq_true. naive_solver.
  - intros Hn. apply Forall_forall. intros b Hb.
    rewrite (active_iff _ _ _ Hb). apply bool_decide_eq_false_2. intros ->.
    apply Hn. apply (list_elem_of_fmap_2 target) in Hb.
    destruct isOpen; [by rewrite targets_open in Hb|].
    rewrite targets_collapsed in Hb. unfold allIds. set_solver.
Qed.

(** Collapsing the sidebar hides the labels, the two
    sections and the settings; the three main items stay, as icons. *)
Theorem collapsed_sidebar_keeps_main_items currentPage :
  let v := view false currentPage in
  target <$> allButtons v = ["home"; "shorts"; "subscriptions"]
  ∧ Forall (λ b, text b = None) (allButtons v)
  ∧ sections v = [] ∧ settings v = None
  ∧ length (allButtons (view true currentPage)) = 11%nat.
Proof. simpl. split_and!; try done. by repeat constructor. Qed.

End Sidebar.

Module Shell.

(** ** State *)

Record State : Type := {
  sidebarOpen : bool;
  currentPage : string;
  nav : Navigation.State
}.

(** [useState(true)], [useState(name)] and a fresh navigation bar. *)
Definition init (page : string) : State :=
  {| sidebarOpen := true; currentPage := page; nav := Navigation.init |}.

Definition handleSidebarToggle (s : State) : State :=
  {| sidebarOpen := negb (sidebarOpen s); currentPage := currentPage s; nav := nav s |}.

Definition setCurrentPage (page : string) (s : State) : State :=
  {| sidebarOpen := sidebarOpen s; currentPage := page; nav := nav s |}.

Definition withNav (n : Navigation.State) (s : State) : State :=
  {| sidebarOpen := sidebarOpen s; currentPage := currentPage s; nav := n |}.

Section page.
(** The catalogue, whether a router of react-router is above the page, and
    whether the page goes home when [home] is chosen. *)
Context (mockBooks : list Book) (inRouter : bool) (pushesHome : bool).

(** [handlePageChange] *)
Definition handlePageChange (page : string) (s : State) : State * list Effect :=
  (setCurrentPage page s,
   if pushesHome && bool_decide (page = "home") then [RouterPush "/"] else []).

(** ** Events *)

Inductive Event : Type :=
  | Bar (e : Navigation.Event)
  | Side (k : nat).

Definition fire (e : Event) (s : State) : option (State * list Effect) :=
  match e with
  | Bar e =>
      u ← Navigation.fire mockBooks inRouter e (nav s);
      let s' := withNav (Navigation.st u) s in
      Some (if Navigation.sidebarToggled u then handleSidebarToggle s' else s',
            Navigation.fx u)
  | Side k =>
      if Navigation.crashed mockBooks inRouter (nav s) then None
      else page ← Sidebar.handle (sidebarOpen s) (currentPage s) k;
           Some (handlePageChange page s)
  end.

Definition run (es : list Event) (s : State) : option (State * list Effect) :=
  runWith fire es s.

(** ** View *)

Record View : Type := {
  bar : Navigation.View;
  side : Sidebar.View
}.

Definition view (s : State) : View :=
  {| bar := Navigation.view mockBooks inRouter (nav s);
     side := Sidebar.view (sidebarOpen s) (currentPage s) |}.

(** ** Lemmas and theorems *)

(** The frame keeps the invariant of the bar. *)
Lemma shell_coherent_fire e s s' fx :
  fire e s = Some (s', fx) →
  Navigation.coherent mockBooks inRouter (nav s) → Navigation.coherent mockBooks inRouter (nav s').
Proof.
  destruct e as [e|k]; simpl.
  - destruct (Navigation.fire mockBooks inRouter e (nav s)) as [u|] eqn:Hu; [|done].
    simpl. intros [= <- <-] Hc. apply Navigation.nav_coherent_fire in Hu; [|done].
    by case_match.
  - case_match; [done|].
    destruct (Sidebar.handle _ _ k); [|done]. by intros [= <- <-].
Qed.

(** The menu button of the bar toggles the sidebar and
    touches nothing else; pressing it twice restores the frame. *)
Theorem menu_button_toggles_sidebar s :
  Navigation.crashed mockBooks inRouter (nav s) = false →
  Navigation.coherent mockBooks inRouter (nav s) →
  fire (Bar Navigation.ClickMenu) s = Some (handleSidebarToggle s, [])
  ∧ run [Bar Navigation.ClickMenu; Bar Navigation.ClickMenu] s = Some (s, []).
Proof.
  intros Hc Hn%Navigation.commit_fixed.
  assert (∀ t, nav t = nav s →
    fire (Bar Navigation.ClickMenu) t = Some (handleSidebarToggle t, [])) as Hf.
  { intros t Ht. unfold fire, Navigation.fire, Navigation.enabled. rewrite Ht, Hc.
    simpl. rewrite Hn. by destruct t; simplify_eq/=. }
  split; [by apply Hf|]. unfold run. cbn [runWith]. rewrite (Hf s eq_refl). cbn [mbind option_bind].
  rewrite (Hf (handleSidebarToggle s) eq_refl). simpl. destruct s. unfold handleSidebarToggle. simpl.
  by rewrite negb_involutive.
Qed.

(** Choosing an item stores its name as the current page and
    marks its button; the route changes only on the profile and the upload
    page and only for the item [home]. *)
Theorem sidebar_choice_sets_page k s s' fx :
  fire (Side k) s = Some (s', fx) →
  ∃ b, Sidebar.allButtons (Sidebar.view (sidebarOpen s) (currentPage s)) !! k = Some b
    ∧ currentPage s' = Sidebar.target b
    ∧ sidebarOpen s' = sidebarOpen s ∧ nav s' = nav s
    ∧ fx = (if pushesHome && bool_decide (Sidebar.target b = "home")
            then [RouterPush "/"] else []).
Proof.
  unfold fire, Sidebar.handle. case_match; [done|].
  destruct (_ !! k) as [b|]; [|done]. simpl. intros [= <- <-]. by exists b.
Qed.

End page.

(** ** Witnesses *)

Lemma menu_button_toggles_sidebar_witness :
  let s := init "home" in
  fire [] true false (Bar Navigation.ClickMenu) s = Some (handleSidebarToggle s, [])
  ∧ run [] true false [Bar Navigation.ClickMenu; Bar Navigation.ClickMenu] s
    = Some (s, []).
Proof.
  apply (menu_button_toggles_sidebar [] true false (init "home"));
    [reflexivity|apply Navigation.nav_coherent_init].
Defined.

Lemma sidebar_choice_sets_page_witness :
  ∃ b, Sidebar.allButtons (Sidebar.view true "profile") !! 0%nat = Some b
    ∧ currentPage (setCurrentPage "home" (init "profile")) = Sidebar.target b
    ∧ sidebarOpen (setCurrentPage "home" (init "profile")) = true
    ∧ nav (setCurrentPage "home" (init "profile")) = nav (init "profile")
    ∧ [RouterPush "/"]
      = (if true && bool_decide (Sidebar.target b = "home")
         then [RouterPush "/"] else []).
Proof.
  apply (sidebar_choice_sets_page [] true true 0 (init "profile")
           (setCurrentPage "home" (init "profile")) [RouterPush "/"]).
  reflexivity.
Defined.

End Shell.
