(* ===== verification/Upload.v ===== *)
(** * The upload page

    [UploadPage] models [src/app/upload/page.tsx]: the form data, the tag
    input, the flag [isUploading], the handlers of the fields, of the two
    file inputs, of the tags and of the form, and the simulated upload: a
    timeout of three seconds that nothing cancels.  The timeout is
    explicit state (the time each pending timer has left), and it outlives
    the page: after the page is unmounted its callback still runs, with
    its toast and its route change.

    The frame of the page (navigation bar and sidebar) is [Shell], with
    the item [home] leading to the home route. *)

From S2P Require Import Prelude Machine JsString Catalog Navigation Sidebar.

#[local] Open Scope Z_scope.

Import JsString BookStore.

Module UploadPage.

(** ** State *)

(** A [File] chosen in a file input; the page reads its name. *)
Record File : Type := { name : string }.

#[export] Instance File_eq_dec : EqDecision File.
Proof. solve_decision. Defined.

Record FormData : Type := {
  title : string;
  author : string;
  description : string;
  tags : list string;
  category : string;
  file : option File;
  thumbnail : option File
}.

#[export] Instance FormData_eq_dec : EqDecision FormData.
Proof. solve_decision. Defined.

Record State : Type := {
  shell : Shell.State;
  formData : FormData;
  tagInput : string;
  isUploading : bool;
  (** what each pending timeout has left, oldest first *)
  timers : list Z;
  mounted : bool
}.

Definition emptyForm : FormData :=
  {| title := ""; author := ""; description := ""; tags := []; category := "";
     file := None; thumbnail := None |}.

Definition init : State :=
  {| shell := Shell.init "upload"; formData := emptyForm; tagInput := "";
     isUploading := false; timers := []; mounted := true |}.

Definition setFormData (f : FormData → FormData) (s : State) : State :=
  {| shell := shell s; formData := f (formData s); tagInput := tagInput s;
     isUploading := isUploading s; timers := timers s; mounted := mounted s |}.

Definition setTagInput (v : string) (s : State) : State :=
  {| shell := shell s; formData := formData s; tagInput := v;
     isUploading := isUploading s; timers := timers s; mounted := mounted s |}.

Definition setIsUploading (b : bool) (s : State) : State :=
  {| shell := shell s; formData := formData s; tagInput := tagInput s;
     isUploading := b; timers := timers s; mounted := mounted s |}.

Definition withTimers (l : list Z) (s : State) : State :=
  {| shell := shell s; formData := formData s; tagInput := tagInput s;
     isUploading := isUploading s; timers := l; mounted := mounted s |}.

Definition withShell (sh : Shell.State) (s : State) : State :=
  {| shell := sh; formData := formData s; tagInput := tagInput s;
     isUploading := isUploading s; timers := timers s; mounted := mounted s |}.

Definition unmount (s : State) : State :=
  {| shell := shell s; formData := formData s; tagInput := tagInput s;
     isUploading := isUploading s; timers := timers s; mounted := false |}.

(** ** Handlers *)

(** The keys [handleInputChange] is called with. *)
Inductive Field : Type := Title | Author | Description | Category.

(** The keys [handleFileUpload] is called with. *)
Inductive FileField : Type := BookFile | Thumbnail.

Definition withTags (l : list string) (d : FormData) : FormData :=
  {| title := title d; author := author d; description := description d;
     tags := l; category := category d; file := file d; thumbnail := thumbnail d |}.

(** [{ ...prev, [field]: value }] *)
Definition handleInputChange (field : Field) (value : string) (d : FormData) : FormData :=
  match field with
  | Title =>
      {| title := value; author := author d; description := description d;
         tags := tags d; category := category d; file := file d;
         thumbnail := thumbnail d |}
  | Author =>
      {| title := title d; author := value; description := description d;
         tags := tags d; category := category d; file := file d;
         thumbnail := thumbnail d |}
  | Description =>
      {| title := title d; author := author d; description := value;
         tags := tags d; category := category d; file := file d;
         thumbnail := thumbnail d |}
  | Category =>
      {| title := title d; author := author d; description := description d;
         tags := tags d; category := value; file := file d;
         thumbnail := thumbnail d |}
  end.

Definition handleFileUpload (field : FileField) (f : File) (d : FormData) : FormData :=
  match field with
  | BookFile =>
      {| title := title d; author := author d; description := description d;
         tags := tags d; category := category d; file := Some f;
         thumbnail := thumbnail d |}
  | Thumbnail =>
      {| title := title d; author := author d; description := description d;
         tags := tags d; category := category d; file := file d;
         thumbnail := Some f |}
  end.

Definition handleAddTag (s : State) : State :=
  if nonBlank (tagInput s) && negb (bool_decide (trim (tagInput s) ∈ tags (formData s)))
  then setTagInput ""
         (setFormData (λ prev, withTags (tags prev ++ [trim (tagInput s)]) prev) s)
  else s.

Definition handleRemoveTag (tagToRemove : string) (s : State) : State :=
  setFormData (λ prev, withTags (filter (λ tag, tag ≠ tagToRemove) (tags prev)) prev) s.

Definition missingToast : Effect :=
  Toast "Missing Information"
    "Please fill in all required fields and upload a book file." true.

Definition successToast : Effect :=
  Toast "Upload Successful!"
    "Your book has been uploaded and is now available for readers." false.

(** The test of [handleSubmit]: a field is missing. *)
Definition incomplete (d : FormData) : bool :=
  negb (truthy (title d)) || negb (truthy (author d)) || negb (bool_decide (is_Some (file d))).

(** [handleSubmit]: the toast for a missing field, or the flag and a
    timeout of three seconds. *)
Definition handleSubmit (s : State) : State * list Effect :=
  if incomplete (formData s) then (s, [missingToast])
  else (withTimers (timers s ++ [3000]) (setIsUploading true s), []).

(** The callback of the timeout.  A state setter of a page that is gone
    does nothing; the toast and the route change happen. *)
Definition uploadDone (s : State) : State * list Effect :=
  ((if mounted s then setIsUploading false s else s), [successToast; RouterPush "/"]).

(** ** View *)

Record View : Type := {
  fileLabel : string;
  thumbnailLabel : string;
  titleInput : string;
  authorInput : string;
  descriptionInput : string;
  tagField : string;
  tagBadges : list string;
  categorySelect : string;
  submitDisabled : bool;
  submitLabel : string
}.

Definition view (s : State) : View :=
  let d := formData s in
  {| fileLabel :=
       match file d with
       | Some f => name f
       | None => "Click to upload your book (PDF, EPUB, MOBI)"
       end;
     thumbnailLabel :=
       match thumbnail d with
       | Some f => name f
       | None => "Click to upload book cover"
       end;
     titleInput := title d;
     authorInput := author d;
     descriptionInput := description d;
     tagField := tagInput s;
     tagBadges := tags d;
     categorySelect := category d;
     submitDisabled := isUploading s;
     submitLabel := if isUploading s then "Uploading..." else "Upload Book" |}.

(** The values of the category selector. *)
Definition categories : list string :=
  [""; "fiction"; "non-fiction"; "science"; "technology"; "history"; "biography";
   "children"; "educational"].

Section page.
Context (mockBooks : list Book) (inRouter : bool).

(** ** Events *)

Inductive Event : Type :=
  | Frame (e : Shell.Event)
  | TypeField (field : Field) (value : string)
  | ChooseFile (field : FileField) (f : option File)
  | TypeTag (value : string)
  | TagKey (key : string)
  | ClickAddTag
  | ClickRemoveTag (k : nat)
  | Submit
  | Elapse (ms : Z)
  | Timeout
  | Leave.

(** Time may pass as far as the next timeout. *)
Definition mayElapse (ms : Z) (l : list Z) : bool :=
  (0 <? ms) && forallb (λ t, ms <=? t) l.

(** User events need the page on the screen and the bar alive; the submit
    button, and with it the implicit submission of the form, is disabled
    while uploading; the clock and a timeout that is due need nothing. *)
Definition enabled (e : Event) (s : State) : bool :=
  match e with
  | Elapse ms => mayElapse ms (timers s)
  | Timeout => bool_decide (head (timers s) = Some 0)
  | Leave => mounted s
  | _ =>
      mounted s && negb (Navigation.crashed mockBooks inRouter (Shell.nav (shell s))) &&
      match e with
      | TypeField Category value => bool_decide (value ∈ categories)
      | ClickRemoveTag k => bool_decide (is_Some (tags (formData s) !! k))
      | Submit => negb (isUploading s)
      | _ => true
      end
  end.

Definition handle (e : Event) (s : State) : option (State * list Effect) :=
  match e with
  | Frame e =>
      '(sh, fx) ← Shell.fire mockBooks inRouter true e (shell s);
      Some (withShell sh s, fx)
  | TypeField field value => Some (setFormData (handleInputChange field value) s, [])
  | ChooseFile field (Some f) => Some (setFormData (handleFileUpload field f) s, [])
  | ChooseFile field None => Some (s, [])
  | TypeTag value => Some (setTagInput value s, [])
  | TagKey key => Some (if decide (key = "Enter") then handleAddTag s else s, [])
  | ClickAddTag => Some (handleAddTag s, [])
  | ClickRemoveTag k =>
      tag ← tags (formData s) !! k; Some (handleRemoveTag tag s, [])
  | Submit => Some (handleSubmit s)
  | Elapse ms => Some (withTimers ((λ t, t - ms) <$> timers s) s, [])
  | Timeout => Some (uploadDone (withTimers (tail (timers s)) s))
  | Leave => Some (unmount s, [])
  end.

Definition fire (e : Event) (s : State) : option (State * list Effect) :=
  if enabled e s then handle e s else None.

Definition run (es : list Event) (s : State) : option (State * list Effect) :=
  runWith fire es s.

Definition reachable (s : State) : Prop := reachableFrom fire init s.

(** ** Invariant *)

(** A tag as [handleAddTag] stores it. *)
Definition trimmed (t : string) : Prop := trim t = t ∧ t ≠ "".

(** The tags are a set of trimmed words; at most one upload is pending,
    with between zero and three seconds left; while the page is on the
    screen the flag says whether one is. *)
Definition wellFormed (s : State) : Prop :=
  NoDup (tags (formData s))
  ∧ Forall trimmed (tags (formData s))
  ∧ (length (timers s) ≤ 1)%nat
  ∧ Forall (λ t, 0 ≤ t ≤ 3000) (timers s)
  ∧ (mounted s = true → isUploading s = bool_decide (timers s ≠ [])).

(** ** Lemmas *)

Lemma incomplete_spec d :
  incomplete d = true ↔ title d = "" ∨ author d = "" ∨ file d = None.
Proof.
  unfold incomplete, truthy, string_truthy.
  rewrite !orb_true_iff, !negb_true_iff, bool_decide_eq_false.
  rewrite <- eq_None_not_Some. destruct (title d), (author d); naive_solver.
Qed.

Lemma trimmed_trim v : nonBlank v = true → trimmed (trim v).
Proof.
  unfold nonBlank, trimmed, truthy, string_truthy. intros Hv.
  split; [apply trim_idemp|]. by destruct (trim v).
Qed.

Lemma tags_handleInputChange field value d : tags (handleInputChange field value d) = tags d.
Proof. by destruct field. Qed.

Lemma tags_handleFileUpload field f d : tags (handleFileUpload field f d) = tags d.
Proof. by destruct field. Qed.

(** The part of the invariant that speaks of the tags. *)
Definition tagSet (l : list string) : Prop := NoDup l ∧ Forall trimmed l.

Lemma tagSet_handleAddTag s :
  tagSet (tags (formData s)) → tagSet (tags (formData (handleAddTag s))).
Proof.
  unfold handleAddTag. intros [Hn Ht].
  destruct (nonBlank (tagInput s)) eqn:Hv; [|done]. simpl.
  case_bool_decide; [done|]. simpl. split.
  - apply NoDup_app. split_and!; [done| |apply NoDup_singleton]. set_solver.
  - apply Forall_app. split; [done|]. constructor; [|done]. by apply trimmed_trim.
Qed.

Lemma tagSet_handleRemoveTag t s :
  tagSet (tags (formData s)) → tagSet (tags (formData (handleRemoveTag t s))).
Proof.
  intros [Hn Ht]. simpl. split; [by apply NoDup_filter|].
  rewrite Forall_forall in *. intros x [_ Hx]%list_elem_of_filter. by apply Ht.
Qed.

(** The part of the invariant that speaks of the timeout. *)
Definition oneUpload (s : State) : Prop :=
  (length (timers s) ≤ 1)%nat
  ∧ Forall (λ t, 0 ≤ t ≤ 3000) (timers s)
  ∧ (mounted s = true → isUploading s = bool_decide (timers s ≠ [])).

Lemma oneUpload_handleSubmit s :
  oneUpload s → mounted s = true → isUploading s = false →
  oneUpload (handleSubmit s).1.
Proof.
  intros (Hl & Hf & Hm) Hmo Hu. unfold handleSubmit. case_match; [done|].
  specialize (Hm Hmo). rewrite Hu in Hm. symmetry in Hm.
  apply bool_decide_eq_false in Hm. apply dec_stable in Hm.
  unfold oneUpload. simpl. rewrite Hm. simpl. split_and!; [lia| |done].
  by repeat constructor.
Qed.

Lemma oneUpload_elapse ms s :
  oneUpload s → mayElapse ms (timers s) = true →
  oneUpload (withTimers ((λ t, t - ms) <$> timers s) s).
Proof.
  intros (Hl & Hf & Hm) [Hms Ha]%andb_true_iff. unfold oneUpload. simpl.
  rewrite length_fmap. split_and!; [done| |].
  - rewrite Forall_fmap, Forall_forall in *. intros t Ht. simpl.
    rewrite forallb_forall in Ha. specialize (Hf t Ht).
    apply list_elem_of_In, Ha, Z.leb_le in Ht. apply Z.ltb_lt in Hms. lia.
  - intros Hmo. rewrite (Hm Hmo). by destruct (timers s).
Qed.

Lemma oneUpload_timeout s :
  oneUpload s → head (timers s) = Some 0 →
  oneUpload (uploadDone (withTimers (tail (timers s)) s)).1
  ∧ timers s = [0].
Proof.
  intros (Hl & Hf & Hm) Hh. destruct (timers s) as [|t [|t' l]] eqn:Ht;
    simplify_eq/=; [|lia].
  split; [|done]. unfold oneUpload, uploadDone. simpl.
  destruct (mounted s) eqn:Hmo; simpl; (split_and!; [lia|constructor|]);
    [by intros _|by rewrite Hmo].
Qed.

Lemma wellFormed_split s :
  wellFormed s ↔ tagSet (tags (formData s)) ∧ oneUpload s.
Proof. unfold wellFormed, tagSet, oneUpload. tauto. Qed.

Lemma wellFormed_init : wellFormed init.
Proof.
  unfold wellFormed. simpl. split_and!; try done; try constructor. lia.
Qed.

Lemma oneUpload_same s s' :
  timers s' = timers s → mounted s' = mounted s → isUploading s' = isUploading s →
  oneUpload s → oneUpload s'.
Proof. unfold oneUpload. by intros -> -> ->. Qed.

Lemma handleAddTag_frame s :
  timers (handleAddTag s) = timers s ∧ mounted (handleAddTag s) = mounted s
  ∧ isUploading (handleAddTag s) = isUploading s.
Proof. unfold handleAddTag. by case_match. Qed.

Lemma wellFormed_handleAddTag s : wellFormed s → wellFormed (handleAddTag s).
Proof.
  rewrite !wellFormed_split. intros [Ht Hu].
  destruct (handleAddTag_frame s) as (? & ? & ?).
  split; [by apply tagSet_handleAddTag|by apply (oneUpload_same s)].
Qed.

Lemma wellFormed_handle e s s' fx :
  wellFormed s → enabled e s = true → handle e s = Some (s', fx) → wellFormed s'.
Proof.
  intros Hw He. pose proof Hw as [Ht Hu]%wellFormed_split.
  destruct e; simpl.
  - destruct (Shell.fire _ _ _ _ _) as [[sh fx']|]; [|done]. by intros [= <- <-].
  - intros [= <- <-]. apply wellFormed_split. simpl.
    by rewrite tags_handleInputChange.
  - destruct f; intros [= <- <-]; [|done]. apply wellFormed_split. simpl.
    by rewrite tags_handleFileUpload.
  - by intros [= <- <-].
  - intros [= <- <-]. case_decide; [by apply wellFormed_handleAddTag|done].
  - intros [= <- <-]. by apply wellFormed_handleAddTag.
  - destruct (_ !! k) as [tag|]; [|done]. intros [= <- <-].
    apply wellFormed_split. split; [by apply tagSet_handleRemoveTag|done].
  - intros [= Hs]. simpl in He.
    apply andb_true_iff in He as [[Hm _]%andb_true_iff Hn%negb_true_iff].
    apply wellFormed_split. replace s' with (handleSubmit s).1 by by rewrite Hs.
    split; [unfold handleSubmit; by case_match|by apply oneUpload_handleSubmit].
  - intros [= <- <-]. apply wellFormed_split. split; [done|by apply oneUpload_elapse].
  - intros [= <- <-]. apply bool_decide_eq_true in He. apply wellFormed_split.
    split; [by case_match|exact (proj1 (oneUpload_timeout s Hu He))].
  - intros [= <- <-]. apply wellFormed_split. split; [done|].
    destruct Hu as (? & ? & ?). by split_and!.
Qed.

Lemma wellFormed_fire e s s' fx :
  wellFormed s → fire e s = Some (s', fx) → wellFormed s'.
Proof.
  unfold fire. destruct (enabled e s) eqn:He; [|done]. intros.
  by eapply wellFormed_handle.
Qed.

Lemma wellFormed_reachable s : reachable s → wellFormed s.
Proof. apply reachable_invariant; [apply wellFormed_init|eauto using wellFormed_fire]. Qed.

Lemma filter_ne_snoc (l : list string) t :
  t ∉ l → filter (λ tag, tag ≠ t) (l ++ [t]) = l.
Proof.
  intros Hn. rewrite filter_app, filter_cons, decide_False, filter_nil by naive_solver.
  rewrite List.app_nil_r. induction l as [|x l IH]; [done|].
  rewrite filter_cons, decide_True by set_solver. f_equal. apply IH. set_solver.
Qed.

Lemma mayElapse_single ms t : 0 < ms ≤ t → mayElapse ms [t] = true.
Proof.
  intros Hms. unfold mayElapse. simpl.
  by rewrite (proj2 (Z.ltb_lt 0 ms)), (proj2 (Z.leb_le ms t)) by lia.
Qed.

(** The state a complete submit leads to. *)
Definition uploading (s : State) : State :=
  withTimers (timers s ++ [3000]) (setIsUploading true s).

Lemma submit_starts s :
  wellFormed s → enabled Submit s = true → incomplete (formData s) = false →
  fire Submit s = Some (uploading s, []) ∧ timers s = [] ∧ mounted s = true
  ∧ isUploading s = false.
Proof.
  intros (_ & _ & _ & _ & Hm) He Hi. unfold fire, handle, handleSubmit.
  rewrite He, Hi. simpl in He.
  apply andb_true_iff in He as [[Hmo _]%andb_true_iff Hu%negb_true_iff].
  specialize (Hm Hmo). rewrite Hu in Hm. symmetry in Hm.
  apply bool_decide_eq_false in Hm. by apply dec_stable in Hm.
Qed.

(** ** Theorems *)

(** C5: in every state the page reaches, the tags are pairwise
    distinct, trimmed and not empty; at most one upload is pending, with
    between zero and three seconds left; and while the page is on the
    screen [isUploading] says whether one is. *)
Theorem upload_state_invariant s :
  reachable s →
  NoDup (tags (formData s))
  ∧ Forall (λ t, trim t = t ∧ t ≠ "") (tags (formData s))
  ∧ (length (timers s) ≤ 1)%nat
  ∧ Forall (λ t, 0 ≤ t ≤ 3000) (timers s)
  ∧ (mounted s = true → isUploading s = bool_decide (timers s ≠ [])).
Proof. apply wellFormed_reachable. Qed.

(** C26: without a title, an author or a book file the submit
    handler requests the destructive toast and changes nothing: no flag,
    no timeout. *)
Theorem incomplete_submit_is_refused s :
  title (formData s) = "" ∨ author (formData s) = "" ∨ file (formData s) = None →
  handleSubmit s = (s, [missingToast]).
Proof. intros H%incomplete_spec. unfold handleSubmit. by rewrite H. Qed.

(** C38: the required fields are tested for emptiness, not for
    content: a title of blanks passes and the upload starts, while the
    tag handler of the same form, which trims, refuses the same text as a
    tag. *)
Theorem blank_title_is_accepted s f :
  title (formData s) ≠ "" → blank (title (formData s)) = true →
  author (formData s) ≠ "" → file (formData s) = Some f →
  handleSubmit s = (uploading s, [])
  ∧ handleAddTag (setTagInput (title (formData s)) s)
    = setTagInput (title (formData s)) s.
Proof.
  intros Ht Hb Ha Hf. split.
  - unfold handleSubmit. destruct (incomplete (formData s)) eqn:Hi; [|done].
    apply incomplete_spec in Hi. naive_solver.
  - unfold handleAddTag. simpl.
    destruct (nonBlank (title (formData s))) eqn:Hn; [|done].
    apply nonBlank_spec in Hn. congruence.
Qed.

(** C21: a complete submit raises the flag; exactly three seconds
    later the timeout requests the toast and the home route and lowers
    the flag, so that the page is as before the submit; no earlier moment
    triggers the timeout. *)
Theorem upload_completes_after_three_seconds s :
  wellFormed s → enabled Submit s = true → incomplete (formData s) = false →
  run [Submit; Elapse 3000; Timeout] s = Some (s, [successToast; RouterPush "/"])
  ∧ ∀ ms, 0 < ms < 3000 → run [Submit; Elapse ms; Timeout] s = None.
Proof.
  intros Hw He Hi. destruct (submit_starts s Hw He Hi) as (Hf & Ht & Hm & Hu).
  unfold run. cbn [runWith]. rewrite Hf. cbn [mbind option_bind]. unfold uploading.
  rewrite Ht. split.
  - unfold fire. simpl. rewrite Hm. simpl. do 2 f_equal.
    destruct s; simpl in *. by subst.
  - intros ms Hms. unfold fire. simpl. rewrite mayElapse_single by lia. simpl.
    rewrite bool_decide_eq_false_2; [done|]. intros [= ?]. lia.
Qed.

(** C14: nothing cancels the timeout.  When the page is left during
    the upload, the callback still runs after three seconds and requests
    the toast and the home route; the flag of the page that is gone stays
    raised. *)
Theorem upload_outlives_page s :
  wellFormed s → enabled Submit s = true → incomplete (formData s) = false →
  run [Submit; Leave; Elapse 3000; Timeout] s
  = Some (unmount (setIsUploading true s), [successToast; RouterPush "/"]).
Proof.
  intros Hw He Hi. destruct (submit_starts s Hw He Hi) as (Hf & Ht & Hm & Hu).
  unfold run. cbn [runWith]. rewrite Hf. cbn [mbind option_bind]. unfold uploading.
  rewrite Ht. unfold fire. simpl. rewrite Hm. simpl. do 2 f_equal.
  destruct s; simpl in *. by subst.
Qed.

(** The timeout itself apart, no event removes a pending
    upload. *)
Theorem no_event_cancels_upload e s s' fx :
  fire e s = Some (s', fx) → e ≠ Timeout →
  (length (timers s) ≤ length (timers s'))%nat.
Proof.
  unfold fire. destruct (enabled e s); [|done].
  destruct e; simpl; try (by intros [= <- <-]); try done.
  - destruct (Shell.fire _ _ _ _ _) as [[sh fx']|]; [|done]. by intros [= <- <-].
  - destruct f; by intros [= <- <-].
  - intros [= <- <-] _. case_decide; [|done]. by destruct (handleAddTag_frame s) as [-> _].
  - intros [= <- <-] _. by destruct (handleAddTag_frame s) as [-> _].
  - destruct (_ !! k); [|done]. by intros [= <- <-].
  - unfold handleSubmit. case_match; intros [= <- <-] _; simpl;
      rewrite ?List.length_app; lia.
  - intros [= <- <-] _. simpl. by rewrite length_fmap.
Qed.

(** C39: adding a new tag appends its trimmed text and clears the
    input; removing it again restores the tags; adding a tag that is
    already there changes nothing and leaves the text in the input. *)
Theorem tag_add_remove_roundtrip v s :
  nonBlank v = true → trim v ∉ tags (formData s) →
  let s1 := handleAddTag (setTagInput v s) in
  tags (formData s1) = tags (formData s) ++ [trim v] ∧ tagInput s1 = ""
  ∧ tags (formData (handleRemoveTag (trim v) s1)) = tags (formData s)
  ∧ handleAddTag (setTagInput v s1) = setTagInput v s1.
Proof.
  intros Hv Hn. simpl. unfold handleAddTag. simpl. rewrite Hv.
  rewrite bool_decide_eq_false_2 by done. simpl. split_and!; [done..| |].
  - by apply filter_ne_snoc.
  - rewrite bool_decide_eq_true_2; [done|]. set_solver.
Qed.

End page.

(** ** Witnesses *)

Definition demoForm : FormData :=
  {| title := "Dune"; author := "Frank Herbert"; description := ""; tags := ["sci-fi"];
     category := "fiction"; file := Some {| name := "dune.pdf" |}; thumbnail := None |}.

Definition demoReady : State := setFormData (λ _, demoForm) init.

Definition demoBlankTitle : State :=
  setFormData (handleInputChange Title "  ") demoReady.

Lemma demoReady_reachable : reachable [] true demoReady.
Proof.
  apply (runWith_reachable _ _
           [TypeField Title "Dune"; TypeField Author "Frank Herbert";
            TypeField Category "fiction";
            ChooseFile BookFile (Some {| name := "dune.pdf" |});
            TypeTag " sci-fi "; ClickAddTag] init demoReady []);
    [apply reachable_here|reflexivity].
Qed.

Lemma demoReady_wellFormed : wellFormed demoReady.
Proof. apply (wellFormed_reachable [] true), demoReady_reachable. Qed.

Lemma upload_state_invariant_witness :
  NoDup (tags (formData demoReady))
  ∧ Forall (λ t, trim t = t ∧ t ≠ "") (tags (formData demoReady))
  ∧ (length (timers demoReady) ≤ 1)%nat
  ∧ Forall (λ t, 0 ≤ t ≤ 3000) (timers demoReady)
  ∧ (mounted demoReady = true →
     isUploading demoReady = bool_decide (timers demoReady ≠ [])).
Proof. apply (upload_state_invariant [] true demoReady), demoReady_reachable. Defined.

Lemma incomplete_submit_is_refused_witness : handleSubmit init = (init, [missingToast]).
Proof. apply (incomplete_submit_is_refused init). by left. Defined.

Lemma blank_title_is_accepted_witness :
  handleSubmit demoBlankTitle = (uploading demoBlankTitle, [])
  ∧ handleAddTag (setTagInput (title (formData demoBlankTitle)) demoBlankTitle)
    = setTagInput (title (formData demoBlankTitle)) demoBlankTitle.
Proof.
  apply (blank_title_is_accepted demoBlankTitle {| name := "dune.pdf" |}); done.
Defined.

Lemma upload_completes_after_three_seconds_witness :
  run [] true [Submit; Elapse 3000; Timeout] demoReady
    = Some (demoReady, [successToast; RouterPush "/"])
  ∧ ∀ ms, 0 < ms < 3000 → run [] true [Submit; Elapse ms; Timeout] demoReady = None.
Proof.
  apply (upload_completes_after_three_seconds [] true demoReady);
    [apply demoReady_wellFormed|reflexivity..].
Defined.

Lemma upload_outlives_page_witness :
  run [] true [Submit; Leave; Elapse 3000; Timeout] demoReady
  = Some (unmount (setIsUploading true demoReady), [successToast; RouterPush "/"]).
Proof.
  apply (upload_outlives_page [] true demoReady);
    [apply demoReady_wellFormed|reflexivity..].
Defined.

Lemma no_event_cancels_upload_witness :
  (length (timers (uploading demoReady))
   ≤ length (timers (unmount (uploading demoReady))))%nat.
Proof.
  apply (no_event_cancels_upload [] true Leave (uploading demoReady)
           (unmount (uploading demoReady)) []); [reflexivity|done].
Defined.

Lemma tag_add_remove_roundtrip_witness :
  let s1 := handleAddTag (setTagInput " epic " demoReady) in
  tags (formData s1) = tags (formData demoReady) ++ [trim " epic "] ∧ tagInput s1 = ""
  ∧ tags (formData (handleRemoveTag (trim " epic ") s1)) = tags (formData demoReady)
  ∧ handleAddTag (setTagInput " epic " s1) = setTagInput " epic " s1.
Proof.
  apply (tag_add_remove_roundtrip " epic " demoReady); [reflexivity|by_compute].
Defined.

End UploadPage.
