(* ===== verification/Pages.v ===== *)
(** * The home page and the profile page

    [HomePage] models [src/app/page.tsx]: the frame, the four featured
    categories, the three grids cut from the catalogue, and the click on a
    book, which loads the book route by assigning [window.location.href].
    [ProfilePage] models [src/app/profile/page.tsx]: the frame, the fixed
    user profile and its labels, the subscribe button, the four tabs with
    the three lists cut from the catalogue, and the click on a book, which
    pushes the book route on the router.

    The tabs of the profile page are a library component; the tab on the
    screen is kept as state here, starting at [books] as [defaultValue]
    says.  The locale date of [formatDate] is a section variable. *)

From S2P Require Import Prelude JsString Numbers Catalog Cards Navigation Sidebar.

#[local] Open Scope Z_scope.

Import BookStore.

Module HomePage.

Inductive Icon : Type := TrendingUp | Clock | Star | Users.

Record Category : Type := {
  name : string;
  icon : Icon;
  color : string
}.

Definition featuredCategories : list Category := [
  {| name := "Trending"; icon := TrendingUp; color := "bg-destructive" |};
  {| name := "New Releases"; icon := Clock; color := "bg-accent" |};
  {| name := "Top Rated"; icon := Star; color := "bg-yellow" |};
  {| name := "Popular"; icon := Users; color := "bg-green" |}
].

(** [useState(true)] and [useState('home')] *)
Definition init : Shell.State := Shell.init "home".

(** [window.location.href = `/book/${bookId}`] *)
Definition handleBookClick (bookId : string) : list Effect :=
  [SetLocation ("/book/" +:+ bookId)].

Inductive Grid : Type := Trending | Recent | Popular.

Section page.
Context (mockBooks : list Book) (inRouter : bool) (getTime : string → Z).

(** The books of each grid. *)
Definition books (g : Grid) : list Book :=
  match g with
  | Trending => mockBooks
  | Recent => slice 0 4 mockBooks
  | Popular => slice 2 6 mockBooks
  end.

Record Tile : Type := {
  tileName : string;
  tileIcon : Icon;
  tileCount : string
}.

Record View : Type := {
  frame : Shell.View;
  tiles : list Tile;
  trending : list BookCard.View;
  recent : list BookCard.View;
  popular : list BookCard.View
}.

Definition view (now : Z) (s : Shell.State) : View :=
  {| frame := Shell.view mockBooks inRouter s;
     tiles := (λ c, {| tileName := name c; tileIcon := icon c;
                       tileCount := "42 books" |}) <$> featuredCategories;
     trending := BookGrid.view getTime now (books Trending);
     recent := BookGrid.view getTime now (books Recent);
     popular := BookGrid.view getTime now (books Popular) |}.

Inductive Event : Type :=
  | Frame (e : Shell.Event)
  | Card (g : Grid) (k : nat) (e : BookCard.Event).

Definition fire (e : Event) (s : Shell.State) : option (Shell.State * list Effect) :=
  match e with
  | Frame e => Shell.fire mockBooks inRouter false e s
  | Card g k e =>
      if Navigation.crashed mockBooks inRouter (Shell.nav s) then None
      else
        _ ← books g !! k;
        Some (s, from_option handleBookClick [] (BookGrid.handle (books g) k e))
  end.

(** ** Theorems *)

(** The second grid shows the first four books of the catalogue
    and the third grid the books at positions two to five, so the books
    at positions two and three are in both. *)
Theorem home_grids_overlap k :
  (length (books Recent) ≤ 4)%nat ∧ (length (books Popular) ≤ 4)%nat
  ∧ books Recent !! k = (if decide (k < 4)%nat then mockBooks !! k else None)
  ∧ books Popular !! k = (if decide (k < 4)%nat then mockBooks !! (2 + k)%nat else None)
  ∧ (k < 2 → books Popular !! k = books Recent !! (2 + k)%nat)%nat.
Proof.
  unfold books, slice. rewrite !length_take, drop_0. split_and!; [lia..| | |].
  - case_decide; [by rewrite lookup_take_lt|by rewrite lookup_take_ge by lia].
  - case_decide; [by rewrite lookup_take_lt, lookup_drop|
                  by rewrite lookup_take_ge by lia].
  - intros Hk. by rewrite !lookup_take_lt, lookup_drop by lia.
Qed.

(** A click on a card of any grid assigns the route of that
    book to the location, leaving the state of the page as it is; the two
    buttons on a card do nothing. *)
Theorem home_click_loads_book g k b s :
  Navigation.crashed mockBooks inRouter (Shell.nav s) = false → books g !! k = Some b →
  fire (Card g k BookCard.ClickCard) s = Some (s, [SetLocation ("/book/" +:+ id b)])
  ∧ fire (Card g k BookCard.ClickLike) s = Some (s, [])
  ∧ fire (Card g k BookCard.ClickBookmark) s = Some (s, [])
  ∧ b ∈ mockBooks.
Proof.
  intros Hc Hk. unfold fire, BookGrid.handle. rewrite Hc, Hk. simpl.
  split_and!; [done..|]. apply list_elem_of_lookup_2 in Hk.
  destruct g; simpl in Hk; [done|eapply elem_of_sublist..]; eauto using slice_sublist.
Qed.

(** On the home page a choice in the sidebar changes the
    marked item and nothing else: no route, no content. *)
Theorem home_sidebar_never_navigates k s s' fx now :
  fire (Frame (Shell.Side k)) s = Some (s', fx) →
  fx = [] ∧ Shell.nav s' = Shell.nav s
  ∧ trending (view now s') = trending (view now s)
  ∧ tiles (view now s') = tiles (view now s).
Proof.
  unfold fire, Shell.fire. case_match; [done|].
  destruct (Sidebar.handle _ _ k) as [page|]; [|done]. by intros [= <- <-].
Qed.

End page.

(** ** Witnesses *)

Lemma home_click_loads_book_witness :
  let s := init in
  fire demoCatalogue true (Card Trending 1 BookCard.ClickCard) s
  = Some (s, [SetLocation "/book/2"])
  ∧ fire demoCatalogue true (Card Trending 1 BookCard.ClickLike) s = Some (s, [])
  ∧ fire demoCatalogue true (Card Trending 1 BookCard.ClickBookmark) s = Some (s, [])
  ∧ demoEmma ∈ demoCatalogue.
Proof.
  apply (home_click_loads_book demoCatalogue true Trending 1 demoEmma init); reflexivity.
Defined.

Lemma home_sidebar_never_navigates_witness :
  let s' := Shell.setCurrentPage "shorts" init in
  @nil Effect = [] ∧ Shell.nav s' = Shell.nav init
  ∧ trending (view demoCatalogue true (λ _, 0) 0 s')
    = trending (view demoCatalogue true (λ _, 0) 0 init)
  ∧ tiles (view demoCatalogue true (λ _, 0) 0 s') = tiles (view demoCatalogue true (λ _, 0) 0 init).
Proof.
  apply (home_sidebar_never_navigates demoCatalogue true (λ _, 0) 1 init
           (Shell.setCurrentPage "shorts" init) [] 0).
  reflexivity.
Defined.

End HomePage.

Module ProfilePage.

Record UserProfile : Type := {
  name : string;
  avatar : string;
  subscribers : Z;
  totalViews : Z;
  booksUploaded : Z;
  joinedDate : string;
  bio : string;
  isVerified : bool
}.

Definition userProfile : UserProfile :=
  {| name := "BookLover123";
     avatar := "/placeholder-avatar.jpg";
     subscribers := 12500;
     totalViews := 2450000;
     booksUploaded := 8;
     joinedDate := "2022-03-15";
     bio := "Passionate about literature and sharing great books with the world. "
            +:+ "I love classic novels, science fiction, and educational content.";
     isVerified := true |}.

Inductive Tab : Type := Books | Liked | Saved | Playlists.

#[export] Instance Tab_eq_dec : EqDecision Tab.
Proof. solve_decision. Defined.

Record State : Type := {
  shell : Shell.State;
  isSubscribed : bool;
  tab : Tab
}.

Definition init : State :=
  {| shell := Shell.init "profile"; isSubscribed := false; tab := Books |}.

Definition handleSubscribe (s : State) : State :=
  {| shell := shell s; isSubscribed := negb (isSubscribed s); tab := tab s |}.

Definition setTab (t : Tab) (s : State) : State :=
  {| shell := shell s; isSubscribed := isSubscribed s; tab := t |}.

Definition withShell (sh : Shell.State) (s : State) : State :=
  {| shell := sh; isSubscribed := isSubscribed s; tab := tab s |}.

(** [router.push(`/book/${bookId}`)] *)
Definition handleBookClick (bookId : string) : list Effect :=
  [RouterPush ("/book/" +:+ bookId)].

Definition formatNumber (num : Z) : string := JsNumber.formatViews num.

Section page.
Context (mockBooks : list Book) (inRouter : bool).
Context (getTime : string → Z) (formatDate : string → string).

Definition userBooks : list Book :=
  filter (λ book, uploader book = name userProfile) mockBooks.

Definition likedBooks : list Book := slice 0 3 mockBooks.

Definition savedBooks : list Book := slice 3 6 mockBooks.

(** The list behind a tab; the last tab has none. *)
Definition books (t : Tab) : list Book :=
  match t with
  | Books => userBooks
  | Liked => likedBooks
  | Saved => savedBooks
  | Playlists => []
  end.

Record Header : Type := {
  heading : string;
  fallback : string;
  verifiedBadge : bool;
  subscribersLabel : string;
  booksLabel : string;
  viewsLabel : string;
  joinedLabel : string;
  about : string;
  subscribeLabel : string;
  subscribeOutlined : bool
}.

Inductive Panel : Type :=
  | Grid (title description : string) (cards : list BookCard.View)
  | NoLists.

Record View : Type := {
  frame : Shell.View;
  header : Header;
  panel : Panel
}.

Definition view (now : Z) (s : State) : View :=
  {| frame := Shell.view mockBooks inRouter (shell s);
     header :=
       {| heading := name userProfile;
          fallback := charAt 0 (name userProfile);
          verifiedBadge := isVerified userProfile;
          subscribersLabel := formatNumber (subscribers userProfile) +:+ " subscribers";
          booksLabel := pretty (booksUploaded userProfile) +:+ " books";
          viewsLabel := formatNumber (totalViews userProfile) +:+ " views";
          joinedLabel := "Joined " +:+ formatDate (joinedDate userProfile);
          about := bio userProfile;
          subscribeLabel := if isSubscribed s then "Subscribed" else "Subscribe";
          subscribeOutlined := isSubscribed s |};
     panel :=
       match tab s with
       | Books =>
           Grid "Uploaded Books" ("Books uploaded by " +:+ name userProfile)
             (BookGrid.view getTime now userBooks)
       | Liked => Grid "Liked Books" "Books you've liked" (BookGrid.view getTime now likedBooks)
       | Saved =>
           Grid "Saved Books" "Books you've saved for later"
             (BookGrid.view getTime now savedBooks)
       | Playlists => NoLists
       end |}.

Inductive Event : Type :=
  | Frame (e : Shell.Event)
  | ClickSubscribe
  | ClickEditProfile
  | SelectTab (t : Tab)
  | Card (k : nat) (e : BookCard.Event)
  | ClickCreateReadingList.

Definition fire (e : Event) (s : State) : option (State * list Effect) :=
  if Navigation.crashed mockBooks inRouter (Shell.nav (shell s)) then None
  else
    match e with
    | Frame e =>
        '(sh, fx) ← Shell.fire mockBooks inRouter true e (shell s);
        Some (withShell sh s, fx)
    | ClickSubscribe => Some (handleSubscribe s, [])
    | ClickEditProfile => Some (s, [])
    | SelectTab t => Some (setTab t s, [])
    | Card k e =>
        _ ← books (tab s) !! k;
        Some (s, from_option handleBookClick [] (BookGrid.handle (books (tab s)) k e))
    | ClickCreateReadingList =>
        if decide (tab s = Playlists) then Some (s, []) else None
    end.

(** ** Theorems *)

(** The header shows the fixed profile: [12.5K subscribers],
    [2.5M views] and [8 books], whatever the catalogue holds for this
    uploader. *)
Theorem profile_labels now s :
  let h := header (view now s) in
  subscribersLabel h = "12.5K subscribers" ∧ viewsLabel h = "2.5M views"
  ∧ booksLabel h = "8 books"
  ∧ subscribeLabel h = (if isSubscribed s then "Subscribed" else "Subscribe").
Proof. simpl. split_and!; [by vm_compute..|done]. Qed.

(** The liked list is the first three books of the
    catalogue and the saved list the next three; in a catalogue without
    repeated books no book is in both. *)
Theorem liked_and_saved_are_disjoint :
  NoDup mockBooks →
  likedBooks = take 3 mockBooks ∧ savedBooks = take 3 (drop 3 mockBooks)
  ∧ ∀ b, b ∈ likedBooks → b ∉ savedBooks.
Proof.
  intros Hnd. unfold likedBooks, savedBooks, slice. rewrite drop_0.
  split_and!; [done..|]. intros b Hl Hs.
  rewrite <- (take_drop 3 mockBooks) in Hnd. apply NoDup_app in Hnd as (_ & Hd & _).
  apply (Hd b Hl). eapply elem_of_sublist; [done|apply sublist_take].
Qed.

(** A click on a card of the tab on the screen pushes the
    route of that book; the buttons without a handler do nothing. *)
Theorem profile_click_pushes_book k b s :
  Navigation.crashed mockBooks inRouter (Shell.nav (shell s)) = false →
  books (tab s) !! k = Some b →
  fire (Card k BookCard.ClickCard) s = Some (s, [RouterPush ("/book/" +:+ id b)])
  ∧ fire ClickEditProfile s = Some (s, [])
  ∧ b ∈ mockBooks.
Proof.
  intros Hc Hk. unfold fire, BookGrid.handle. rewrite Hc, Hk. simpl.
  split_and!; [done..|]. apply list_elem_of_lookup_2 in Hk.
  destruct (tab s); simpl in Hk.
  - by apply list_elem_of_filter in Hk as [_ ?].
  - eapply elem_of_sublist; [done|apply slice_sublist].
  - eapply elem_of_sublist; [done|apply slice_sublist].
  - by apply elem_of_nil in Hk.
Qed.

(** The subscribe button toggles the flag; two clicks restore
    the page. *)
Theorem subscribe_twice_restores s :
  isSubscribed (handleSubscribe s) = negb (isSubscribed s)
  ∧ handleSubscribe (handleSubscribe s) = s.
Proof. destruct s. unfold handleSubscribe. simpl. by rewrite negb_involutive. Qed.

End page.

(** ** Witnesses *)

Lemma liked_and_saved_are_disjoint_witness :
  likedBooks demoCatalogue = take 3 demoCatalogue
  ∧ savedBooks demoCatalogue = take 3 (drop 3 demoCatalogue)
  ∧ ∀ b, b ∈ likedBooks demoCatalogue → b ∉ savedBooks demoCatalogue.
Proof.
  apply (liked_and_saved_are_disjoint demoCatalogue).
  apply (NoDup_fmap_1 id). by_compute.
Defined.

Lemma profile_click_pushes_book_witness :
  let s := setTab Liked init in
  fire demoCatalogue true (Card 0 BookCard.ClickCard) s = Some (s, [RouterPush "/book/1"])
  ∧ fire demoCatalogue true ClickEditProfile s = Some (s, [])
  ∧ demoDune ∈ demoCatalogue.
Proof.
  apply (profile_click_pushes_book demoCatalogue true 0 demoDune (setTab Liked init));
    reflexivity.
Defined.

End ProfilePage.
