(* ===== verification/BookPage.v ===== *)
(** * The book page

    [BookPage] models [src/app/book/[bookId]/page.tsx], the page that puts
    the components together: the frame, the reader, the comment section
    and the recommendation panel.  Its state is the state of the frame,
    the comments with the form of the comment section, and the reader
    with the two page counters the page owns.

    The point of the file is the interaction.  The reader's interval
    effect depends on the [onPageChange] property, which the page creates
    anew on every render; so every event that changes state of the page
    (the sidebar, a reaction to a comment, a posted comment, a selected
    recommendation) makes the reader run its effect again and start the
    period afresh, while events that change state of a child only (typing
    in a form, the search bar) do not.  [rerender] is that rule. *)

From S2P Require Import Prelude Machine JsString Numbers Catalog Cards FlipBook Reading.
From S2P Require Import Comments.
From S2P Require Import Navigation Sidebar.

#[local] Open Scope Z_scope.

Module BookPage.

Record State : Type := {
  shell : Shell.State;
  section : CommentSection.State;
  reader : BookReader.State
}.

Definition withReader (r : BookReader.State) (s : State) : State :=
  {| shell := shell s; section := section s; reader := r |}.

Section page.
(** The two fixtures, whether a router of react-router is above the page,
    whether the browser has speech synthesis, and the route parameter. *)
Context (mockBooks : list BookStore.Book) (mockComments : list CommentThread.Comment).
Context (inRouter speech : bool) (bookId : string).

(** [mockBooks.find(b => b.id === bookId)] *)
Definition book : option BookStore.Book := BookStore.findBook mockBooks bookId.

(** The initial value of [bookState]. *)
Definition initialBookState : BookReader.BookState :=
  {| BookReader.currentPage := opt_or (book ≫= BookStore.currentPage) 1;
     BookReader.totalPages := opt_or (book ≫= BookStore.totalPages) 120 |}.

(** The page after its first render; the reader is mounted only when the
    book exists. *)
Definition init : State :=
  {| shell := Shell.init "home";
     section := {| CommentSection.form := CommentSection.init;
                   CommentSection.comments := mockComments |};
     reader :=
       match book with
       | Some _ => BookReader.init initialBookState
       | None => BookReader.unmount (BookReader.init initialBookState)
       end |}.

(** The [onBookSelect] property of the recommendation panel. *)
Definition onBookSelect (id : string) : BookReader.BookState :=
  {| BookReader.currentPage := 1;
     BookReader.totalPages :=
       opt_or (BookStore.findBook mockBooks id ≫= BookStore.totalPages) 120 |}.

(** ** Events *)

Inductive Event : Type :=
  | Frame (e : Shell.Event)
  | ClickBack
  | Reader (e : BookReader.Event)
  | Comments (e : CommentSection.Event)
  | SelectBook (k : nat)
  | Leave.

(** The events of the reader that come from the user or the clock; the
    others are the page's. *)
Definition fromUser (e : BookReader.Event) : bool :=
  match e with
  | BookReader.SelectBook _ | BookReader.ParentRender | BookReader.Unmount => false
  | _ => true
  end.

(** Whether the event of the comment section calls a handler of the page,
    each of which sets [comments] to a new array. *)
Definition notifies (e : CommentSection.Event) : bool :=
  match e with
  | CommentSection.ClickComment _ _ | CommentSection.ClickLike _
  | CommentSection.ClickDislike _ | CommentSection.ClickSubmitReply _ _ _ => true
  | _ => false
  end.

(** Whether the frame event changed state of the page: the bar keeps its
    own state, the sidebar flag and the current page are the page's. *)
Definition frameChanged (old new : Shell.State) : bool :=
  negb (bool_decide (Shell.sidebarOpen new = Shell.sidebarOpen old
                     ∧ Shell.currentPage new = Shell.currentPage old)).

(** A render of the page hands the reader a new [onPageChange], and the
    reader runs its interval effect again. *)
Definition rerender (b : BookStore.Book) (changed : bool)
    (r : BookReader.State) : BookReader.State :=
  if changed
  then BookReader.transition (BookStore.title b) (BookStore.author b) speech
         BookReader.ParentRender r
  else r.

Definition readerFire (b : BookStore.Book) (e : BookReader.Event) (s : State)
    : option (State * list Effect) :=
  '(r, fx) ← BookReader.fire (BookStore.title b) (BookStore.author b) speech e (reader s);
  Some (withReader r s, fx).

(** The [Book Not Found] screen: its one button pushes the home route. *)
Definition fireNotFound (e : Event) (s : State) : option (State * list Effect) :=
  match e with ClickBack => Some (s, [RouterPush "/"]) | _ => None end.

(** The page of a book: every element is bound to the handler of the
    page or of the child it belongs to; nothing is on the screen once the
    page is left or the bar has thrown. *)
Definition fireFound (b : BookStore.Book) (e : Event) (s : State)
    : option (State * list Effect) :=
  if negb (BookReader.mounted (reader s))
     || Navigation.crashed mockBooks inRouter (Shell.nav (shell s))
  then None
  else
    match e with
    | Frame e =>
        '(sh, fx) ← Shell.fire mockBooks inRouter false e (shell s);
        Some ({| shell := sh; section := section s;
                 reader := rerender b (frameChanged (shell s) sh) (reader s) |}, fx)
    | ClickBack => Some (s, [RouterPush "/"])
    | Reader e => if fromUser e then readerFire b e s else None
    | Comments e =>
        c ← CommentSection.fire e (section s);
        Some ({| shell := shell s; section := c;
                 reader := rerender b (notifies e) (reader s) |}, [])
    | SelectBook k =>
        id ← BookRecommendations.handle mockBooks (BookStore.id b) k;
        readerFire b (BookReader.SelectBook (onBookSelect id)) s
    | Leave => Some (withReader (BookReader.unmount (reader s)) s, [])
    end.

(** [if (!book)]: which of the two screens is rendered decides what can
    happen. *)
Definition fire (e : Event) (s : State) : option (State * list Effect) :=
  match book with
  | None => fireNotFound e s
  | Some b => fireFound b e s
  end.

Definition run (es : list Event) (s : State) : option (State * list Effect) :=
  runWith fire es s.

(** The states the page reaches from its first render. *)
Definition reachable (s : State) : Prop := reachableFrom fire init s.

(** ** View *)

Section clock.
Context (getTime : string → Z) (toLocaleDateString : string → string).

Record Found : Type := {
  frame : Shell.View;
  readerView : BookReader.View;
  commentsView : CommentSection.View;
  recommendations : list BookRecommendations.Row
}.

(** The page: the [Book Not Found] screen, or the four parts.  The
    recommendation panel is rendered twice, for narrow and for wide
    screens, with the same properties; the view holds it once. *)
Inductive View : Type :=
  | NotFound
  | Page (v : Found).

Definition view (now : Z) (s : State) : View :=
  match book with
  | None => NotFound
  | Some b =>
      Page {| frame := Shell.view mockBooks inRouter (shell s);
              readerView :=
                BookReader.view (BookStore.id b) (BookStore.title b) (BookStore.author b)
                  (BookStore.uploader b) (BookStore.uploaderAvatar b)
                  (BookStore.description b) (BookStore.views b) (BookStore.uploadDate b)
                  (reader s);
              commentsView :=
                CommentSection.view getTime toLocaleDateString now
                  (CommentSection.form (section s)) (CommentSection.comments (section s));
              recommendations := BookRecommendations.view mockBooks (BookStore.id b) |}
  end.

End clock.

(** ** Invariant *)

(** The invariants of the parts, together. *)
Definition wellFormed (s : State) : Prop :=
  BookReader.coherent (reader s)
  ∧ Navigation.coherent mockBooks inRouter (Shell.nav (shell s))
  ∧ Forall CommentSection.sound (CommentSection.comments (section s)).

(** What [field || d] evaluates to, spelled out: the stored number unless
    it is missing or zero. *)
Definition stored (field : option Z) (d : Z) : Z :=
  match field with
  | Some n => if decide (n = 0) then d else n
  | None => d
  end.

(** ** Lemmas *)

Lemma opt_or_stored field d : opt_or field d = stored field d.
Proof.
  destruct field as [n|]; [|done]. unfold opt_or, js_or, truthy, Z_truthy, stored.
  case_decide as H; [by rewrite H|]. by apply Z.eqb_neq in H as ->.
Qed.

Lemma page_wellFormed_init : Forall CommentSection.sound mockComments → wellFormed init.
Proof.
  intros Hc. split_and!; [|apply Navigation.nav_coherent_init|done].
  unfold init. simpl.
  destruct book; [apply BookReader.coherent_init|apply BookReader.coherent_unmount].
Qed.

Lemma coherent_rerender b changed r :
  BookReader.mounted r = true → BookReader.coherent r →
  BookReader.coherent (rerender b changed r).
Proof.
  intros Hm Hc. unfold rerender. destruct changed; [|done].
  apply BookReader.coherent_transition; [|done]. unfold BookReader.enabled.
  by rewrite Hm.
Qed.

Lemma readerFire_Some b e s s' fx :
  readerFire b e s = Some (s', fx) →
  BookReader.enabled e (reader s) = true
  ∧ s' = withReader (BookReader.transition (BookStore.title b) (BookStore.author b)
                       speech e (reader s)) s
  ∧ fx = BookReader.fx (BookReader.handle (BookStore.title b) (BookStore.author b)
                          speech e (reader s)).
Proof.
  unfold readerFire, BookReader.fire. case_match; [|done]. simpl.
  by intros [= <- <-].
Qed.

Lemma wellFormed_readerFire b e s s' fx :
  readerFire b e s = Some (s', fx) → wellFormed s → wellFormed s'.
Proof.
  intros (He & -> & _)%readerFire_Some (Hr & Hn & Hc). split_and!; simpl; [|done..].
  by apply BookReader.coherent_transition.
Qed.

Lemma page_wellFormed_fire e s s' fx :
  fire e s = Some (s', fx) → wellFormed s → wellFormed s'.
Proof.
  unfold fire, fireFound, fireNotFound.
  destruct book as [b|]; [|destruct e; try done; by intros [= <- <-]].
  destruct (BookReader.mounted (reader s)) eqn:Hm; [|done]. simpl.
  case_match; [done|]. intros Hf Hw. pose proof Hw as (Hr & Hn & Hc).
  destruct e as [e| |e|e|k|].
  - destruct (Shell.fire _ _ _ e (shell s)) as [[sh fx']|] eqn:Hs; [|done].
    simpl in Hf. injection Hf as <- <-.
    split_and!; simpl; [by apply coherent_rerender| |done].
    by eapply Shell.shell_coherent_fire.
  - by injection Hf as <- <-.
  - case_match; [|done]. by eapply wellFormed_readerFire.
  - unfold CommentSection.fire in Hf. case_match; [|done]. simpl in Hf.
    injection Hf as <- <-.
    split_and!; simpl; [by apply coherent_rerender|done|].
    by apply CommentSection.sound_handle.
  - destruct (BookRecommendations.handle _ _ k); [|done].
    by eapply wellFormed_readerFire.
  - injection Hf as <- <-. split_and!; simpl; [|done..].
    apply BookReader.coherent_unmount.
Qed.

Lemma page_wellFormed_reachable s :
  Forall CommentSection.sound mockComments → reachable s → wellFormed s.
Proof.
  intros Hc. apply reachable_invariant; [by apply page_wellFormed_init|].
  apply page_wellFormed_fire.
Qed.

(** One round of the clock and a reaction to a comment. *)
Definition cycle (ms : Z) (i : string) : list Event :=
  [Reader (BookReader.Elapse ms); Comments (CommentSection.ClickLike i)].

Lemma cycle_starves b ms i s :
  book = Some b → BookReader.playing (reader s) →
  Navigation.crashed mockBooks inRouter (Shell.nav (shell s)) = false →
  i ∈ CommentSection.cardIds (CommentSection.comments (section s)) →
  0 < ms < 30000 →
  ∃ s', run (cycle ms i) s = Some (s', [])
    ∧ reader s' = reader s ∧ shell s' = shell s
    ∧ CommentSection.cardIds (CommentSection.comments (section s'))
      = CommentSection.cardIds (CommentSection.comments (section s)).
Proof.
  intros Hb Hp Hc Hi Hms.
  destruct (BookReader.elapse_then_render (BookStore.title b) (BookStore.author b)
              speech ms _ Hp Hms) as (He & Hm & Ht).
  assert (BookReader.mounted (reader s) = true) as Hm0 by apply Hp.
  eexists. split.
  - unfold cycle, run. cbn [runWith]. unfold fire, fireFound.
    rewrite Hb, Hm0, Hc. simpl.
    unfold readerFire, BookReader.fire. rewrite He. simpl. rewrite Hm, Hc. simpl.
    unfold CommentSection.fire. simpl. rewrite bool_decide_eq_true_2 by done.
    simpl. reflexivity.
  - simpl. split_and!; [apply Ht|done|apply CommentSection.cardIds_like].
Qed.

(** ** Theorems *)

(** C3: in every state the page reaches from its first render the
    invariants of its parts hold together: the reader has an interval
    exactly when it is mounted, reading and not muted, and its closure is
    the current render's; the search overlay agrees with the query; and
    no comment is both liked and disliked or has a counter below its
    flag. *)
Theorem book_page_invariant s :
  Forall CommentSection.sound mockComments → reachable s → wellFormed s.
Proof. apply page_wellFormed_reachable. Qed.

(** C34: for a route parameter that names no book of the
    catalogue the page is the [Book Not Found] screen; its one button
    pushes the home route and nothing else can happen; the page counters
    behind it are one and one hundred and twenty. *)
Theorem unknown_book_shows_not_found getTime toLocale now e s :
  bookId ∉ ids mockBooks →
  view getTime toLocale now s = NotFound
  ∧ fire ClickBack s = Some (s, [RouterPush "/"])
  ∧ (e ≠ ClickBack → fire e s = None)
  ∧ BookReader.bookState (reader init)
    = {| BookReader.currentPage := 1; BookReader.totalPages := 120 |}.
Proof.
  intros Hn%find_by_id_None. unfold view, fire, init, initialBookState, book.
  unfold BookStore.findBook. rewrite Hn. split_and!; [done..| |done].
  by destruct e.
Qed.

(** The reader starts on the page and with the page
    count stored with the book, not reading; a missing counter and a
    stored zero both give the default, so a book at page zero starts at
    page one and a book of zero pages has one hundred and twenty. *)
Theorem stored_counters_start_reader b :
  book = Some b →
  BookReader.bookState (reader init)
  = {| BookReader.currentPage := stored (BookStore.currentPage b) 1;
       BookReader.totalPages := stored (BookStore.totalPages b) 120 |}
  ∧ BookReader.local (reader init) = BookReader.initLocal
  ∧ BookReader.interval (reader init) = None
  ∧ BookStore.id b = bookId.
Proof.
  intros Hb. unfold init, initialBookState. rewrite Hb. simpl.
  rewrite !opt_or_stored.
  split_and!; [done..|by apply find_by_id_Some in Hb as [_ ?]].
Qed.

(** C20: selecting a recommendation sets the page counter to
    one and the page count to what the catalogue stores for the selected
    identifier (with distinct identifiers, the selected book's count, or
    one hundred and twenty when it is missing or zero); the book on the
    screen, the recommendation list, the comments and the flags of the
    reader stay those of the route. *)
Theorem selection_keeps_book_on_screen getTime toLocale now k b b' s :
  book = Some b → BookReader.mounted (reader s) = true →
  Navigation.crashed mockBooks inRouter (Shell.nav (shell s)) = false →
  BookStore.recommendations mockBooks (BookStore.id b) !! k = Some b' →
  ∃ s' v v',
    fire (SelectBook k) s = Some (s', [])
    ∧ BookReader.bookState (reader s') = onBookSelect (BookStore.id b')
    ∧ BookReader.currentPage (BookReader.bookState (reader s')) = 1
    ∧ (NoDup (ids mockBooks) →
       BookReader.totalPages (BookReader.bookState (reader s'))
       = stored (BookStore.totalPages b') 120)
    ∧ BookReader.local (reader s') = BookReader.local (reader s)
    ∧ view getTime toLocale now s = Page v ∧ view getTime toLocale now s' = Page v'
    ∧ FlipBook.title (BookReader.flipBook (readerView v')) = BookStore.title b
    ∧ FlipBook.bookId (BookReader.flipBook (readerView v')) = BookStore.id b
    ∧ recommendations v' = recommendations v
    ∧ commentsView v' = commentsView v ∧ frame v' = frame v.
Proof.
  intros Hb Hm Hc Hk.
  unfold fire, fireFound, view, BookRecommendations.handle.
  rewrite Hb, Hm, Hc, Hk. simpl. unfold readerFire, BookReader.fire, BookReader.enabled.
  rewrite Hm. simpl. eexists _, _, _. split_and!; try done.
  intros Hd. simpl. unfold BookStore.findBook. rewrite opt_or_stored.
  apply list_elem_of_lookup_2, BookStore.recommendations_elem in Hk as [Hk _].
  change (BookStore.id b') with (get_id b'). by rewrite find_by_id_elem.
Qed.

(** C10: a reaction to a comment renders the page, and the
    reader arms its interval again with a full period.  While reactions
    come more often than once per period the book stays on its page:
    after any number of rounds of waiting less than a period and liking a
    comment, the reader is in the state it started in. *)
Theorem page_activity_starves_autoplay n b ms i s :
  book = Some b → BookReader.playing (reader s) →
  Navigation.crashed mockBooks inRouter (Shell.nav (shell s)) = false →
  i ∈ CommentSection.cardIds (CommentSection.comments (section s)) →
  0 < ms < 30000 →
  ∃ s', run (concat (replicate n (cycle ms i))) s = Some (s', [])
    ∧ reader s' = reader s ∧ shell s' = shell s.
Proof.
  intros Hb Hp Hc Hi Hms.
  destruct (runWith_cycles_within fire
    (λ t, reader t = reader s ∧ shell t = shell s
          ∧ i ∈ CommentSection.cardIds (CommentSection.comments (section t)))
    (cycle ms i) n s) as (s' & Hr & Hr' & Hs' & _); [|done|by exists s'].
  intros t (Hrt & Hst & Hit).
  destruct (cycle_starves b ms i t) as (t' & Hrun & Hr1 & Hs1 & Hi1);
    [by rewrite ?Hrt, ?Hst..|].
  exists t'. split; [done|]. by rewrite Hr1, Hs1, Hi1.
Qed.


(** Leaving the page clears the interval of the reader, and
    nothing happens on the page afterwards. *)
Theorem leaving_ends_the_reader e s s' fx :
  fire Leave s = Some (s', fx) →
  BookReader.interval (reader s') = None ∧ fx = [] ∧ fire e s' = None.
Proof.
  unfold fire, fireFound, fireNotFound. destruct book as [b|]; [|done]. case_match; [done|].
  by intros [= <- <-].
Qed.

End page.

(** ** Witnesses *)

Notation "'demoBooks'" := BookStore.demoCatalogue (only parsing).

Definition demoFire (bookId : string) (e : Event) (s : State) : State :=
  default s (fst <$> fire demoBooks true false bookId e s).

(** The page of the first book, and the same page with auto-read on. *)
Definition demoInit : State := init demoBooks CommentThread.demoThread "1".

Definition demoReading : State :=
  demoFire "1" (Reader BookReader.ClickAutoRead) demoInit.

Lemma demoReading_reachable :
  reachable demoBooks CommentThread.demoThread true false "1" demoReading.
Proof.
  apply (reachable_next (Reader BookReader.ClickAutoRead) demoInit demoReading
           [BookReader.startedToast "Dune" (reader demoInit)]);
    [apply reachable_here|reflexivity].
Qed.

Lemma book_page_invariant_witness : wellFormed demoBooks true demoReading.
Proof.
  apply (book_page_invariant demoBooks CommentThread.demoThread true false "1");
    [by_compute|apply demoReading_reachable].
Defined.

Lemma unknown_book_shows_not_found_witness :
  let s := init demoBooks CommentThread.demoThread "9" in
  view demoBooks true "9" (λ _, 0) (λ t, t) 0 s = NotFound
  ∧ fire demoBooks true false "9" ClickBack s = Some (s, [RouterPush "/"])
  ∧ (Leave ≠ ClickBack → fire demoBooks true false "9" Leave s = None)
  ∧ BookReader.bookState (reader s)
    = {| BookReader.currentPage := 1; BookReader.totalPages := 120 |}.
Proof.
  apply (unknown_book_shows_not_found demoBooks CommentThread.demoThread true false "9").
  by_compute.
Defined.

Lemma stored_counters_start_reader_witness :
  BookReader.bookState (reader (init demoBooks CommentThread.demoThread "2"))
  = {| BookReader.currentPage := 1; BookReader.totalPages := 300 |}
  ∧ BookReader.local (reader (init demoBooks CommentThread.demoThread "2"))
    = BookReader.initLocal
  ∧ BookReader.interval (reader (init demoBooks CommentThread.demoThread "2")) = None
  ∧ BookStore.id BookStore.demoEmma = "2".
Proof.
  apply (stored_counters_start_reader demoBooks CommentThread.demoThread "2"
           BookStore.demoEmma).
  reflexivity.
Defined.

Lemma selection_keeps_book_on_screen_witness :
  ∃ s' v v',
    fire demoBooks true false "1" (SelectBook 0) demoReading = Some (s', [])
    ∧ BookReader.bookState (reader s') = onBookSelect demoBooks "2"
    ∧ BookReader.currentPage (BookReader.bookState (reader s')) = 1
    ∧ (NoDup (ids demoBooks) →
       BookReader.totalPages (BookReader.bookState (reader s')) = 300)
    ∧ BookReader.local (reader s') = BookReader.local (reader demoReading)
    ∧ view demoBooks true "1" (λ _, 0) (λ t, t) 0 demoReading = Page v
    ∧ view demoBooks true "1" (λ _, 0) (λ t, t) 0 s' = Page v'
    ∧ FlipBook.title (BookReader.flipBook (readerView v')) = "Dune"
    ∧ FlipBook.bookId (BookReader.flipBook (readerView v')) = "1"
    ∧ recommendations v' = recommendations v
    ∧ commentsView v' = commentsView v ∧ frame v' = frame v.
Proof.
  apply (selection_keeps_book_on_screen demoBooks true false "1" (λ _, 0) (λ t, t) 0
           0%nat BookStore.demoDune BookStore.demoEmma demoReading); reflexivity.
Defined.

Lemma page_activity_starves_autoplay_witness :
  ∃ s', run demoBooks true false "1" (concat (replicate 3 (cycle 20000 "1"))) demoReading
        = Some (s', [])
    ∧ reader s' = reader demoReading ∧ shell s' = shell demoReading.
Proof.
  apply (page_activity_starves_autoplay demoBooks true false "1" 3 BookStore.demoDune);
    [reflexivity|by repeat split|reflexivity|by_compute|lia].
Defined.


Lemma leaving_ends_the_reader_witness :
  let s' := demoFire "1" Leave demoReading in
  BookReader.interval (reader s') = None ∧ @nil Effect = []
  ∧ fire demoBooks true false "1" ClickBack s' = None.
Proof.
  apply (leaving_ends_the_reader demoBooks true false "1" ClickBack demoReading).
  reflexivity.
Defined.

End BookPage.
